(** * Lottie & SVG preview toolbox: a shallow embedding of its session,
      viewport, export, preference and recent-file code.

    Conventions of the embedding.

    - JavaScript numbers are modelled exactly: integers as [Z], other
      numbers as rationals [Q]; the rounding of IEEE doubles is not
      modelled.  [Math.round] is [floor (x + 1/2)], which is what ECMAScript
      specifies (ties go up).  [NaN] and [undefined] are [None] of an option
      type where the source can meet them.
    - JavaScript exceptions are explicit: a computation returns either a
      value or a thrown error together with the state reached so far, so
      assignments made before a [throw] stay visible after a [catch], as
      they do in the source.
    - The browser is an explicit state: [localStorage], the clock read by
      [Date.now], the events dispatched on [document] and the [alert]s shown.
    - The JSON engine, the playback engine and the image decoder are
      interfaces the code consumes; they are parameters of the model. *)

From Stdlib Require Import ZArith QArith Qround Qminmax Qabs Lia Lqa String Ascii List.
From stdpp Require Import base option list strings pretty gmap.

Set Default Proof Using "Type".
Local Open Scope Z_scope.

(* ===================================================================== *)
(** * JavaScript primitives used by the sources                           *)
(* ===================================================================== *)

Module JS.

(** [Math.round(x)]: the integer closest to [x], ties towards +infinity. *)
Definition Math_round (x : Q) : Z := Qfloor (x + (1 # 2))%Q.

(** [Math.max(lo, Math.min(hi, x))] on integers. *)
Definition clampZ (lo hi x : Z) : Z := Z.max lo (Z.min hi x).

(** [Math.max(lo, Math.min(hi, x))] on rationals. *)
Definition clampQ (lo hi x : Q) : Q := Qmax lo (Qmin hi x).

(** Falsy test of a number: [!x] is true for [0] (and [NaN]). *)
Definition is_zero (x : Q) : bool := Qeq_bool x 0.

(** [a || b] on numbers where [a] may be [undefined]/[NaN]. *)
Definition num_or (a : option Q) (b : Q) : Q :=
  match a with
  | Some x => if is_zero x then b else x
  | None => b
  end.

(** [a || b] where both sides may be [undefined]. *)
Definition num_or_opt (a b : option Q) : option Q :=
  match a with
  | Some x => if is_zero x then b else Some x
  | None => b
  end.

(** [a || b] on integers. *)
Definition int_or (a b : Z) : Z := if a =? 0 then b else a.

(** [s || d] on strings that may be missing: the empty string is falsy. *)
Definition str_or (s : option string) (d : string) : string :=
  match s with
  | Some EmptyString | None => d
  | Some v => v
  end.

(** White space skipped by [parseInt] (the ASCII part of it). *)
Definition is_space (c : ascii) : bool :=
  let n := nat_of_ascii c in
  (n =? 32)%nat || ((9 <=? n)%nat && (n <=? 13)%nat).

Definition digit_of (c : ascii) : option Z :=
  let n := Z.of_nat (nat_of_ascii c) in
  if (48 <=? n) && (n <=? 57) then Some (n - 48) else None.

Fixpoint skip_space (s : string) : string :=
  match s with
  | String c r => if is_space c then skip_space r else s
  | EmptyString => s
  end.

(** Reads the longest prefix of decimal digits. *)
Fixpoint read_digits (s : string) (acc : Z) : Z :=
  match s with
  | String c r =>
      match digit_of c with
      | Some d => read_digits r (10 * acc + d)
      | None => acc
      end
  | EmptyString => acc
  end.

(** [parseInt(s, 10)]; [None] is [NaN]. *)
Definition parseInt (s : string) : option Z :=
  let s1 := skip_space s in
  let '(neg, s2) :=
    match s1 with
    | String "-"%char r => (true, r)
    | String "+"%char r => (false, r)
    | _ => (false, s1)
    end in
  match s2 with
  | String c _ =>
      match digit_of c with
      | Some _ => Some (if neg then - read_digits s2 0 else read_digits s2 0)
      | None => None
      end
  | EmptyString => None
  end.

(** Errors the modelled code can see thrown. *)
Inductive Error :=
| SyntaxError      (* JSON.parse on malformed text *)
| SecurityError.   (* localStorage not accessible *)

End JS.

(* ===================================================================== *)
(** * Computations with state and exceptions                              *)
(* ===================================================================== *)

(** [M S A]: runs on a state [S], ends in a value or in a thrown error; the
    state is returned in both cases. *)
Definition M (S A : Type) : Type := S -> S * (JS.Error + A).

Definition ret {S A} (a : A) : M S A := fun s => (s, inr a).

Definition bind {S A B} (m : M S A) (k : A -> M S B) : M S B :=
  fun s =>
    match m s with
    | (s', inr a) => k a s'
    | (s', inl e) => (s', inl e)
    end.

Definition throw {S A} (e : JS.Error) : M S A := fun s => (s, inl e).

(** [try { body } catch (e) { handler }] *)
Definition try_catch {S A} (body : M S A) (handler : JS.Error -> M S A) : M S A :=
  fun s =>
    match body s with
    | (s', inl e) => handler e s'
    | r => r
    end.

Definition get {S} : M S S := fun s => (s, inr s).
Definition modify {S} (f : S -> S) : M S unit := fun s => (f s, inr tt).

(** Runs a computation on a component of the state. *)
Definition zoom {S T A} (proj : S -> T) (inj : T -> S -> S) (m : M T A) : M S A :=
  fun s => let '(t, r) := m (proj s) in (inj t s, r).

Declare Scope js_scope.
Delimit Scope js_scope with js.
Notation "x <- m ;; k" := (bind m (fun x => k))
  (at level 100, m at next level, right associativity) : js_scope.
Notation "m ;; k" := (bind m (fun _ => k))
  (at level 100, right associativity) : js_scope.
Local Open Scope js_scope.

Definition when {S} (b : bool) (m : M S unit) : M S unit :=
  if b then m else ret tt.

(** State reached and outcome of a run. *)
Definition exec {S A} (m : M S A) (s : S) : S := fst (m s).
Definition outcome {S A} (m : M S A) (s : S) : JS.Error + A := snd (m s).

(* ===================================================================== *)
(** * The browser                                                         *)
(* ===================================================================== *)

Record Browser := mkBrowser {
  (** [None]: access to [localStorage] throws. *)
  localStorage : option (gmap string string);
  (** value returned by [Date.now()] *)
  clock : Z;
  (** names of the events dispatched on [document], latest first *)
  dispatched : list string;
  (** messages shown with [alert], latest first *)
  alerts : list string;
}.

Definition set_localStorage (m : gmap string string) (b : Browser) : Browser :=
  {| localStorage := Some m; clock := clock b;
     dispatched := dispatched b; alerts := alerts b |}.

Definition add_dispatched (ev : string) (b : Browser) : Browser :=
  {| localStorage := localStorage b; clock := clock b;
     dispatched := ev :: dispatched b; alerts := alerts b |}.

Definition add_alert (msg : string) (b : Browser) : Browser :=
  {| localStorage := localStorage b; clock := clock b;
     dispatched := dispatched b; alerts := msg :: alerts b |}.

(** [localStorage.getItem(key)]; [None] is [null]. *)
Definition localStorage_getItem (key : string) : M Browser (option string) :=
  fun b =>
    match localStorage b with
    | Some m => (b, inr (m !! key))
    | None => (b, inl JS.SecurityError)
    end.

(** [localStorage.setItem(key, value)] *)
Definition localStorage_setItem (key value : string) : M Browser unit :=
  fun b =>
    match localStorage b with
    | Some m => (set_localStorage (<[key := value]> m) b, inr tt)
    | None => (b, inl JS.SecurityError)
    end.

Definition Date_now : M Browser Z := fun b => (b, inr (clock b)).

Definition document_dispatchEvent (ev : string) : M Browser unit :=
  modify (add_dispatched ev).

Definition alert (msg : string) : M Browser unit := modify (add_alert msg).

(** [console.warn] and [console.error] leave no trace in the state. *)
Definition console_log : M Browser unit := ret tt.

(** [localStorage.removeItem(key)] *)
Definition localStorage_removeItem (key : string) : M Browser unit :=
  fun b =>
    match localStorage b with
    | Some m => (set_localStorage (delete key m) b, inr tt)
    | None => (b, inl JS.SecurityError)
    end.

(** The keys of a store, in the order [localStorage.key(0)],
    [localStorage.key(1)], ... enumerates them. *)
Definition stored_keys (m : gmap string string) : list string :=
  (map_to_list m).*1.

(** [localStorage.length] *)
Definition localStorage_length : M Browser nat :=
  fun b =>
    match localStorage b with
    | Some m => (b, inr (length (stored_keys m)))
    | None => (b, inl JS.SecurityError)
    end.

(** [localStorage.key(i)]; [None] is [null]. *)
Definition localStorage_key (i : nat) : M Browser (option string) :=
  fun b =>
    match localStorage b with
    | Some m => (b, inr (stored_keys m !! i))
    | None => (b, inl JS.SecurityError)
    end.

(** [list.forEach(f)] *)
Fixpoint forEach {S A} (f : A -> M S unit) (l : list A) : M S unit :=
  match l with
  | [] => ret tt
  | x :: r => f x ;; forEach f r
  end.

(** [s.startsWith(p)] *)
Definition startsWith (s p : string) : bool := String.prefix p s.


(* ===================================================================== *)
(** * src/utils/preferences.ts                                            *)
(* ===================================================================== *)

Module Preferences.

(** [keyof PreferenceKeys] *)
Inductive PreferenceKey :=
| bg | bg_custom_color | export_format | aggressive_optimization
| loop | ignore_opacity | show_frame | recent_files | card_collapsed.

(** The JavaScript name of a key. *)
Definition key_name (k : PreferenceKey) : string :=
  match k with
  | bg => "bg"
  | bg_custom_color => "bg-custom-color"
  | export_format => "export-format"
  | aggressive_optimization => "aggressive-optimization"
  | loop => "loop"
  | ignore_opacity => "ignore-opacity"
  | show_frame => "show-frame"
  | recent_files => "recent-files"
  | card_collapsed => "card-collapsed"
  end.

(** A preference value: the source has booleans and strings. *)
Inductive PreferenceValue :=
| PBool (b : bool)
| PString (s : string).

Definition DEFAULT_PREFERENCES (k : PreferenceKey) : PreferenceValue :=
  match k with
  | bg => PString "white"
  | bg_custom_color => PString "#ffffff"
  | export_format => PString "svg"
  | aggressive_optimization => PBool false
  | loop => PBool true
  | ignore_opacity => PBool false
  | show_frame => PBool false
  | recent_files => PString "[]"
  | card_collapsed => PBool false
  end.

Definition PREFIX : string := "lottie-converter-".

(** [typeof v === "boolean"] *)
Definition is_boolean (v : PreferenceValue) : bool :=
  match v with PBool _ => true | PString _ => false end.

(** [defaultValue ?? DEFAULT_PREFERENCES[key]] *)
Definition fallback (key : PreferenceKey) (defaultValue : option PreferenceValue)
  : PreferenceValue :=
  match defaultValue with
  | Some v => v
  | None => DEFAULT_PREFERENCES key
  end.

Definition getPreference (key : PreferenceKey) (defaultValue : option PreferenceValue)
  : M Browser PreferenceValue :=
  try_catch
    (stored <- localStorage_getItem (PREFIX ++ key_name key) ;;
     match stored with
     | None => ret (fallback key defaultValue)
     | Some s =>
         if is_boolean (DEFAULT_PREFERENCES key)
         then ret (PBool (String.eqb s "true"))
         else ret (PString s)
     end)
    (fun _ => console_log ;; ret (fallback key defaultValue)).

(** [String(value)] *)
Definition String_of (v : PreferenceValue) : string :=
  match v with
  | PBool true => "true"
  | PBool false => "false"
  | PString s => s
  end.

Definition setPreference (key : PreferenceKey) (value : PreferenceValue)
  : M Browser unit :=
  try_catch
    (localStorage_setItem (PREFIX ++ key_name key) (String_of value))
    (fun _ => console_log).

(** The stored text is a valid encoding of a value of the key's type: for
    a boolean key, what [setPreference] writes. *)
Definition well_formed (key : PreferenceKey) (stored : string) : Prop :=
  match DEFAULT_PREFERENCES key with
  | PBool _ => stored = "true" \/ stored = "false"
  | PString _ => True
  end.

(** [getCardCollapsed]: the card id is not used. *)
Definition getCardCollapsed (cardId : string) : M Browser PreferenceValue :=
  getPreference card_collapsed (Some (PBool false)).

Definition setCardCollapsed (cardId : string) (collapsed : bool) : M Browser unit :=
  try_catch
    (localStorage_setItem ("card-" ++ cardId ++ "-collapsed")
       (String_of (PBool collapsed)))
    (fun _ => console_log).

(** [Object.keys(DEFAULT_PREFERENCES)], in the order of the declaration. *)
Definition all_keys : list PreferenceKey :=
  [bg; bg_custom_color; export_format; aggressive_optimization;
   loop; ignore_opacity; show_frame; recent_files; card_collapsed].

Definition is_card_collapsed (k : PreferenceKey) : bool :=
  match k with card_collapsed => true | _ => false end.

(** [getAllPreferences]: the object built, as the list of its entries. *)
Fixpoint getAllPreferences_from (keys : list PreferenceKey)
  : M Browser (list (PreferenceKey * PreferenceValue)) :=
  match keys with
  | [] => ret []
  | key :: rest =>
      if is_card_collapsed key then getAllPreferences_from rest
      else
        v <- getPreference key None ;;
        more <- getAllPreferences_from rest ;;
        ret ((key, v) :: more)
  end.

Definition getAllPreferences : M Browser (list (PreferenceKey * PreferenceValue)) :=
  getAllPreferences_from all_keys.

(** The loop of [resetAllPreferences] over the indices [i .. i + n - 1]:
    it collects the keys that start with one of the two prefixes. *)
Fixpoint collect_keysToRemove (n i : nat) : M Browser (list string) :=
  match n with
  | O => ret []
  | S n' =>
      key <- localStorage_key i ;;
      more <- collect_keysToRemove n' (S i) ;;
      match key with
      | Some (String _ _ as k) =>
          if startsWith k PREFIX || startsWith k "card-"
          then ret (k :: more) else ret more
      | _ => ret more
      end
  end.

Definition resetAllPreferences : M Browser unit :=
  try_catch
    (n <- localStorage_length ;;
     keysToRemove <- collect_keysToRemove n 0 ;;
     forEach localStorage_removeItem keysToRemove)
    (fun _ => console_log).

Definition isLocalStorageAvailable : M Browser bool :=
  try_catch
    (localStorage_setItem "__localStorage_test__" "__localStorage_test__" ;;
     localStorage_removeItem "__localStorage_test__" ;;
     ret true)
    (fun _ => ret false).

End Preferences.


(* ===================================================================== *)
(** * src/scripts/recent-files.ts                                         *)
(* ===================================================================== *)

Module RecentItem.

(** [export type RecentItem]; a missing [content] is [None]. *)
Record t := mk {
  name : string;
  size : Z;
  lastOpened : Z;
  content : option string;
}.

(** [{ ...it, lastOpened: now }] *)
Definition with_lastOpened (now : Z) (it : t) : t :=
  {| name := name it; size := size it; lastOpened := now; content := content it |}.

(** The pair the list is deduplicated by. *)
Definition key (it : t) : string * Z := (name it, size it).

End RecentItem.

(** The JSON engine of the browser, as the sources use it.  [Json] is the
    type of parsed documents ([any] in the source). *)
Class JSON := {
  Json : Type;
  (** [JSON.parse(text)]; [None]: a [SyntaxError] is thrown. *)
  JSON_parse : string -> option Json;
  (** [Array.isArray(v)], and the array read at the type the source casts
      it to ([as RecentItem[]]); [None]: not an array. *)
  as_RecentItems : Json -> option (list RecentItem.t);
  (** [JSON.stringify(items)] *)
  JSON_stringify : list RecentItem.t -> string;
  (** [!!v] *)
  truthy : Json -> bool;
  (** [Number(v?.[k])]; [None] is [NaN]. *)
  Number_prop : Json -> string -> option Q;
}.

Section RecentFilesCode.
Context `{JSON}.

Definition RECENT_KEY : string := "lottie-converter-recent-files".
Definition MAX_ITEMS : nat := 20.
Definition MAX_INLINE_BYTES : Z := 300000.

Definition JSON_parse_or_throw {S} (text : string) : M S Json :=
  match JSON_parse text with
  | Some v => ret v
  | None => throw JS.SyntaxError
  end.

Definition getRecentFiles : M Browser (list RecentItem.t) :=
  try_catch
    (stored <- localStorage_getItem RECENT_KEY ;;
     let raw := JS.str_or stored "[]" in
     parsed <- JSON_parse_or_throw raw ;;
     match as_RecentItems parsed with
     | Some items => ret items
     | None => ret []
     end)
    (fun _ => ret []).

(** [new Blob([content]).size]: the number of bytes of the text (a string
    of the model is its UTF-8 bytes). *)
Definition Blob_size (content : string) : Z := Z.of_nat (String.length content).

(** [it.name === name && it.size === size] *)
Definition same_file (name : string) (size : Z) (it : RecentItem.t) : bool :=
  String.eqb (RecentItem.name it) name && (RecentItem.size it =? size).

(** The content kept inline by [saveRecentFile]. *)
Definition inlineContent (content : option string) : option string :=
  match content with
  | Some c => if Blob_size c <=? MAX_INLINE_BYTES then Some c else None
  | None => None
  end.

(** The list [saveRecentFile] writes, from the list it read. *)
Definition saveRecentFile_next (name : string) (size : Z) (content : option string)
    (now : Z) (items : list RecentItem.t) : list RecentItem.t :=
  let withoutDupes := List.filter (fun it => negb (same_file name size it)) items in
  take MAX_ITEMS
    ({| RecentItem.name := name; RecentItem.size := size;
        RecentItem.lastOpened := now;
        RecentItem.content := inlineContent content |} :: withoutDupes).

Definition saveRecentFile (name : string) (size : Z) (content : option string)
  : M Browser unit :=
  items <- getRecentFiles ;;
  now <- Date_now ;;
  let next := saveRecentFile_next name size content now items in
  localStorage_setItem RECENT_KEY (JSON_stringify next) ;;
  document_dispatchEvent "recent:refresh".

(** The list [touchRecent] writes, from the list it read. *)
Definition touchRecent_next (name : string) (size : Z) (now : Z)
    (items : list RecentItem.t) : list RecentItem.t :=
  List.map (fun it => if same_file name size it
                      then RecentItem.with_lastOpened now it else it) items.

Definition touchRecent (name : string) (size : Z) : M Browser unit :=
  items <- getRecentFiles ;;
  now <- Date_now ;;
  let next := touchRecent_next name size now items in
  localStorage_setItem RECENT_KEY (JSON_stringify next) ;;
  document_dispatchEvent "recent:refresh".

(** One operation on the recent-files list. *)
Inductive RecentOp :=
| Save (name : string) (size : Z) (content : option string) (now : Z)
| Touch (name : string) (size : Z) (now : Z).

Definition apply_op (op : RecentOp) (items : list RecentItem.t) : list RecentItem.t :=
  match op with
  | Save name size content now => saveRecentFile_next name size content now items
  | Touch name size now => touchRecent_next name size now items
  end.

(** The lists the two operations build, starting from the empty list (the
    default of a store that has no list yet). *)
Definition run_ops (ops : list RecentOp) : list RecentItem.t :=
  fold_left (fun items op => apply_op op items) ops [].

End RecentFilesCode.

(* ===================================================================== *)
(** * The page: SVG elements, widgets and the playback engine             *)
(* ===================================================================== *)

(** What an [<svg>] element of the render surface shows. *)
Inductive SvgContent :=
| EngineFrame (frame : Z)          (* drawn by the playback engine *)
| StaticMarkup (markup : string).  (* children of an imported document *)

(** The inline style the preview writes on the root [<svg>]:
    [left: calc(50% + left_px)], [top: calc(50% + top_px)], [width],
    [height] ([None] is [auto]) and
    [transform: translate(-50%, -50%) scale(scale)]. *)
Record PreviewStyle := mkPreviewStyle {
  left_px : Q;
  top_px : Q;
  style_width : option Q;
  style_height : option Q;
  transform_scale : Q;
}.

(** The preview-only [<rect data-frame-overlay="true">]. *)
Record FrameOverlay := mkFrameOverlay {
  overlay_width : Q;
  overlay_height : Q;
  (** [stroke-width] and [stroke-dasharray], once normalised *)
  stroke : option (Q * (Q * Q));
}.

(** A root [<svg>] element.  Attributes hold their numeric value. *)
Record SvgElement := mkSvg {
  attr_width : option Q;
  attr_height : option Q;
  (** [viewBox]: min-x, min-y, width, height *)
  attr_viewBox : option (Q * Q * Q * Q);
  attr_preserveAspectRatio : option string;
  style : option PreviewStyle;
  frameOverlay : option FrameOverlay;
  (** [<style data-ignore-opacity="true">] present *)
  ignoreOpacityStyle : bool;
  svgContent : SvgContent;
}.

(** [svg.viewBox?.baseVal?.width]: [0] without a view box. *)
Definition viewBox_width (svg : SvgElement) : Q :=
  match attr_viewBox svg with Some (_, _, w, _) => w | None => 0%Q end.

Definition viewBox_height (svg : SvgElement) : Q :=
  match attr_viewBox svg with Some (_, _, _, h) => h | None => 0%Q end.

(** Width and height of [getBoundingClientRect()]. *)
Record Rect := mkRect { rect_width : Q; rect_height : Q }.

(** The render surface [#lottie-container]. *)
Record Container := mkContainer {
  svg : option SvgElement;      (* [querySelector("svg")] *)
  visible : bool;               (* [style.visibility] *)
  container_rect : Rect;
}.

(** The hidden range input of the frame slider ([value] and [max] hold the
    integer their text denotes). *)
Record Slider := mkSlider { slider_value : Z; slider_max : Z }.

(** The elements the controller looks up; [None]: not on the page. *)
Record DOMElements := mkDOM {
  lottieContainer : option Container;
  previewContainer : option Rect;
  frameSlider : option Slider;
  (** [value] of the export format select, compression and raster-scale
      inputs; [None]: element missing *)
  exportFormatSelect : option string;
  compressionSlider : option string;
  rasterScaleSlider : option string;
  (** [aria-checked] of the optimisation switch is ["true"] *)
  aggressiveOptimizationCheckbox : option bool;
  (** [parseFloat] of the root font size; [None]: not finite *)
  rootFontSize : option Q;
}.

Definition set_lottieContainer (v : option Container) (d : DOMElements) : DOMElements :=
  {| lottieContainer := v; previewContainer := previewContainer d;
     frameSlider := frameSlider d; exportFormatSelect := exportFormatSelect d;
     compressionSlider := compressionSlider d;
     rasterScaleSlider := rasterScaleSlider d;
     aggressiveOptimizationCheckbox := aggressiveOptimizationCheckbox d;
     rootFontSize := rootFontSize d |}.

Definition set_frameSlider (v : option Slider) (d : DOMElements) : DOMElements :=
  {| lottieContainer := lottieContainer d; previewContainer := previewContainer d;
     frameSlider := v; exportFormatSelect := exportFormatSelect d;
     compressionSlider := compressionSlider d;
     rasterScaleSlider := rasterScaleSlider d;
     aggressiveOptimizationCheckbox := aggressiveOptimizationCheckbox d;
     rootFontSize := rootFontSize d |}.

Definition set_svg (v : option SvgElement) (c : Container) : Container :=
  {| svg := v; visible := visible c; container_rect := container_rect c |}.

Definition set_visible (v : bool) (c : Container) : Container :=
  {| svg := svg c; visible := v; container_rect := container_rect c |}.

Definition set_style (v : option PreviewStyle) (e : SvgElement) : SvgElement :=
  {| attr_width := attr_width e; attr_height := attr_height e;
     attr_viewBox := attr_viewBox e;
     attr_preserveAspectRatio := attr_preserveAspectRatio e;
     style := v; frameOverlay := frameOverlay e;
     ignoreOpacityStyle := ignoreOpacityStyle e; svgContent := svgContent e |}.

Definition set_preserveAspectRatio (v : string) (e : SvgElement) : SvgElement :=
  {| attr_width := attr_width e; attr_height := attr_height e;
     attr_viewBox := attr_viewBox e;
     attr_preserveAspectRatio := Some v;
     style := style e; frameOverlay := frameOverlay e;
     ignoreOpacityStyle := ignoreOpacityStyle e; svgContent := svgContent e |}.

Definition set_dimensions (w h : Q) (vb : Q * Q * Q * Q) (e : SvgElement) : SvgElement :=
  {| attr_width := Some w; attr_height := Some h;
     attr_viewBox := Some vb;
     attr_preserveAspectRatio := attr_preserveAspectRatio e;
     style := style e; frameOverlay := frameOverlay e;
     ignoreOpacityStyle := ignoreOpacityStyle e; svgContent := svgContent e |}.

Definition set_frameOverlay (v : option FrameOverlay) (e : SvgElement) : SvgElement :=
  {| attr_width := attr_width e; attr_height := attr_height e;
     attr_viewBox := attr_viewBox e;
     attr_preserveAspectRatio := attr_preserveAspectRatio e;
     style := style e; frameOverlay := v;
     ignoreOpacityStyle := ignoreOpacityStyle e; svgContent := svgContent e |}.

Definition set_ignoreOpacityStyle (v : bool) (e : SvgElement) : SvgElement :=
  {| attr_width := attr_width e; attr_height := attr_height e;
     attr_viewBox := attr_viewBox e;
     attr_preserveAspectRatio := attr_preserveAspectRatio e;
     style := style e; frameOverlay := frameOverlay e;
     ignoreOpacityStyle := v; svgContent := svgContent e |}.

Definition set_svgContent (v : SvgContent) (e : SvgElement) : SvgElement :=
  {| attr_width := attr_width e; attr_height := attr_height e;
     attr_viewBox := attr_viewBox e;
     attr_preserveAspectRatio := attr_preserveAspectRatio e;
     style := style e; frameOverlay := frameOverlay e;
     ignoreOpacityStyle := ignoreOpacityStyle e; svgContent := v |}.

(** An instance of the playback engine ([AnimationItem] of lottie-web). *)
Module AnimationItem.
Record t := mk {
  totalFrames : Z;
  currentFrame : Z;
  loop : bool;
  isPaused : bool;
}.
Definition set_currentFrame (v : Z) (a : t) : t :=
  {| totalFrames := totalFrames a; currentFrame := v; loop := loop a;
     isPaused := isPaused a |}.
Definition set_loop (v : bool) (a : t) : t :=
  {| totalFrames := totalFrames a; currentFrame := currentFrame a; loop := v;
     isPaused := isPaused a |}.
Definition set_isPaused (v : bool) (a : t) : t :=
  {| totalFrames := totalFrames a; currentFrame := currentFrame a; loop := loop a;
     isPaused := v |}.
End AnimationItem.
Abbreviation AnimationItem := AnimationItem.t.

(** The collaborators the controller consumes besides the JSON engine. *)
Class Engines `{JSON} := {
  (** [totalFrames] of the instance [lottie.loadAnimation] builds from the
      animation data *)
  lottie_totalFrames : Json -> Z;
  (** the root [<svg>] the engine inserts into the container *)
  lottie_svg : Json -> SvgElement;
  (** the root [<svg>] found after [container.innerHTML = text];
      [None]: the text holds no [<svg>] element *)
  parse_svg : string -> option SvgElement;
  (** natural width and height of the image decoded from a document *)
  image_natural_size : SvgElement -> Z * Z;
  (** a document that declares whole-number [width] and [height] decodes
      to an image of that natural size *)
  image_natural_size_declared :
    forall (doc : SvgElement) (w h : Z),
      attr_width doc = Some (inject_Z w) ->
      attr_height doc = Some (inject_Z h) ->
      image_natural_size doc = (w, h);
}.

Inductive ZoomMode := fit | fixed.

Section ConverterState.
Context `{Engines}.

(** [LottieConverterState]; a field that may be [undefined] is an option. *)
Record LottieConverterState := mkState {
  animationInstance : option AnimationItem;
  animationData : option Json;
  totalFrames : Z;
  currentFrame : Z;
  originalFilename : option string;
  originalFileExt : option string;
  fileSizeBytes : option Z;
  isPlaying : bool;
  isLooping : bool;
  zoomMode : ZoomMode;
  zoomPercent : Z;
  ignoreOpacity : bool;
  width : option Q;
  height : option Q;
  fps : option Q;
}.

(** The fields of [class LottieConverter]. *)
Record LottieConverter := mkConverter {
  state : LottieConverterState;
  currentFileName : option string;
  currentFileSize : option Z;
  hasInteractedSinceLoad : bool;
  isPanning : bool;
  lastClientX : Q;
  lastClientY : Q;
  panOffsetX : Q;
  panOffsetY : Q;
  frameOutlineOn : bool;
  elements : DOMElements;
}.

Definition set_animationInstance (v : option AnimationItem) (r : LottieConverterState) : LottieConverterState :=
  {| animationInstance := v; animationData := animationData r; totalFrames :=
     totalFrames r; currentFrame := currentFrame r; originalFilename :=
     originalFilename r; originalFileExt := originalFileExt r; fileSizeBytes
     := fileSizeBytes r; isPlaying := isPlaying r; isLooping := isLooping r;
     zoomMode := zoomMode r; zoomPercent := zoomPercent r; ignoreOpacity :=
     ignoreOpacity r; width := width r; height := height r; fps := fps r |}.
Definition set_animationData (v : option Json) (r : LottieConverterState) : LottieConverterState :=
  {| animationInstance := animationInstance r; animationData := v; totalFrames
     := totalFrames r; currentFrame := currentFrame r; originalFilename :=
     originalFilename r; originalFileExt := originalFileExt r; fileSizeBytes
     := fileSizeBytes r; isPlaying := isPlaying r; isLooping := isLooping r;
     zoomMode := zoomMode r; zoomPercent := zoomPercent r; ignoreOpacity :=
     ignoreOpacity r; width := width r; height := height r; fps := fps r |}.
Definition set_totalFrames (v : Z) (r : LottieConverterState) : LottieConverterState :=
  {| animationInstance := animationInstance r; animationData := animationData
     r; totalFrames := v; currentFrame := currentFrame r; originalFilename :=
     originalFilename r; originalFileExt := originalFileExt r; fileSizeBytes
     := fileSizeBytes r; isPlaying := isPlaying r; isLooping := isLooping r;
     zoomMode := zoomMode r; zoomPercent := zoomPercent r; ignoreOpacity :=
     ignoreOpacity r; width := width r; height := height r; fps := fps r |}.
Definition set_currentFrame (v : Z) (r : LottieConverterState) : LottieConverterState :=
  {| animationInstance := animationInstance r; animationData := animationData
     r; totalFrames := totalFrames r; currentFrame := v; originalFilename :=
     originalFilename r; originalFileExt := originalFileExt r; fileSizeBytes
     := fileSizeBytes r; isPlaying := isPlaying r; isLooping := isLooping r;
     zoomMode := zoomMode r; zoomPercent := zoomPercent r; ignoreOpacity :=
     ignoreOpacity r; width := width r; height := height r; fps := fps r |}.
Definition set_originalFilename (v : option string) (r : LottieConverterState) : LottieConverterState :=
  {| animationInstance := animationInstance r; animationData := animationData
     r; totalFrames := totalFrames r; currentFrame := currentFrame r;
     originalFilename := v; originalFileExt := originalFileExt r;
     fileSizeBytes := fileSizeBytes r; isPlaying := isPlaying r; isLooping :=
     isLooping r; zoomMode := zoomMode r; zoomPercent := zoomPercent r;
     ignoreOpacity := ignoreOpacity r; width := width r; height := height r;
     fps := fps r |}.
Definition set_originalFileExt (v : option string) (r : LottieConverterState) : LottieConverterState :=
  {| animationInstance := animationInstance r; animationData := animationData
     r; totalFrames := totalFrames r; currentFrame := currentFrame r;
     originalFilename := originalFilename r; originalFileExt := v;
     fileSizeBytes := fileSizeBytes r; isPlaying := isPlaying r; isLooping :=
     isLooping r; zoomMode := zoomMode r; zoomPercent := zoomPercent r;
     ignoreOpacity := ignoreOpacity r; width := width r; height := height r;
     fps := fps r |}.
Definition set_fileSizeBytes (v : option Z) (r : LottieConverterState) : LottieConverterState :=
  {| animationInstance := animationInstance r; animationData := animationData
     r; totalFrames := totalFrames r; currentFrame := currentFrame r;
     originalFilename := originalFilename r; originalFileExt :=
     originalFileExt r; fileSizeBytes := v; isPlaying := isPlaying r;
     isLooping := isLooping r; zoomMode := zoomMode r; zoomPercent :=
     zoomPercent r; ignoreOpacity := ignoreOpacity r; width := width r; height
     := height r; fps := fps r |}.
Definition set_isPlaying (v : bool) (r : LottieConverterState) : LottieConverterState :=
  {| animationInstance := animationInstance r; animationData := animationData
     r; totalFrames := totalFrames r; currentFrame := currentFrame r;
     originalFilename := originalFilename r; originalFileExt :=
     originalFileExt r; fileSizeBytes := fileSizeBytes r; isPlaying := v;
     isLooping := isLooping r; zoomMode := zoomMode r; zoomPercent :=
     zoomPercent r; ignoreOpacity := ignoreOpacity r; width := width r; height
     := height r; fps := fps r |}.
Definition set_isLooping (v : bool) (r : LottieConverterState) : LottieConverterState :=
  {| animationInstance := animationInstance r; animationData := animationData
     r; totalFrames := totalFrames r; currentFrame := currentFrame r;
     originalFilename := originalFilename r; originalFileExt :=
     originalFileExt r; fileSizeBytes := fileSizeBytes r; isPlaying :=
     isPlaying r; isLooping := v; zoomMode := zoomMode r; zoomPercent :=
     zoomPercent r; ignoreOpacity := ignoreOpacity r; width := width r; height
     := height r; fps := fps r |}.
Definition set_zoomMode (v : ZoomMode) (r : LottieConverterState) : LottieConverterState :=
  {| animationInstance := animationInstance r; animationData := animationData
     r; totalFrames := totalFrames r; currentFrame := currentFrame r;
     originalFilename := originalFilename r; originalFileExt :=
     originalFileExt r; fileSizeBytes := fileSizeBytes r; isPlaying :=
     isPlaying r; isLooping := isLooping r; zoomMode := v; zoomPercent :=
     zoomPercent r; ignoreOpacity := ignoreOpacity r; width := width r; height
     := height r; fps := fps r |}.
Definition set_zoomPercent (v : Z) (r : LottieConverterState) : LottieConverterState :=
  {| animationInstance := animationInstance r; animationData := animationData
     r; totalFrames := totalFrames r; currentFrame := currentFrame r;
     originalFilename := originalFilename r; originalFileExt :=
     originalFileExt r; fileSizeBytes := fileSizeBytes r; isPlaying :=
     isPlaying r; isLooping := isLooping r; zoomMode := zoomMode r;
     zoomPercent := v; ignoreOpacity := ignoreOpacity r; width := width r;
     height := height r; fps := fps r |}.
Definition set_ignoreOpacity (v : bool) (r : LottieConverterState) : LottieConverterState :=
  {| animationInstance := animationInstance r; animationData := animationData
     r; totalFrames := totalFrames r; currentFrame := currentFrame r;
     originalFilename := originalFilename r; originalFileExt :=
     originalFileExt r; fileSizeBytes := fileSizeBytes r; isPlaying :=
     isPlaying r; isLooping := isLooping r; zoomMode := zoomMode r;
     zoomPercent := zoomPercent r; ignoreOpacity := v; width := width r;
     height := height r; fps := fps r |}.
Definition set_width (v : option Q) (r : LottieConverterState) : LottieConverterState :=
  {| animationInstance := animationInstance r; animationData := animationData
     r; totalFrames := totalFrames r; currentFrame := currentFrame r;
     originalFilename := originalFilename r; originalFileExt :=
     originalFileExt r; fileSizeBytes := fileSizeBytes r; isPlaying :=
     isPlaying r; isLooping := isLooping r; zoomMode := zoomMode r;
     zoomPercent := zoomPercent r; ignoreOpacity := ignoreOpacity r; width :=
     v; height := height r; fps := fps r |}.
Definition set_height (v : option Q) (r : LottieConverterState) : LottieConverterState :=
  {| animationInstance := animationInstance r; animationData := animationData
     r; totalFrames := totalFrames r; currentFrame := currentFrame r;
     originalFilename := originalFilename r; originalFileExt :=
     originalFileExt r; fileSizeBytes := fileSizeBytes r; isPlaying :=
     isPlaying r; isLooping := isLooping r; zoomMode := zoomMode r;
     zoomPercent := zoomPercent r; ignoreOpacity := ignoreOpacity r; width :=
     width r; height := v; fps := fps r |}.
Definition set_fps (v : option Q) (r : LottieConverterState) : LottieConverterState :=
  {| animationInstance := animationInstance r; animationData := animationData
     r; totalFrames := totalFrames r; currentFrame := currentFrame r;
     originalFilename := originalFilename r; originalFileExt :=
     originalFileExt r; fileSizeBytes := fileSizeBytes r; isPlaying :=
     isPlaying r; isLooping := isLooping r; zoomMode := zoomMode r;
     zoomPercent := zoomPercent r; ignoreOpacity := ignoreOpacity r; width :=
     width r; height := height r; fps := v |}.
Definition set_state (v : LottieConverterState) (r : LottieConverter) : LottieConverter :=
  {| state := v; currentFileName := currentFileName r; currentFileSize :=
     currentFileSize r; hasInteractedSinceLoad := hasInteractedSinceLoad r;
     isPanning := isPanning r; lastClientX := lastClientX r; lastClientY :=
     lastClientY r; panOffsetX := panOffsetX r; panOffsetY := panOffsetY r;
     frameOutlineOn := frameOutlineOn r; elements := elements r |}.
Definition set_currentFileName (v : option string) (r : LottieConverter) : LottieConverter :=
  {| state := state r; currentFileName := v; currentFileSize :=
     currentFileSize r; hasInteractedSinceLoad := hasInteractedSinceLoad r;
     isPanning := isPanning r; lastClientX := lastClientX r; lastClientY :=
     lastClientY r; panOffsetX := panOffsetX r; panOffsetY := panOffsetY r;
     frameOutlineOn := frameOutlineOn r; elements := elements r |}.
Definition set_currentFileSize (v : option Z) (r : LottieConverter) : LottieConverter :=
  {| state := state r; currentFileName := currentFileName r; currentFileSize
     := v; hasInteractedSinceLoad := hasInteractedSinceLoad r; isPanning :=
     isPanning r; lastClientX := lastClientX r; lastClientY := lastClientY r;
     panOffsetX := panOffsetX r; panOffsetY := panOffsetY r; frameOutlineOn :=
     frameOutlineOn r; elements := elements r |}.
Definition set_hasInteractedSinceLoad (v : bool) (r : LottieConverter) : LottieConverter :=
  {| state := state r; currentFileName := currentFileName r; currentFileSize
     := currentFileSize r; hasInteractedSinceLoad := v; isPanning := isPanning
     r; lastClientX := lastClientX r; lastClientY := lastClientY r; panOffsetX
     := panOffsetX r; panOffsetY := panOffsetY r; frameOutlineOn :=
     frameOutlineOn r; elements := elements r |}.
Definition set_isPanning (v : bool) (r : LottieConverter) : LottieConverter :=
  {| state := state r; currentFileName := currentFileName r; currentFileSize
     := currentFileSize r; hasInteractedSinceLoad := hasInteractedSinceLoad r;
     isPanning := v; lastClientX := lastClientX r; lastClientY := lastClientY
     r; panOffsetX := panOffsetX r; panOffsetY := panOffsetY r; frameOutlineOn
     := frameOutlineOn r; elements := elements r |}.
Definition set_lastClientX (v : Q) (r : LottieConverter) : LottieConverter :=
  {| state := state r; currentFileName := currentFileName r; currentFileSize
     := currentFileSize r; hasInteractedSinceLoad := hasInteractedSinceLoad r;
     isPanning := isPanning r; lastClientX := v; lastClientY := lastClientY r;
     panOffsetX := panOffsetX r; panOffsetY := panOffsetY r; frameOutlineOn :=
     frameOutlineOn r; elements := elements r |}.
Definition set_lastClientY (v : Q) (r : LottieConverter) : LottieConverter :=
  {| state := state r; currentFileName := currentFileName r; currentFileSize
     := currentFileSize r; hasInteractedSinceLoad := hasInteractedSinceLoad r;
     isPanning := isPanning r; lastClientX := lastClientX r; lastClientY := v;
     panOffsetX := panOffsetX r; panOffsetY := panOffsetY r; frameOutlineOn :=
     frameOutlineOn r; elements := elements r |}.
Definition set_panOffsetX (v : Q) (r : LottieConverter) : LottieConverter :=
  {| state := state r; currentFileName := currentFileName r; currentFileSize
     := currentFileSize r; hasInteractedSinceLoad := hasInteractedSinceLoad r;
     isPanning := isPanning r; lastClientX := lastClientX r; lastClientY :=
     lastClientY r; panOffsetX := v; panOffsetY := panOffsetY r;
     frameOutlineOn := frameOutlineOn r; elements := elements r |}.
Definition set_panOffsetY (v : Q) (r : LottieConverter) : LottieConverter :=
  {| state := state r; currentFileName := currentFileName r; currentFileSize
     := currentFileSize r; hasInteractedSinceLoad := hasInteractedSinceLoad r;
     isPanning := isPanning r; lastClientX := lastClientX r; lastClientY :=
     lastClientY r; panOffsetX := panOffsetX r; panOffsetY := v;
     frameOutlineOn := frameOutlineOn r; elements := elements r |}.
Definition set_frameOutlineOn (v : bool) (r : LottieConverter) : LottieConverter :=
  {| state := state r; currentFileName := currentFileName r; currentFileSize
     := currentFileSize r; hasInteractedSinceLoad := hasInteractedSinceLoad r;
     isPanning := isPanning r; lastClientX := lastClientX r; lastClientY :=
     lastClientY r; panOffsetX := panOffsetX r; panOffsetY := panOffsetY r;
     frameOutlineOn := v; elements := elements r |}.
Definition set_elements (v : DOMElements) (r : LottieConverter) : LottieConverter :=
  {| state := state r; currentFileName := currentFileName r; currentFileSize
     := currentFileSize r; hasInteractedSinceLoad := hasInteractedSinceLoad r;
     isPanning := isPanning r; lastClientX := lastClientX r; lastClientY :=
     lastClientY r; panOffsetX := panOffsetX r; panOffsetY := panOffsetY r;
     frameOutlineOn := frameOutlineOn r; elements := v |}.

(** The state a handler of the page runs on. *)
Record App := mkApp { browser : Browser; this : LottieConverter }.

End ConverterState.

(* ===================================================================== *)
(** * scripts/lottie-converter.ts: the viewport                           *)
(* ===================================================================== *)

Section ViewportCode.
Context `{Engines}.
Local Open Scope Q_scope.

Definition in_browser {A} (m : M Browser A) : M App A :=
  zoom browser (fun b a => {| browser := b; this := this a |}) m.

Definition update_this (f : LottieConverter -> LottieConverter) : M App unit :=
  modify (fun a => {| browser := browser a; this := f (this a) |}).

Definition update_state (f : LottieConverterState -> LottieConverterState)
  : M App unit :=
  update_this (fun c => set_state (f (state c)) c).

(** Applies [f] to the [<svg>] of the render surface, when there is one. *)
Definition map_svg (f : SvgElement -> SvgElement) (c : LottieConverter)
  : LottieConverter :=
  match lottieContainer (elements c) with
  | Some box =>
      match svg box with
      | Some e =>
          set_elements
            (set_lottieContainer (Some (set_svg (Some (f e)) box)) (elements c)) c
      | None => c
      end
  | None => c
  end.

(** [this.elements.lottieContainer?.querySelector("svg")] *)
Definition current_svg (c : LottieConverter) : option SvgElement :=
  match lottieContainer (elements c) with
  | Some box => svg box
  | None => None
  end.

Definition getRemInPixels (c : LottieConverter) : Q :=
  match rootFontSize (elements c) with
  | Some value => value
  | None => 16
  end.

Record Padding := mkPadding { left : Q; right : Q; top : Q; bottom : Q }.

(** pl-80 (20rem), pr-80 (20rem), pb-20 (5rem), pt-0 *)
Definition getFitPaddingPx (c : LottieConverter) : Padding :=
  let rem := getRemInPixels c in
  {| left := 20 * rem; right := 20 * rem; top := 0; bottom := 5 * rem |}.

(** The centering shift of the padded area, [(pad.left - pad.right) / 2]
    and [(pad.top - pad.bottom) / 2]. *)
Definition xShift (c : LottieConverter) : Q :=
  let pad := getFitPaddingPx c in (left pad - right pad) / 2.

Definition yShift (c : LottieConverter) : Q :=
  let pad := getFitPaddingPx c in (top pad - bottom pad) / 2.

(** The scale both [computeFitScale] and [computeFitPercent] start from. *)
Definition fit_ratio (c : LottieConverter) : option Q :=
  match previewContainer (elements c) with
  | None => None
  | Some rect =>
      let width := JS.num_or (width (state c)) 0 in
      let height := JS.num_or (height (state c)) 0 in
      if JS.is_zero width || JS.is_zero height then None
      else if JS.is_zero (rect_width rect) || JS.is_zero (rect_height rect) then None
      else
        let pad := getFitPaddingPx c in
        let availW := Qmax 1 (rect_width rect - (left pad + right pad)) in
        let availH := Qmax 1 (rect_height rect - (top pad + bottom pad)) in
        Some (Qmin (availW / width) (availH / height))
  end.

Definition computeFitScale (c : LottieConverter) : option Q := fit_ratio c.

Definition computeFitPercent (c : LottieConverter) : option Q :=
  match fit_ratio c with
  | Some scale => Some (JS.clampQ (2 # 100) 32 scale * 100)
  | None => None
  end.

Definition getCurrentScale (c : LottieConverter) : Q :=
  match zoomMode (state c) with
  | fixed =>
      let p := JS.int_or (zoomPercent (state c)) 100 in
      JS.clampQ (2 # 100) 32 (inject_Z p / 100)
  | fit => JS.num_or (computeFitScale c) 1
  end.

(** [x.toFixed(2)], as a number. *)
Definition toFixed2 (x : Q) : Q := inject_Z (JS.Math_round (x * 100)) / 100.

(** The part of the inline style [fitToContainer] and [setFixedZoom] share. *)
Definition positioned (c : LottieConverter) (svgElement : SvgElement) (scale : Q)
  : SvgElement :=
  let width := JS.num_or (width (state c)) (viewBox_width svgElement) in
  let height := JS.num_or (height (state c)) (viewBox_height svgElement) in
  set_preserveAspectRatio "xMidYMid meet"
    (set_style
       (Some {| left_px := toFixed2 (panOffsetX c + xShift c);
                top_px := toFixed2 (panOffsetY c + yShift c);
                style_width := if JS.is_zero width then None else Some width;
                style_height := if JS.is_zero height then None else Some height;
                transform_scale := scale |})
       svgElement).

Definition fitToContainer (c : LottieConverter) (svgElement : SvgElement)
  : SvgElement :=
  let width := JS.num_or (width (state c)) (viewBox_width svgElement) in
  let height := JS.num_or (height (state c)) (viewBox_height svgElement) in
  let pad := getFitPaddingPx c in
  let rect :=
    match lottieContainer (elements c) with
    | Some box => container_rect box
    | None => {| rect_width := 0; rect_height := 0 |}
    end in
  let availW := Qmax 1 (rect_width rect - (left pad + right pad)) in
  let availH := Qmax 1 (rect_height rect - (top pad + bottom pad)) in
  let scale :=
    if JS.is_zero width || JS.is_zero height then 1
    else Qmin (availW / width) (availH / height) in
  positioned c svgElement scale.

Definition setFixedZoom (c : LottieConverter) (svgElement : SvgElement) (percent : Z)
  : SvgElement :=
  let scale := JS.clampQ (2 # 100) 32 (inject_Z percent / 100) in
  positioned c svgElement scale.

Definition updateFrameOutlineAppearance (c : LottieConverter) : LottieConverter :=
  if negb (frameOutlineOn c) then c
  else
    let scale := getCurrentScale c in
    map_svg
      (fun e =>
         match frameOverlay e with
         | Some rect =>
             set_frameOverlay
               (Some {| overlay_width := overlay_width rect;
                        overlay_height := overlay_height rect;
                        stroke := Some (2 / scale, (10 / scale, 6 / scale)) |}) e
         | None => e
         end) c.

Definition applyZoom (c : LottieConverter) : LottieConverter :=
  match current_svg c with
  | None => c
  | Some _ =>
      let c1 :=
        match zoomMode (state c) with
        | fit => map_svg (fitToContainer c) c
        | fixed =>
            let p := JS.int_or (zoomPercent (state c)) 100 in
            map_svg (fun e => setFixedZoom c e p) c
        end in
      updateFrameOutlineAppearance c1
  end.

Definition applyFrameOutline (c : LottieConverter) : LottieConverter :=
  match current_svg c with
  | None => c
  | Some e =>
      if negb (frameOutlineOn c) then map_svg (set_frameOverlay None) c
      else
        let width := JS.num_or (width (state c)) (viewBox_width e) in
        let height := JS.num_or (height (state c)) (viewBox_height e) in
        if JS.is_zero width || JS.is_zero height then c
        else
          let old := match frameOverlay e with
                     | Some rect => stroke rect
                     | None => None
                     end in
          updateFrameOutlineAppearance
            (map_svg
               (set_frameOverlay
                  (Some {| overlay_width := width; overlay_height := height;
                           stroke := old |})) c)
  end.

Definition applyOpacityOverride (c : LottieConverter) : LottieConverter :=
  map_svg (set_ignoreOpacityStyle (ignoreOpacity (state c))) c.

End ViewportCode.

(* ===================================================================== *)
(** * scripts/lottie-converter.ts: loading and playback                   *)
(* ===================================================================== *)

(** [s.toLowerCase()] on ASCII letters. *)
Definition lower_ascii (a : ascii) : ascii :=
  let n := nat_of_ascii a in
  if ((65 <=? n) && (n <=? 90))%nat then ascii_of_nat (n + 32) else a.

Fixpoint toLowerCase (s : string) : string :=
  match s with
  | String a r => String (lower_ascii a) (toLowerCase r)
  | EmptyString => EmptyString
  end.

(** [s.endsWith(suffix)] *)
Definition endsWith (s suffix : string) : bool :=
  let n := String.length s in
  let m := String.length suffix in
  ((m <=? n)%nat && String.eqb (substring (n - m) m s) suffix)%bool.

(** [s.replace(/SUFFIX$/i, "")] for a literal suffix in lower case. *)
Definition strip_suffix_i (suffix : string) (s : string) : string :=
  if endsWith (toLowerCase s) suffix
  then substring 0 (String.length s - String.length suffix) s
  else s.

(** [s.replace(/\.(json|svg)$/i, "")] *)
Definition strip_json_or_svg (s : string) : string :=
  if endsWith (toLowerCase s) ".json" then strip_suffix_i ".json" s
  else strip_suffix_i ".svg" s.

(** A [File] with the text [FileReader.readAsText] delivers for it. *)
Module File.
Record t := mk { name : string; size : Z; text : string }.
End File.

Section SessionCode.
Context `{Engines}.
Local Open Scope Q_scope.

Definition get_this : M App LottieConverter := fun a => (a, inr (this a)).

(** [instance.goToAndStop(frame, true)]: the engine shows [frame], paused. *)
Definition goToAndStop (frame : Z) (c : LottieConverter) : LottieConverter :=
  match animationInstance (state c) with
  | Some inst =>
      let inst' := AnimationItem.set_isPaused true
                     (AnimationItem.set_currentFrame frame inst) in
      map_svg (set_svgContent (EngineFrame frame))
        (set_state (set_animationInstance (Some inst') (state c)) c)
  | None => c
  end.

Definition touchRecentIfNeeded : M App unit :=
  c <- get_this ;;
  if hasInteractedSinceLoad c then ret tt
  else
    let ext := JS.str_or (originalFileExt (state c)) ".json" in
    match originalFilename (state c), fileSizeBytes (state c) with
    | Some (String _ _ as base), Some size =>
        try_catch (in_browser (touchRecent (base ++ ext) size)) (fun _ => ret tt) ;;
        update_this (set_hasInteractedSinceLoad true)
    | _, _ => ret tt
    end.

(** The listener [setupFrameSlider] puts on the slider's [input] event. *)
Definition frameSlider_onInput : M App unit :=
  c <- get_this ;;
  match frameSlider (elements c) with
  | None => ret tt
  | Some target =>
      update_state (set_currentFrame (slider_value target)) ;;
      update_this (fun c =>
        match animationInstance (state c) with
        | Some _ => applyZoom (goToAndStop (currentFrame (state c)) c)
        | None => c
        end) ;;
      touchRecentIfNeeded
  end.

Definition set_slider (f : Slider -> Slider) (c : LottieConverter) : LottieConverter :=
  match frameSlider (elements c) with
  | Some sl => set_elements (set_frameSlider (Some (f sl)) (elements c)) c
  | None => c
  end.

Definition updateSliderMax (maxValue : Z) : M App unit :=
  c <- get_this ;;
  match frameSlider (elements c) with
  | Some _ =>
      update_this (set_slider (fun sl =>
        {| slider_value := slider_value sl; slider_max := maxValue |})) ;;
      frameSlider_onInput
  | None => ret tt
  end.

(** The body of [reveal] in [waitForSvgAndReveal]; it runs at once when the
    [<svg>] is there, and otherwise when the observer sees it inserted. *)
Definition reveal (c : LottieConverter) : LottieConverter :=
  let c1 := applyOpacityOverride
              (updateFrameOutlineAppearance (applyFrameOutline (applyZoom c))) in
  match lottieContainer (elements c1) with
  | Some box =>
      set_elements (set_lottieContainer (Some (set_visible true box)) (elements c1)) c1
  | None => c1
  end.

Definition waitForSvgAndReveal (c : LottieConverter) : LottieConverter :=
  match current_svg c with
  | Some _ => reveal c
  | None => c
  end.

(** [container.innerHTML = ...] followed by [style.visibility = "hidden"] *)
Definition replace_content (e : option SvgElement) (c : LottieConverter)
  : LottieConverter :=
  match lottieContainer (elements c) with
  | Some box =>
      set_elements
        (set_lottieContainer
           (Some {| svg := e; visible := false;
                    container_rect := container_rect box |}) (elements c)) c
  | None => c
  end.

(** [toPx]: the numeric portion of a [width]/[height] attribute; the
    pattern drops a sign with the unit. *)
Definition toPx (val : Q) : Q := Qabs val.

Definition loadStaticSVG (svgString : string) (filenameForDetails : string)
  : M App unit :=
  c <- get_this ;;
  match lottieContainer (elements c) with
  | None => ret tt
  | Some _ =>
      update_state (set_animationInstance None) ;;
      update_this (replace_content (parse_svg svgString)) ;;
      match parse_svg svgString with
      | None => ret tt
      | Some e =>
          let width0 := viewBox_width e in
          let height0 := viewBox_height e in
          let '(w, h) :=
            match attr_width e, attr_height e with
            | Some wAttr, Some hAttr =>
                if JS.is_zero width0 || JS.is_zero height0
                then (toPx wAttr, toPx hAttr) else (width0, height0)
            | _, _ => (width0, height0)
            end in
          update_state (fun s =>
            set_fps None
              (set_currentFrame 0%Z
                 (set_totalFrames 0%Z
                    (set_height (JS.num_or_opt (Some h) (height s))
                       (set_width (JS.num_or_opt (Some w) (width s)) s))))) ;;
          update_state (set_isPlaying false) ;;
          update_this (set_slider (fun _ => {| slider_value := 0; slider_max := 0 |})) ;;
          update_this applyZoom ;;
          update_this waitForSvgAndReveal ;;
          in_browser (document_dispatchEvent "lottie:fileLoaded")
      end
  end.

(** [!!this.state.animationData] *)
Definition has_animationData (s : LottieConverterState) : option Json :=
  match animationData s with
  | Some data => if truthy data then Some data else None
  | None => None
  end.

Definition loadLottieAnimation : M App unit :=
  c <- get_this ;;
  match lottieContainer (elements c), has_animationData (state c) with
  | Some _, Some data =>
      (* the previous instance is destroyed, the container emptied *)
      update_this (replace_content None) ;;
      update_state (fun s =>
        set_animationInstance
          (Some {| AnimationItem.totalFrames := lottie_totalFrames data;
                   AnimationItem.currentFrame := 0;
                   AnimationItem.loop := isLooping s;
                   AnimationItem.isPaused := true |}) s)
  | _, _ => ret tt
  end.

(** The root [<svg>] the engine has inserted by the time it fires
    [DOMLoaded]. *)
Definition engine_inserts_svg (c : LottieConverter) : LottieConverter :=
  match lottieContainer (elements c), has_animationData (state c) with
  | Some box, Some data =>
      set_elements
        (set_lottieContainer (Some (set_svg (Some (lottie_svg data)) box))
           (elements c)) c
  | _, _ => c
  end.

(** The listener of the engine's ["DOMLoaded"] event. *)
Definition onDOMLoaded : M App unit :=
  c <- get_this ;;
  match animationInstance (state c) with
  | None => ret tt
  | Some inst =>
      update_this (fun c => set_panOffsetY 0 (set_panOffsetX 0 c)) ;;
      update_state (fun s =>
        let data := animationData s in
        let num k := match data with
                     | Some d => Number_prop d k
                     | None => None
                     end in
        set_height (JS.num_or_opt (num "h"%string) (height s))
          (set_width (JS.num_or_opt (num "w"%string) (width s))
             (set_fps (JS.num_or_opt (num "fr"%string) (fps s))
                (set_totalFrames (AnimationItem.totalFrames inst - 1)%Z s)))) ;;
      (* reset to frame 0 before updating max *)
      update_state (set_currentFrame 0%Z) ;;
      update_this (set_slider (fun sl =>
        {| slider_value := 0; slider_max := slider_max sl |})) ;;
      c <- get_this ;;
      updateSliderMax (totalFrames (state c)) ;;
      update_this applyZoom ;;
      update_this waitForSvgAndReveal ;;
      update_this (fun c => applyZoom (goToAndStop 0 c)) ;;
      (* the instance takes the loop flag; play state is reset *)
      update_state (fun s =>
        match animationInstance s with
        | Some i =>
            set_animationInstance (Some (AnimationItem.set_loop (isLooping s) i)) s
        | None => s
        end) ;;
      update_state (set_isPlaying false) ;;
      in_browser (document_dispatchEvent "lottie:fileLoaded")
  end.

(** The engine finishes a load: it inserts its [<svg>] and fires
    [DOMLoaded]. *)
Definition engine_DOMLoaded : M App unit :=
  update_this engine_inserts_svg ;; onDOMLoaded.

(** The listener of the engine's ["enterFrame"] event; [engineFrame] is
    [instance.currentFrame]. *)
Definition onEnterFrame (engineFrame : Q) (c : LottieConverter) : LottieConverter :=
  match animationInstance (state c) with
  | None => c
  | Some _ =>
      let frame := JS.Math_round engineFrame in
      set_slider (fun sl => {| slider_value := frame; slider_max := slider_max sl |})
        (set_state (set_currentFrame frame (state c)) c)
  end.

(** The listener of the engine's ["complete"] event. *)
Definition onComplete (c : LottieConverter) : LottieConverter :=
  if isLooping (state c) then c
  else set_state (set_isPlaying false (state c)) c.

Definition handleFile (file : File.t) : M App unit :=
  let lower := toLowerCase (File.name file) in
  let isJson := endsWith lower ".json" in
  let isSvg := endsWith lower ".svg" in
  if negb isJson && negb isSvg
  then in_browser (alert "Please select a .json (Lottie) or .svg file")
  else
    update_state (fun s =>
      set_fileSizeBytes (Some (File.size file))
        (set_originalFileExt (Some (if isJson then ".json" else ".svg")%string)
           (set_originalFilename
              (Some (if isJson then strip_suffix_i ".json" (File.name file)
                     else strip_suffix_i ".svg" (File.name file))) s))) ;;
    update_this (fun c =>
      set_currentFileSize (Some (File.size file))
        (set_currentFileName (Some (File.name file)) c)) ;;
    (* reader.onload *)
    let result := File.text file in
    if isJson then
      try_catch
        (data <- JSON_parse_or_throw result ;;
         update_state (set_animationData (Some data)) ;;
         loadLottieAnimation ;;
         try_catch
           (in_browser (saveRecentFile (File.name file) (File.size file) (Some result)))
           (fun _ => ret tt))
        (fun _ =>
           in_browser
             (alert "Invalid JSON file. Please select a valid Lottie animation file."))
    else
      loadStaticSVG result (File.name file) ;;
      try_catch
        (in_browser (saveRecentFile (File.name file) (File.size file) (Some result)))
        (fun _ => ret tt).

Definition loadFromJSONString (filename : string) (size : Z) (json : string)
  : M App unit :=
  try_catch
    (update_state (fun s =>
       set_originalFileExt
         (Some (if endsWith (toLowerCase filename) ".svg" then ".svg" else ".json")%string)
         (set_originalFilename (Some (strip_json_or_svg filename)) s)) ;;
     data <- JSON_parse_or_throw json ;;
     update_state (fun s => set_fileSizeBytes (Some size) (set_animationData (Some data) s)) ;;
     update_this (fun c =>
       set_currentFileSize (Some size) (set_currentFileName (Some filename) c)) ;;
     loadLottieAnimation)
    (fun _ => in_browser (alert "Failed to load saved file.")).

Definition loadFromSVGString (filename : string) (size : Z) (svgText : string)
  : M App unit :=
  update_state (fun s =>
    set_fileSizeBytes (Some size)
      (set_originalFileExt (Some ".svg"%string)
         (set_originalFilename (Some (strip_json_or_svg filename)) s))) ;;
  update_this (fun c =>
    set_currentFileSize (Some size) (set_currentFileName (Some filename) c)) ;;
  loadStaticSVG svgText filename.

Definition isCurrentFile (filename : string) (size : Z) (c : LottieConverter) : bool :=
  match currentFileName c, currentFileSize c with
  | Some n, Some sz => String.eqb n filename && (sz =? size)%Z
  | _, _ => false
  end.

Definition isSVGLoaded (c : LottieConverter) : bool :=
  (totalFrames (state c) =? 0)%Z
  && match animationInstance (state c) with None => true | Some _ => false end
  && match currentFileName c with Some _ => true | None => false end.

Definition setLoop (loop : bool) (c : LottieConverter) : LottieConverter :=
  let s := set_isLooping loop (state c) in
  set_state
    (match animationInstance s with
     | Some i => set_animationInstance (Some (AnimationItem.set_loop loop i)) s
     | None => s
     end) c.

Definition play : M App unit :=
  c <- get_this ;;
  match animationInstance (state c) with
  | None => ret tt
  | Some _ =>
      when (negb (isLooping (state c))
            && (totalFrames (state c) <=? currentFrame (state c))%Z)
        (update_this (goToAndStop 0)) ;;
      update_state (fun s =>
        match animationInstance s with
        | Some i =>
            set_isPlaying true
              (set_animationInstance
                 (Some (AnimationItem.set_isPaused false
                          (AnimationItem.set_loop (isLooping s) i))) s)
        | None => s
        end) ;;
      touchRecentIfNeeded
  end.

Definition pause (c : LottieConverter) : LottieConverter :=
  match animationInstance (state c) with
  | None => c
  | Some i =>
      set_state
        (set_isPlaying false
           (set_animationInstance (Some (AnimationItem.set_isPaused true i)) (state c))) c
  end.

Definition setFrame (frame : Z) : M App unit :=
  c <- get_this ;;
  match animationInstance (state c) with
  | None => ret tt
  | Some _ =>
      let clampedFrame := Z.max 0 (Z.min frame (totalFrames (state c))) in
      update_state (set_currentFrame clampedFrame) ;;
      update_this (fun c => applyZoom (goToAndStop clampedFrame c)) ;;
      c <- get_this ;;
      match frameSlider (elements c) with
      | Some _ =>
          update_this (set_slider (fun sl =>
            {| slider_value := clampedFrame; slider_max := slider_max sl |})) ;;
          frameSlider_onInput
      | None => ret tt
      end
  end.

End SessionCode.

(* ===================================================================== *)
(** * scripts/lottie-converter.ts: zoom controls, wheel zoom and panning  *)
(* ===================================================================== *)

Section ZoomCode.
Context `{Engines}.
Local Open Scope Q_scope.

(** [setModeFit] of [setupZoomControls] *)
Definition setModeFit (c : LottieConverter) : LottieConverter :=
  let c1 := set_state (set_zoomMode fit (state c)) c in
  let c2 := set_panOffsetY 0 (set_panOffsetX 0 c1) in
  updateFrameOutlineAppearance (applyZoom c2).

(** [setPercent] of [setupZoomControls] *)
Definition setPercent (percent : Z) (c : LottieConverter) : LottieConverter :=
  let c1 := set_state (set_zoomPercent percent (set_zoomMode fixed (state c))) c in
  updateFrameOutlineAppearance (applyZoom c1).

(** The percentage in effect, as the zoom controls and the wheel read it. *)
Definition basePercent (c : LottieConverter) : Z :=
  match zoomMode (state c) with
  | fit => JS.Math_round (JS.num_or (computeFitPercent c) 100)
  | fixed => JS.int_or (zoomPercent (state c)) 100
  end.

(** [handleSelectChange] of [setupZoomControls] *)
Definition handleSelectChange (value : string) (c : LottieConverter)
  : LottieConverter :=
  let currentPercent := basePercent c in
  if String.eqb value "zoom-in" then
    let nextIn := if (200 <=? currentPercent)%Z then 400%Z
                  else if (100 <=? currentPercent)%Z then 200%Z
                  else if (50 <=? currentPercent)%Z then 100%Z else 50%Z in
    setPercent nextIn c
  else if String.eqb value "zoom-out" then
    let nextOut := if (currentPercent <=? 50)%Z then 25%Z
                   else if (currentPercent <=? 100)%Z then 50%Z
                   else if (currentPercent <=? 200)%Z then 100%Z else 200%Z in
    setPercent nextOut c
  else if String.eqb value "fit" then setModeFit c
  else
    match JS.parseInt value with
    | Some numeric => setPercent numeric c
    | None => c
    end.

Definition zoomFactorPerStep : Q := 11 # 10.

(** [steps] of the wheel listener: whole notches of [deltaY], at most four. *)
Definition wheel_steps (delta : Q) : Z :=
  Z.max (-4) (Z.min 4 (JS.Math_round (delta / 100))).

Definition wheel_factor (delta : Q) : Q :=
  let steps := wheel_steps delta in
  if (steps =? 0)%Z
  then (if Qlt_le_dec delta 0 then 1 / zoomFactorPerStep else zoomFactorPerStep)
  else zoomFactorPerStep ^ steps.

(** [newPercent] of the wheel listener, in exact arithmetic.  The product
    in double precision differs from the exact one by less than 1e-11, so
    it rounds to the same integer unless the exact product is a tie of
    [Math.round] (as 25 * 1.1 = 27.5). *)
Definition wheel_newPercent (base : Z) (delta : Q) : Z :=
  let newPercentRaw := inject_Z base * (1 / wheel_factor delta) in
  Z.max 2 (Z.min 3200 (JS.Math_round newPercentRaw)).

(** The ["wheel"] listener of the preview container; [overZoomUi]: the
    target lies inside the zoom control. *)
Definition onWheel (deltaY : Q) (overZoomUi : bool) (c : LottieConverter)
  : LottieConverter :=
  if overZoomUi then c
  else
    match current_svg c with
    | None => c
    | Some _ =>
        let oldScale := getCurrentScale c in
        let newPercent := wheel_newPercent (basePercent c) deltaY in
        let c1 := set_state
                    (set_zoomPercent newPercent (set_zoomMode fixed (state c))) c in
        let newScale := getCurrentScale c1 in
        let ratio := newScale / (if JS.is_zero oldScale then 1 else oldScale) in
        let oldPxFromCenterX := panOffsetX c1 + xShift c1 in
        let oldPxFromCenterY := panOffsetY c1 + yShift c1 in
        let newPxFromCenterX := ratio * oldPxFromCenterX in
        let newPxFromCenterY := ratio * oldPxFromCenterY in
        let c2 := set_panOffsetY (newPxFromCenterY - yShift c1)
                    (set_panOffsetX (newPxFromCenterX - xShift c1) c1) in
        updateFrameOutlineAppearance (applyZoom c2)
    end.

(** The ["mousedown"] listener. *)
Definition onMouseDown (button : Z) (clientX clientY : Q) (overZoomUi : bool)
    (c : LottieConverter) : LottieConverter :=
  if negb (button =? 0)%Z || overZoomUi then c
  else set_lastClientY clientY (set_lastClientX clientX (set_isPanning true c)).

(** The ["mousemove"] listener. *)
Definition onMouseMove (clientX clientY : Q) (c : LottieConverter)
  : LottieConverter :=
  if negb (isPanning c) then c
  else
    let dx := clientX - lastClientX c in
    let dy := clientY - lastClientY c in
    applyZoom
      (set_panOffsetY (panOffsetY c + dy)
         (set_panOffsetX (panOffsetX c + dx)
            (set_lastClientY clientY (set_lastClientX clientX c)))).

(** [endPan], on ["mouseup"] and ["mouseleave"]. *)
Definition endPan (c : LottieConverter) : LottieConverter :=
  if negb (isPanning c) then c else set_isPanning false c.

(** The ["dblclick"] listener. *)
Definition onDblClick (overZoomUi : bool) (c : LottieConverter) : LottieConverter :=
  if overZoomUi then c
  else applyZoom (set_panOffsetY 0 (set_panOffsetX 0 c)).

End ZoomCode.

(* ===================================================================== *)
(** * Export: buildExportableSVGString, downloadCurrentFrame and
      utils/svg-utils.ts                                                  *)
(* ===================================================================== *)

(** What a download hands to the user. *)
Inductive Download :=
| SvgFile (filename : string) (document : SvgElement) (aggressive : bool)
| RasterFile (filename : string) (mime : string)
    (canvasWidth canvasHeight : Z) (quality : option Q) (document : SvgElement).

Section ExportCode.
Context `{Engines}.
Local Open Scope Q_scope.

Definition buildExportableSVGString (c : LottieConverter) (originalSvg : SvgElement)
  : SvgElement :=
  (* the clone, without the overlay, the override style and the inline style *)
  let clone := set_style None
                 (set_ignoreOpacityStyle false (set_frameOverlay None originalSvg)) in
  let width := JS.num_or (width (state c)) (viewBox_width clone) in
  let height := JS.num_or (height (state c)) (viewBox_height clone) in
  let sized :=
    if JS.is_zero width || JS.is_zero height then clone
    else set_dimensions (inject_Z (JS.Math_round width))
           (inject_Z (JS.Math_round height)) (0, 0, width, height) clone in
  set_preserveAspectRatio "xMidYMid meet" sized.

Definition scaleSteps : list Q := [1 # 4; 1 # 2; 1; 2; 4; 8].

(** The raster scale [downloadCurrentFrame] derives from the resolution
    slider. *)
Definition rasterScale (sliderValue : option string) : Q :=
  let parsed := JS.parseInt (JS.str_or sliderValue "2") in
  let scaleIdx := match parsed with Some i => i | None => 2%Z end in
  let scaleIdx := if (scaleIdx =? 0)%Z then 2%Z else scaleIdx in
  nth (Z.to_nat (Z.max 0 (Z.min (Z.of_nat (length scaleSteps) - 1) scaleIdx)))
    scaleSteps 1.

(** JPEG quality from the compression slider; [None] is [NaN]. *)
Definition jpegQuality (sliderValue : option string) : option Q :=
  match JS.parseInt (JS.str_or sliderValue "80") with
  | Some level => Some (Qmax 0 (Qmin 1 (inject_Z level / 100)))
  | None => None
  end.

(** [downloadRasterFromSVG]: the canvas the image is drawn on. *)
Definition downloadRasterFromSVG (svgContent : SvgElement) (filenameWithoutExt : string)
    (format : string) (quality : option Q) (scale : Q) : Download :=
  let '(naturalWidth, naturalHeight) := image_natural_size svgContent in
  let baseWidth := Z.max 1 naturalWidth in
  let baseHeight := Z.max 1 naturalHeight in
  let width := Z.max 1 (JS.Math_round (inject_Z baseWidth * scale)) in
  let height := Z.max 1 (JS.Math_round (inject_Z baseHeight * scale)) in
  let mime := if String.eqb format "png" then "image/png" else "image/jpeg" in
  let ext := if String.eqb format "png" then "png" else "jpg" in
  RasterFile (filenameWithoutExt ++ "." ++ ext) mime width height
    (option_map (fun q => Qmax 0 (Qmin 1 q)) quality) svgContent.

(** The file [downloadCurrentFrame] offers for the [<svg>] it found: the
    part of its body after the check that there is one. *)
Definition exported_file (c : LottieConverter) (svgElement : SvgElement) : Download :=
  let svgString := buildExportableSVGString c svgElement in
  let format := JS.str_or (exportFormatSelect (elements c)) "svg" in
  let baseFilename := JS.str_or (originalFilename (state c)) "graphic" in
  let isAnimated :=
    match animationInstance (state c) with
    | Some _ => true
    | None => false
    end in
  let nameNoExt :=
    if isAnimated
    then (baseFilename ++ "-" ++ pretty (currentFrame (state c)) ++ "-frame")%string
    else baseFilename in
  if String.eqb format "svg" then
    let aggressive :=
      match aggressiveOptimizationCheckbox (elements c) with
      | Some b => b
      | None => false
      end in
    SvgFile (nameNoExt ++ ".svg") svgString aggressive
  else
    let quality := jpegQuality (compressionSlider (elements c)) in
    let scale := rasterScale (rasterScaleSlider (elements c)) in
    downloadRasterFromSVG svgString nameNoExt format quality scale.

(** [downloadCurrentFrame]; the result is the file offered, if any. *)
Definition downloadCurrentFrame : M App (option Download) :=
  c <- get_this ;;
  match lottieContainer (elements c) with
  | None => ret None
  | Some _ =>
      try_catch
        (touchRecentIfNeeded ;;
         c <- get_this ;;
         match current_svg c with
         | None =>
             in_browser (alert "No SVG found. Please ensure the animation is loaded.") ;;
             ret None
         | Some svgElement => ret (Some (exported_file c svgElement))
         end)
        (fun _ =>
           in_browser (alert "Error generating SVG. Please try again.") ;; ret None)
  end.

End ExportCode.

(* ===================================================================== *)
(** * scripts/lottie-converter.ts: toggles, the play button and clearing  *)
(* ===================================================================== *)

Section ControlsCode.
Context `{Engines}.
Local Open Scope Q_scope.



(** The listener [setupIgnoreOpacityToggle] puts on the switch, for a
    change event with [detail.checked]. *)
Definition ignoreOpacity_onChange (checked : bool) : M App unit :=
  update_state (set_ignoreOpacity checked) ;;
  in_browser (Preferences.setPreference Preferences.ignore_opacity
                (Preferences.PBool checked)) ;;
  update_this applyOpacityOverride.


(** The listener [setupFrameToggle] puts on the switch. *)
Definition frameToggle_onChange (checked : bool) : M App unit :=
  update_this (set_frameOutlineOn checked) ;;
  in_browser (Preferences.setPreference Preferences.show_frame
                (Preferences.PBool checked)) ;;
  update_this applyFrameOutline.

(** The click listener of the play button. *)
Definition playBtn_onClick : M App unit :=
  c <- get_this ;;
  match animationInstance (state c) with
  | None => ret tt
  | Some _ => if isPlaying (state c) then update_this pause else play
  end.

(** [aria-checked !== "false"] of the loop switch; [loopSwitch] is [None]
    when the switch is not on the page, and holds the attribute ([None]:
    not set) otherwise. *)
Definition loop_from_switch (loopSwitch : option (option string)) : bool :=
  match loopSwitch with
  | Some (Some v) => negb (String.eqb v "false")
  | Some None => true
  | None => true
  end.

Definition clearAnimation (loopSwitch : option (option string))
    (c : LottieConverter) : LottieConverter :=
  let c1 := set_state (set_animationInstance None (state c)) c in
  let c2 :=
    match lottieContainer (elements c1) with
    | Some box =>
        set_elements (set_lottieContainer (Some (set_svg None box)) (elements c1)) c1
    | None => c1
    end in
  let c3 :=
    set_state
      (set_originalFilename None
         (set_currentFrame 0%Z
            (set_totalFrames 0%Z (set_animationData None (state c2))))) c2 in
  let c4 := set_currentFileSize None (set_currentFileName None c3) in
  let c5 := set_slider (fun _ => {| slider_value := 0; slider_max := 100 |}) c4 in
  set_state
    (set_isLooping (loop_from_switch loopSwitch)
       (set_isPlaying false (state c5))) c5.

End ControlsCode.

(* ===================================================================== *)
(** * What the store denotes                                              *)
(* ===================================================================== *)

(** The text stored for a preference key; [None] when the key is absent or
    the store cannot be read. *)
Definition stored_preference (key : Preferences.PreferenceKey) (b : Browser)
  : option string :=
  match localStorage b with
  | Some m => m !! (Preferences.PREFIX ++ Preferences.key_name key)%string
  | None => None
  end.

(** How a stored text reads at the type of a key. *)
Definition read_as (key : Preferences.PreferenceKey) (stored : string)
  : Preferences.PreferenceValue :=
  match Preferences.DEFAULT_PREFERENCES key with
  | Preferences.PBool _ => Preferences.PBool (bool_decide (stored = "true"))
  | Preferences.PString _ => Preferences.PString stored
  end.

(** The four cases of the stored recent-files list. *)
Inductive StoredList `{JSON} :=
| StoreInaccessible
| Malformed
| NotAnArray
| AnArray (items : list RecentItem.t).

Definition classify_stored `{JSON} (b : Browser) : StoredList :=
  match localStorage b with
  | None => StoreInaccessible
  | Some m =>
      match JSON_parse (JS.str_or (m !! RECENT_KEY) "[]") with
      | None => Malformed
      | Some v =>
          match as_RecentItems v with
          | Some items => AnArray items
          | None => NotAnArray
          end
      end
  end.

(* ===================================================================== *)
(** * Fixtures: a JSON engine and collaborators for the examples          *)
(* ===================================================================== *)

(** Parsed documents of the examples: an array of recent items, an
    animation with its [w], [h], [fr] and frame count, or [null]. *)
Inductive SampleJson :=
| SampleArray (items : list RecentItem.t)
| SampleAnimation (w h fr : Q) (frames : Z)
| SampleNull.

(** The engine of the examples reads three documents and rejects the other
    texts used in the examples, as [JSON.parse] does for them.  No example
    reads a stored list back, and its [JSON.stringify] writes the text of the
    empty list whatever the list. *)
Definition sample_parse (text : string) : option SampleJson :=
  if String.eqb text "[]" then Some (SampleArray [])
  else if String.eqb text "null" then Some SampleNull
  else if String.eqb text "{}" then Some (SampleAnimation 0 0 0 1)
  else None.

#[local] Instance sample_JSON : JSON := {|
  Json := SampleJson;
  JSON_parse := sample_parse;
  as_RecentItems v := match v with SampleArray items => Some items | _ => None end;
  JSON_stringify _ := "[]"%string;
  truthy v := match v with SampleNull => false | _ => true end;
  Number_prop v k :=
    match v with
    | SampleAnimation w h fr _ =>
        if String.eqb k "w" then Some w
        else if String.eqb k "h" then Some h
        else if String.eqb k "fr" then Some fr else None
    | _ => None
    end;
|}.

(** The [<svg>] the sample engine draws for an animation. *)
Definition sample_svg (w h : Q) : SvgElement :=
  {| attr_width := Some w; attr_height := Some h;
     attr_viewBox := Some (0, 0, w, h)%Q;
     attr_preserveAspectRatio := Some "xMidYMid meet"%string;
     style := None; frameOverlay := None; ignoreOpacityStyle := false;
     svgContent := EngineFrame 0 |}.

#[local] Instance sample_Engines : Engines := {|
  lottie_totalFrames v :=
    match v with SampleAnimation _ _ _ frames => frames | _ => 0 end;
  lottie_svg v :=
    match v with
    | SampleAnimation w h _ _ => sample_svg w h
    | _ => sample_svg 0 0
    end;
  parse_svg _ := None;
  (* an image is decoded at the size its document declares *)
  image_natural_size doc :=
    (match attr_width doc with Some w => Qfloor w | None => 300 end,
     match attr_height doc with Some h => Qfloor h | None => 150 end);
  image_natural_size_declared :=
    ltac:(intros doc w h Hw Hh; cbv beta; rewrite Hw, Hh, !Qfloor_Z; reflexivity);
|}.

Definition empty_browser : Browser :=
  {| localStorage := Some ∅; clock := 1000; dispatched := []; alerts := [] |}.

Definition sample_dom : DOMElements :=
  {| lottieContainer :=
       Some {| svg := None; visible := true;
               container_rect := {| rect_width := 1920; rect_height := 1080 |} |};
     previewContainer := Some {| rect_width := 1920; rect_height := 1080 |};
     frameSlider := Some {| slider_value := 0; slider_max := 100 |};
     exportFormatSelect := Some "png"%string;
     compressionSlider := Some "80"%string;
     rasterScaleSlider := Some "3"%string;
     aggressiveOptimizationCheckbox := Some false;
     rootFontSize := Some 16%Q |}.

(** The controller as its constructor leaves it. *)
Definition initial_converter `{Engines} (dom : DOMElements) : LottieConverter :=
  {| state :=
       {| animationInstance := None; animationData := None; totalFrames := 0;
          currentFrame := 0; originalFilename := None; originalFileExt := None;
          fileSizeBytes := None; isPlaying := false; isLooping := true;
          zoomMode := fit; zoomPercent := 100; ignoreOpacity := false;
          width := None; height := None; fps := None |};
     currentFileName := None; currentFileSize := None;
     hasInteractedSinceLoad := false; isPanning := false;
     lastClientX := 0; lastClientY := 0; panOffsetX := 0; panOffsetY := 0;
     frameOutlineOn := false; elements := dom |}.

(** A 100-frame, 24 fps, 800 x 600 animation, loaded and shown. *)
Definition sample_animation : SampleJson := SampleAnimation 800 600 24 100.

Definition loaded_converter : LottieConverter :=
  let c := initial_converter sample_dom in
  let c := set_state (set_animationData (Some sample_animation)
             (set_originalFileExt (Some ".json"%string)
                (set_originalFilename (Some "a"%string)
                   (set_fileSizeBytes (Some 10) (state c))))) c in
  set_currentFileSize (Some 10) (set_currentFileName (Some "a.json"%string) c).

Definition loaded_app : App :=
  exec (loadLottieAnimation ;; engine_DOMLoaded)
    {| browser := empty_browser; this := loaded_converter |}.

(** The drawing shown once the sample animation is loaded. *)
Definition loaded_svg : SvgElement :=
  match current_svg (this loaded_app) with
  | Some e => e
  | None => sample_svg 0 0
  end.




(* ===================================================================== *)
(** * Fixtures: an engine that writes and reads the recent-files list,
      and a page that parses two static documents                         *)
(* ===================================================================== *)

Module ListCodec.









End ListCodec.

(** The collaborators of the static examples: the page parses the text
    [doc 300x150] to a document with only a view box of that size, the text
    [doc 64x48 attrs] to a document with only [width] and [height]
    attributes, and finds no [<svg>] in any other text. *)
Definition static_Engines : @Engines sample_JSON := {|
  lottie_totalFrames := @lottie_totalFrames sample_JSON sample_Engines;
  lottie_svg := @lottie_svg sample_JSON sample_Engines;
  parse_svg text :=
    if String.eqb text "doc 300x150" then
      Some {| attr_width := None; attr_height := None;
              attr_viewBox := Some (0, 0, 300, 150)%Q;
              attr_preserveAspectRatio := None;
              style := None; frameOverlay := None; ignoreOpacityStyle := false;
              svgContent := StaticMarkup "<path/>" |}
    else if String.eqb text "doc 64x48 attrs" then
      Some {| attr_width := Some 64%Q; attr_height := Some 48%Q;
              attr_viewBox := None;
              attr_preserveAspectRatio := None;
              style := None; frameOverlay := None; ignoreOpacityStyle := false;
              svgContent := StaticMarkup "<path/>" |}
    else None;
  image_natural_size := @image_natural_size sample_JSON sample_Engines;
  image_natural_size_declared :=
    @image_natural_size_declared sample_JSON sample_Engines;
|}.

(** Twenty files saved one after the other, the last one first in the
    list. *)
Definition twenty_files : list RecentItem.t :=
  run_ops
    (List.map (fun i => Save ("file" ++ pretty i) (Z.of_nat i) None (Z.of_nat i))
       (seq 0 20)).

(** The page as the constructor leaves it, with an empty store. *)
Definition fresh_app : App :=
  {| browser := empty_browser; this := initial_converter sample_dom |}.

(* ===================================================================== *)
(** * Views of the controller used in the statements                      *)
(* ===================================================================== *)

Section Views.
Context `{Engines}.

(** The fields of the controller other than the page elements. *)
Definition session_of (c : LottieConverter) :=
  (state c, currentFileName c, currentFileSize c, hasInteractedSinceLoad c,
   (isPanning c, lastClientX c, lastClientY c), (panOffsetX c, panOffsetY c),
   frameOutlineOn c).

(** The elements of the page other than the render surface. *)
Definition widgets_of (c : LottieConverter) :=
  (previewContainer (elements c), frameSlider (elements c),
   exportFormatSelect (elements c), compressionSlider (elements c),
   rasterScaleSlider (elements c),
   aggressiveOptimizationCheckbox (elements c), rootFontSize (elements c)).

(** The frame count the engine reports for the loaded instance. *)
Definition engine_frames (c : LottieConverter) : option Z :=
  option_map AnimationItem.totalFrames (animationInstance (state c)).

(** An animated asset of [frameCount] frames is loaded: the engine instance
    reports [frameCount] frames and the state holds the last frame index. *)
Definition animated (frameCount : Z) (c : LottieConverter) : Prop :=
  engine_frames c = Some frameCount /\
  totalFrames (state c) = frameCount - 1.

End Views.

(* ===================================================================== *)
(** * Viewport events and the exported file                               *)
(* ===================================================================== *)

(** The gestures and selections that change the viewport. *)
Inductive ViewportEvent :=
| Wheel (deltaY : Q) (overZoomUi : bool)
| Select (value : string)
| MouseDown (button : Z) (clientX clientY : Q) (overZoomUi : bool)
| MouseMove (clientX clientY : Q)
| MouseUp
| DblClick (overZoomUi : bool).

Section ViewportEvents.
Context `{Engines}.

Definition viewport_event (ev : ViewportEvent) (c : LottieConverter)
  : LottieConverter :=
  match ev with
  | Wheel deltaY overZoomUi => onWheel deltaY overZoomUi c
  | Select value => handleSelectChange value c
  | MouseDown button x y overZoomUi => onMouseDown button x y overZoomUi c
  | MouseMove x y => onMouseMove x y c
  | MouseUp => endPan c
  | DblClick overZoomUi => onDblClick overZoomUi c
  end.

Definition viewport_events (evs : list ViewportEvent) (c : LottieConverter)
  : LottieConverter :=
  fold_left (fun c ev => viewport_event ev c) evs c.

(** [scale(...)] of the transform on the root [<svg>], if it has one. *)
Definition transform_of (c : LottieConverter) : option Q :=
  match current_svg c with
  | Some e => option_map transform_scale (style e)
  | None => None
  end.

(** What two root elements share when they differ in preview-only parts:
    the declared size, the view box and the drawing. *)
Definition drawing_of (e : SvgElement) :=
  (attr_width e, attr_height e, attr_viewBox e, svgContent e).

(** The intrinsic dimensions the state records. *)
Definition intrinsic_of (c : LottieConverter) := (width (state c), height (state c)).

End ViewportEvents.

(* ===================================================================== *)
(** * Playback events                                                     *)
(* ===================================================================== *)

(** The public calls, the gestures and the engine events that move the
    playback. *)
Inductive PlaybackEvent :=
| CallSetFrame (frame : Z)
| CallPlay
| CallPause
| CallSetLoop (loop : bool)
| ClickPlay
| MoveSlider (value : Z)          (* the user moves the frame slider *)
| EnterFrame (engineFrame : Q)    (* ["enterFrame"], with [instance.currentFrame] *)
| Complete.                       (* ["complete"] *)

Section PlaybackEvents.
Context `{Engines}.

Definition playback_event (ev : PlaybackEvent) : M App unit :=
  match ev with
  | CallSetFrame frame => setFrame frame
  | CallPlay => play
  | CallPause => update_this pause
  | CallSetLoop loop => update_this (setLoop loop)
  | ClickPlay => playBtn_onClick
  | MoveSlider value =>
      update_this (set_slider (fun sl =>
        {| slider_value := value; slider_max := slider_max sl |})) ;;
      frameSlider_onInput
  | EnterFrame engineFrame => update_this (onEnterFrame engineFrame)
  | Complete => update_this onComplete
  end.

Definition playback_events (evs : list PlaybackEvent) : M App unit :=
  forEach playback_event evs.

(** The frame an event reports or asks for by the slider lies within
    [0, last]; the range input and the engine keep to it. *)
Definition within_frames (last : Z) (ev : PlaybackEvent) : Prop :=
  match ev with
  | MoveSlider value => 0 <= value <= last
  | EnterFrame engineFrame => (0 <= engineFrame <= inject_Z last)%Q
  | _ => True
  end.

(** Paused flag, loop flag and frame of the engine instance. *)
Definition engine_paused (c : LottieConverter) : option bool :=
  option_map AnimationItem.isPaused (animationInstance (state c)).

Definition engine_loop (c : LottieConverter) : option bool :=
  option_map AnimationItem.loop (animationInstance (state c)).

Definition engine_frame (c : LottieConverter) : option Z :=
  option_map AnimationItem.currentFrame (animationInstance (state c)).

End PlaybackEvents.

(** The loaded sample animation, playing. *)
Definition playing_app : App := exec play loaded_app.

(** A run of playback events on the sample animation. *)
Definition sample_playback : list PlaybackEvent :=
  [CallPlay; EnterFrame (493 # 5); Complete; CallSetFrame 250; MoveSlider 7;
   ClickPlay; CallSetLoop false; EnterFrame 99; Complete; CallPlay; CallPause].

(** A press of the left button at [(x0, y0)] over the render area, away
    from the zoom control, followed by pointer moves. *)
Definition drag_events (x0 y0 : Q) (moves : list (Q * Q)) : list ViewportEvent :=
  MouseDown 0 x0 y0 false :: List.map (fun p => MouseMove (fst p) (snd p)) moves.

(** The outline as it appears on screen: stroke width, dash and gap of the
    overlay multiplied by the scale of the transform. *)
Definition screen_outline `{Engines} (c : LottieConverter) : option (Q * Q * Q) :=
  match current_svg c with
  | Some e =>
      match frameOverlay e, style e with
      | Some rect, Some st =>
          match stroke rect with
          | Some (strokeWidth, (dash, gap)) =>
              Some (strokeWidth * transform_scale st, dash * transform_scale st,
                    gap * transform_scale st)%Q
          | None => None
          end
      | _, _ => None
      end
  | None => None
  end.

(** The loaded sample animation with the frame outline switched on. *)
Definition outlined_converter : LottieConverter :=
  this (exec (frameToggle_onChange true) loaded_app).

Definition outlined_svg : SvgElement :=
  match current_svg outlined_converter with
  | Some e => e
  | None => sample_svg 0 0
  end.

Definition outlined_rect : FrameOverlay :=
  match frameOverlay outlined_svg with
  | Some rect => rect
  | None => {| overlay_width := 0; overlay_height := 0; stroke := None |}
  end.

(** Width and height of the overlay in the drawing shown, if it has one. *)
Definition outline_size `{Engines} (c : LottieConverter) : option (Q * Q) :=
  match current_svg c with
  | Some e =>
      option_map (fun rect => (overlay_width rect, overlay_height rect)) (frameOverlay e)
  | None => None
  end.

(** The inline position of the drawing is the pan offset plus the shift of
    the padding, to two decimals. *)
Definition positioned_at_pan `{Engines} (c : LottieConverter) : Prop :=
  forall (e : SvgElement) (st : PreviewStyle),
    current_svg c = Some e -> style e = Some st ->
    left_px st = toFixed2 (panOffsetX c + xShift c) /\
    top_px st = toFixed2 (panOffsetY c + yShift c).


(* ===================================================================== *)
(** * Operations of the page                                              *)
(* ===================================================================== *)

(** What can happen to the controller: a file is dropped or picked, an
    entry of the recent files is opened, the engine finishes a load, the
    playback or the viewport receives an event, a download is asked for, the
    animation is cleared, a switch is changed. *)
Inductive Operation :=
| Upload (file : File.t)
| OpenRecentJSON (filename : string) (size : Z) (json : string)
| OpenRecentSVG (filename : string) (size : Z) (svgText : string)
| EngineLoaded
| Playback (ev : PlaybackEvent)
| Viewport (ev : ViewportEvent)
| DownloadFrame
| Clear (loopSwitch : option (option string))
| ToggleFrame (checked : bool)
| ToggleOpacity (checked : bool).

Section Operations.
Context `{Engines}.

Definition run_operation (op : Operation) : M App unit :=
  match op with
  | Upload file => handleFile file
  | OpenRecentJSON filename size json => loadFromJSONString filename size json
  | OpenRecentSVG filename size svgText => loadFromSVGString filename size svgText
  | EngineLoaded => engine_DOMLoaded
  | Playback ev => playback_event ev
  | Viewport ev => update_this (viewport_event ev)
  | DownloadFrame => downloadCurrentFrame ;; ret tt
  | Clear loopSwitch => update_this (clearAnimation loopSwitch)
  | ToggleFrame checked => frameToggle_onChange checked
  | ToggleOpacity checked => ignoreOpacity_onChange checked
  end.

Definition run_operations (ops : list Operation) : M App unit :=
  forEach run_operation ops.

Definition is_upload (op : Operation) : bool :=
  match op with Upload _ => true | _ => false end.

End Operations.

(** The sample animation before its load: the state [handleFile] leaves
    for the engine. *)
Definition loading_app : App :=
  {| browser := empty_browser; this := loaded_converter |}.

(** A run of operations that opens and clears other files. *)
Definition sample_operations : list Operation :=
  [Playback (CallSetFrame 3); Clear None; OpenRecentSVG "x.svg" 3 "no drawing";
   OpenRecentJSON "y.json" 4 "{}"; EngineLoaded; Playback CallPlay; DownloadFrame;
   Viewport (Wheel (-100) false); ToggleFrame true].

(** The text stored for the recent-files list, if any. *)
Definition recent_slot (b : Browser) : option string :=
  match localStorage b with
  | Some m => m !! RECENT_KEY
  | None => None
  end.





Section ExportView.
Context `{Engines}.

(** What an export reads of the controller and the page: the intrinsic
    dimensions, the fields the file name is made of, the widgets, whether
    the render surface is on the page, and the drawing in it without its
    preview-only parts. *)
Definition export_view (c : LottieConverter) :=
  (intrinsic_of c,
   (match animationInstance (state c) with Some _ => true | None => false end,
    currentFrame (state c), originalFilename (state c)),
   widgets_of c,
   match lottieContainer (elements c) with Some _ => true | None => false end,
   option_map drawing_of (current_svg c)).

(** The pixel size of a raster export at [scale] of a document decoded at
    [natural] pixels. *)
Definition raster_pixels (natural : Z) (scale : Q) : Z :=
  Z.max 1 (JS.Math_round (inject_Z (Z.max 1 natural) * scale)).

End ExportView.

(** The name of the file a download offers. *)
Definition download_filename (d : Download) : string :=
  match d with
  | SvgFile filename _ _ => filename
  | RasterFile filename _ _ _ _ _ => filename
  end.

(** The name of the file an export ends with, if it offers one. *)
Definition offered_filename (r : JS.Error + option Download) : option string :=
  match r with
  | inr (Some d) => Some (download_filename d)
  | _ => None
  end.

(** A file named [b.json] whose text is not JSON. *)
Definition broken_file : File.t :=
  {| File.name := "b.json"; File.size := 20; File.text := "{" |}.

(** The text written under the key of a preference. *)
Definition preference_slot (key : Preferences.PreferenceKey) : string :=
  (Preferences.PREFIX ++ Preferences.key_name key)%string.

(** [resetAllPreferences] removes a key when it starts with one of these. *)
Definition reset_removes (k : string) : bool :=
  startsWith k Preferences.PREFIX || startsWith k "card-".

(** The declared defaults of the keys [getAllPreferences] lists. *)
Definition declared_defaults
  : list (Preferences.PreferenceKey * Preferences.PreferenceValue) :=
  List.map (fun k => (k, Preferences.DEFAULT_PREFERENCES k))
    (List.filter (fun k => negb (Preferences.is_card_collapsed k))
       Preferences.all_keys).


(** The list [getRecentFiles] returns on a browser. *)
Definition recent_files_of `{JSON} (b : Browser) : list RecentItem.t :=
  match classify_stored b with
  | AnArray items => items
  | _ => []
  end.

(** Once the interaction flag is set, a step leaves it set and leaves the
    stored recent-files list as it is. *)
Definition touched_stays `{Engines} (a a' : App) : Prop :=
  hasInteractedSinceLoad (this a) = true ->
  hasInteractedSinceLoad (this a') = true /\
  recent_slot (browser a') = recent_slot (browser a).

(** The entry [touchRecentIfNeeded] would touch: [name] and [size] of its
    body, when both are there. *)
Definition touch_target `{Engines} (c : LottieConverter) : option (string * Z) :=
  match originalFilename (state c), fileSizeBytes (state c) with
  | Some (String ch base), Some size =>
      Some ((String ch base ++ JS.str_or (originalFileExt (state c)) ".json")%string,
            size)
  | _, _ => None
  end.

(** The browser after [touchRecent] in a [try] with an empty [catch]. *)
Definition guarded_touch `{JSON} (name : string) (size : Z) (b : Browser) : Browser :=
  exec (try_catch (touchRecent name size) (fun _ => ret tt)) b.

(** The fields that track the file: base name, extension and size of the
    state, and the name and size the recent-files panel compares with. *)
Definition tracked_file `{Engines} (c : LottieConverter) :=
  (originalFilename (state c), originalFileExt (state c), fileSizeBytes (state c),
   currentFileName c, currentFileSize c).



(** Unfolds one layer of the computations on the browser. *)
Ltac run_browser :=
  unfold exec, outcome, try_catch, bind, ret, throw, get, modify,
    localStorage_getItem, localStorage_setItem, Date_now,
    document_dispatchEvent, alert, console_log; simpl.

(* ===================================================================== *)
(** * Properties of the preference store                                  *)
(* ===================================================================== *)

Lemma getPreference_run (key : Preferences.PreferenceKey)
    (defaultValue : option Preferences.PreferenceValue) (b : Browser) :
  Preferences.getPreference key defaultValue b =
  (b, inr match stored_preference key b with
          | Some s => read_as key s
          | None => Preferences.fallback key defaultValue
          end).
Proof.
  unfold Preferences.getPreference, stored_preference, read_as.
  run_browser.
  destruct (localStorage b) as [m|]; simpl; [|reflexivity].
  destruct (m !! _) as [s|]; simpl; [|reflexivity].
  destruct (Preferences.DEFAULT_PREFERENCES key); simpl; [|reflexivity].
  do 3 f_equal. destruct (String.eqb_spec s "true") as [->|Hne].
  - now rewrite bool_decide_eq_true_2.
  - now rewrite bool_decide_eq_false_2.
Qed.

(** C9, as the code has it.  Reading a preference never throws and leaves
    the browser as it was.  When the key is absent, or the store cannot be
    read, the result is the caller's default if one is given and the declared
    default of the key otherwise.  When a text is stored, a boolean key reads
    [true] exactly for the text ["true"] and [false] for every other text,
    whatever its declared default, and a string key reads the stored text as
    it is. *)
Theorem getPreference_reads (key : Preferences.PreferenceKey)
    (defaultValue : option Preferences.PreferenceValue) (b : Browser) :
  exec (Preferences.getPreference key defaultValue) b = b /\
  outcome (Preferences.getPreference key defaultValue) b =
    inr match stored_preference key b with
        | None =>
            match defaultValue with
            | Some v => v
            | None => Preferences.DEFAULT_PREFERENCES key
            end
        | Some s =>
            match Preferences.DEFAULT_PREFERENCES key with
            | Preferences.PBool _ => Preferences.PBool (bool_decide (s = "true"))
            | Preferences.PString _ => Preferences.PString s
            end
        end.
Proof.
  unfold exec, outcome. rewrite getPreference_run. split; [reflexivity|].
  simpl. destruct (stored_preference key b); reflexivity.
Qed.

(** C9 as stated fails: the key [loop] is declared with default [true]; with
    the text ["yes"] stored for it, which is no encoding of a boolean, the
    read yields [false]. *)
Lemma getPreference_malformed_not_default :
  let b := {| localStorage := Some {[ "lottie-converter-loop"%string := "yes"%string ]};
              clock := 0; dispatched := []; alerts := [] |} in
  ~ Preferences.well_formed Preferences.loop "yes" /\
  Preferences.DEFAULT_PREFERENCES Preferences.loop = Preferences.PBool true /\
  outcome (Preferences.getPreference Preferences.loop None) b
    = inr (Preferences.PBool false) /\
  outcome (Preferences.getPreference Preferences.loop None) b
    <> inr (Preferences.DEFAULT_PREFERENCES Preferences.loop).
Proof.
  intros b.
  assert (Hrun : outcome (Preferences.getPreference Preferences.loop None) b
                 = inr (Preferences.PBool false)).
  { unfold outcome. rewrite getPreference_run. reflexivity. }
  split; [|split; [reflexivity|split; [exact Hrun|]]].
  - unfold Preferences.well_formed. simpl. intros [Hy|Hy]; discriminate Hy.
  - rewrite Hrun. simpl. discriminate.
Qed.

(* ===================================================================== *)
(** * Properties of the recent-files list                                 *)
(* ===================================================================== *)

Section RecentFilesFacts.
Context `{JSON}.

Lemma getRecentFiles_run (b : Browser) :
  getRecentFiles b =
  (b, inr match classify_stored b with
          | AnArray items => items
          | _ => []
          end).
Proof.
  unfold getRecentFiles, classify_stored, JSON_parse_or_throw.
  run_browser.
  destruct (localStorage b) as [m|]; simpl; [|reflexivity].
  destruct (JSON_parse _) as [v|]; simpl; [|reflexivity].
  destruct (as_RecentItems v); reflexivity.
Qed.

(** C10.  Reading the recent-files list always returns a list and never
    throws, and it leaves the browser as it was: the stored array when the
    stored text parses to an array, and the empty list when the store is
    inaccessible, the text is malformed, or it parses to something that is
    not an array. *)
Theorem getRecentFiles_total (b : Browser) :
  exec getRecentFiles b = b /\
  exists items : list RecentItem.t,
    outcome getRecentFiles b = inr items /\
    match classify_stored b with
    | AnArray stored => items = stored
    | StoreInaccessible | Malformed | NotAnArray => items = []
    end.
Proof.
  unfold exec, outcome. rewrite getRecentFiles_run. simpl.
  split; [reflexivity|].
  eexists. split; [reflexivity|].
  destruct (classify_stored b); reflexivity.
Qed.

End RecentFilesFacts.

Section RecentFilesOperations.
Context `{JSON}.

Lemma same_file_key (name : string) (size : Z) (it : RecentItem.t) :
  same_file name size it = true <-> RecentItem.key it = (name, size).
Proof.
  unfold same_file, RecentItem.key.
  rewrite andb_true_iff, String.eqb_eq, Z.eqb_eq.
  split; [intros [-> ->]; reflexivity | intros [= -> ->]; auto].
Qed.

Lemma keys_without_dupes (name : string) (size : Z) (items : list RecentItem.t) :
  NoDup (map RecentItem.key items) ->
  NoDup (map RecentItem.key
           (List.filter (fun it => negb (same_file name size it)) items)) /\
  (name, size) ∉
    map RecentItem.key (List.filter (fun it => negb (same_file name size it)) items).
Proof.
  induction items as [|it items IH]; simpl; intros Hnd.
  - split; [constructor | apply not_elem_of_nil].
  - apply NoDup_cons in Hnd as [Hit Hnd]. destruct (IH Hnd) as [IH1 IH2].
    destruct (same_file name size it) eqn:Hsame; simpl; [auto|].
    split.
    + apply NoDup_cons. split; [|exact IH1].
      intros Hin. apply Hit.
      apply list_elem_of_In in Hin. apply list_elem_of_In.
      apply in_map_iff in Hin as (x & Hx & Hin). apply in_map_iff.
      exists x. split; [exact Hx|]. now apply filter_In in Hin.
    + apply not_elem_of_cons. split; [|exact IH2].
      intros Heq. symmetry in Heq. apply same_file_key in Heq. congruence.
Qed.

Lemma saveRecentFile_next_ok (name : string) (size : Z) (content : option string)
    (now : Z) (items : list RecentItem.t) :
  NoDup (map RecentItem.key items) ->
  (length (saveRecentFile_next name size content now items) <= MAX_ITEMS)%nat /\
  NoDup (map RecentItem.key (saveRecentFile_next name size content now items)).
Proof.
  intros Hnd. unfold saveRecentFile_next. split.
  - rewrite length_take. lia.
  - rewrite <- firstn_map.
    eapply sublist_NoDup; [|apply sublist_take].
    destruct (keys_without_dupes name size items Hnd) as [H1 H2].
    simpl. apply NoDup_cons. split; assumption.
Qed.

Lemma touchRecent_next_keys (name : string) (size : Z) (now : Z)
    (items : list RecentItem.t) :
  map RecentItem.key (touchRecent_next name size now items)
  = map RecentItem.key items.
Proof.
  unfold touchRecent_next. rewrite map_map. apply map_ext.
  intros it. destruct (same_file name size it); reflexivity.
Qed.

Lemma touchRecent_next_pointwise (name : string) (size : Z) (now : Z)
    (items : list RecentItem.t) :
  Forall2
    (fun old new =>
       new = if same_file name size old
             then RecentItem.with_lastOpened now old else old)
    items (touchRecent_next name size now items).
Proof.
  unfold touchRecent_next. induction items; simpl; constructor; auto.
Qed.

(** The invariant of the list: at most [MAX_ITEMS] entries, no two with the
    same name and size. *)
Lemma apply_op_ok (op : RecentOp) (items : list RecentItem.t) :
  (length items <= MAX_ITEMS)%nat /\ NoDup (map RecentItem.key items) ->
  (length (apply_op op items) <= MAX_ITEMS)%nat /\
  NoDup (map RecentItem.key (apply_op op items)).
Proof.
  intros [Hlen Hnd]. destruct op as [name size content now | name size now]; simpl.
  - now apply saveRecentFile_next_ok.
  - rewrite touchRecent_next_keys. split; [|exact Hnd].
    unfold touchRecent_next. now rewrite length_map.
Qed.

Lemma fold_ops_ok (ops : list RecentOp) (items : list RecentItem.t) :
  (length items <= MAX_ITEMS)%nat /\ NoDup (map RecentItem.key items) ->
  (length (fold_left (fun l op => apply_op op l) ops items) <= MAX_ITEMS)%nat /\
  NoDup (map RecentItem.key (fold_left (fun l op => apply_op op l) ops items)).
Proof.
  revert items. induction ops as [|op ops IH]; simpl; intros items Hok.
  - exact Hok.
  - apply IH. now apply apply_op_ok.
Qed.

Lemma run_ops_ok (ops : list RecentOp) :
  (length (run_ops ops) <= MAX_ITEMS)%nat /\
  NoDup (map RecentItem.key (run_ops ops)).
Proof.
  unfold run_ops. apply fold_ops_ok. simpl. split; [lia | constructor].
Qed.

(** What [saveRecentFile] does to the browser: it replaces the stored list
    by [saveRecentFile_next] of the list it read and announces the refresh;
    with an inaccessible store it throws. *)
Lemma saveRecentFile_run (name : string) (size : Z) (content : option string)
    (b : Browser) :
  saveRecentFile name size content b =
  match localStorage b with
  | Some m =>
      let items := match classify_stored b with AnArray l => l | _ => [] end in
      (add_dispatched "recent:refresh"
         (set_localStorage
            (<[RECENT_KEY :=
                 JSON_stringify (saveRecentFile_next name size content (clock b) items)]> m)
            b), inr tt)
  | None => (b, inl JS.SecurityError)
  end.
Proof.
  unfold saveRecentFile, bind. rewrite getRecentFiles_run.
  run_browser. destruct (localStorage b); reflexivity.
Qed.

Lemma touchRecent_run (name : string) (size : Z) (b : Browser) :
  touchRecent name size b =
  match localStorage b with
  | Some m =>
      let items := match classify_stored b with AnArray l => l | _ => [] end in
      (add_dispatched "recent:refresh"
         (set_localStorage
            (<[RECENT_KEY :=
                 JSON_stringify (touchRecent_next name size (clock b) items)]> m)
            b), inr tt)
  | None => (b, inl JS.SecurityError)
  end.
Proof.
  unfold touchRecent, bind. rewrite getRecentFiles_run.
  run_browser. destruct (localStorage b); reflexivity.
Qed.

(** C4, as the code has it.  For every list [items] the two operations
    build from the empty list: it has at most [MAX_ITEMS] entries and no two
    entries with the same name and size.  Saving a file puts its entry,
    stamped [now], at the front and keeps the other entries in their order,
    without any entry of that name and size, cut to the maximum; so an entry
    that was in the list is moved to the front and not duplicated.  Touching
    keeps every entry at its position, name and size unchanged, and stamps
    [now] on the entries with that name and size: it does not reorder the
    list. *)
Theorem recent_files_list (ops : list RecentOp) (name : string) (size : Z)
    (content : option string) (now : Z) :
  let items := run_ops ops in
  let saved := saveRecentFile_next name size content now items in
  let touched := touchRecent_next name size now items in
  ((length items <= MAX_ITEMS)%nat /\ NoDup (map RecentItem.key items)) /\
  ((length saved <= MAX_ITEMS)%nat /\ NoDup (map RecentItem.key saved) /\
   saved =
     {| RecentItem.name := name; RecentItem.size := size;
        RecentItem.lastOpened := now;
        RecentItem.content := inlineContent content |}
     :: take (MAX_ITEMS - 1)
          (List.filter (fun it => negb (same_file name size it)) items)) /\
  ((length touched <= MAX_ITEMS)%nat /\
   map RecentItem.key touched = map RecentItem.key items /\
   Forall2
     (fun old new =>
        new = if same_file name size old
              then RecentItem.with_lastOpened now old else old)
     items touched).
Proof.
  intros items saved touched.
  pose proof (run_ops_ok ops) as [Hlen Hnd]. fold items in Hlen, Hnd.
  split; [split; assumption|]. split.
  - destruct (saveRecentFile_next_ok name size content now items Hnd) as [H1 H2].
    repeat split; assumption || reflexivity.
  - split; [|split].
    + unfold touched, touchRecent_next. now rewrite length_map.
    + apply touchRecent_next_keys.
    + apply touchRecent_next_pointwise.
Qed.

End RecentFilesOperations.

(** C4 as stated fails for touching: after [a.json] and then [b.json] were
    saved the list is [b.json; a.json]; touching [a.json], which is in the
    list, stamps it and leaves it second, [b.json] stays at the front. *)
Lemma touchRecent_does_not_move_to_front :
  let items := run_ops [Save "a.json" 1 None 10; Save "b.json" 2 None 20] in
  let touched := touchRecent_next "a.json" 1 30 items in
  In ("a.json"%string, 1) (map RecentItem.key items) /\
  map RecentItem.name touched = ["b.json"; "a.json"]%string /\
  map RecentItem.lastOpened touched = [20; 30] /\
  hd_error (map RecentItem.key touched) <> Some ("a.json"%string, 1).
Proof.
  vm_compute. repeat split; auto. discriminate.
Qed.

(* ===================================================================== *)
(** * What the viewport code leaves alone                                 *)
(* ===================================================================== *)

Section Frames.
Context `{Engines}.

Lemma map_svg_session (f : SvgElement -> SvgElement) (c : LottieConverter) :
  session_of (map_svg f c) = session_of c /\ widgets_of (map_svg f c) = widgets_of c.
Proof.
  unfold map_svg. destruct (lottieContainer (elements c)) as [box|]; [|auto].
  destruct (svg box); auto.
Qed.

Lemma updateFrameOutlineAppearance_session (c : LottieConverter) :
  session_of (updateFrameOutlineAppearance c) = session_of c /\
  widgets_of (updateFrameOutlineAppearance c) = widgets_of c.
Proof.
  unfold updateFrameOutlineAppearance.
  destruct (frameOutlineOn c); simpl; [apply map_svg_session | auto].
Qed.

Lemma applyZoom_session (c : LottieConverter) :
  session_of (applyZoom c) = session_of c /\ widgets_of (applyZoom c) = widgets_of c.
Proof.
  unfold applyZoom. destruct (current_svg c); [|auto].
  destruct (updateFrameOutlineAppearance_session
              match zoomMode (state c) with
              | fit => map_svg (fitToContainer c) c
              | fixed => map_svg (fun e => setFixedZoom c e
                                     (JS.int_or (zoomPercent (state c)) 100)) c
              end) as [-> ->].
  destruct (zoomMode (state c)); apply map_svg_session.
Qed.

Lemma session_state (c c' : LottieConverter) :
  session_of c' = session_of c -> state c' = state c.
Proof. unfold session_of. now intros [= -> _ _ _ _ _ _ _ _ _]. Qed.

Lemma widgets_slider (c c' : LottieConverter) :
  widgets_of c' = widgets_of c ->
  frameSlider (elements c') = frameSlider (elements c).
Proof. unfold widgets_of. now intros [= _ -> _ _ _ _ _]. Qed.

Lemma applyZoom_state (c : LottieConverter) : state (applyZoom c) = state c.
Proof. apply session_state, applyZoom_session. Qed.

Lemma applyZoom_slider (c : LottieConverter) :
  frameSlider (elements (applyZoom c)) = frameSlider (elements c).
Proof. apply widgets_slider, applyZoom_session. Qed.

Lemma map_svg_state (f : SvgElement -> SvgElement) (c : LottieConverter) :
  state (map_svg f c) = state c.
Proof. apply session_state, map_svg_session. Qed.

Lemma map_svg_slider (f : SvgElement -> SvgElement) (c : LottieConverter) :
  frameSlider (elements (map_svg f c)) = frameSlider (elements c).
Proof. apply widgets_slider, map_svg_session. Qed.

(** [goToAndStop] moves the engine and nothing else of the state. *)
Lemma goToAndStop_state (frame : Z) (c : LottieConverter) :
  state (goToAndStop frame c) =
  set_animationInstance
    (option_map (fun i => AnimationItem.set_isPaused true
                            (AnimationItem.set_currentFrame frame i))
       (animationInstance (state c))) (state c).
Proof.
  unfold goToAndStop. destruct (animationInstance (state c)) eqn:Hi.
  - now rewrite map_svg_state.
  - simpl. rewrite <- Hi. now destruct (state c).
Qed.

Lemma goToAndStop_slider (frame : Z) (c : LottieConverter) :
  frameSlider (elements (goToAndStop frame c)) = frameSlider (elements c).
Proof.
  unfold goToAndStop. destruct (animationInstance (state c)); [|reflexivity].
  now rewrite map_svg_slider.
Qed.

(** Touching the recent list never throws and changes, of the controller,
    the interaction flag only. *)
Lemma touchRecentIfNeeded_run (a : App) :
  exists (b' : Browser) (flag : bool),
    touchRecentIfNeeded a =
    ({| browser := b'; this := set_hasInteractedSinceLoad flag (this a) |}, inr tt).
Proof.
  unfold touchRecentIfNeeded, bind, get_this.
  destruct (hasInteractedSinceLoad (this a)) eqn:Hflag.
  - exists (browser a), true. unfold ret. rewrite <- Hflag.
    destruct a as [b c]; destruct c; reflexivity.
  - destruct (originalFilename (state (this a))) as [[|ch base]|];
      try (exists (browser a), false; unfold ret; rewrite <- Hflag;
           destruct a as [b c]; destruct c; reflexivity).
    destruct (fileSizeBytes (state (this a))) as [size|];
      try (exists (browser a), false; unfold ret; rewrite <- Hflag;
           destruct a as [b c]; destruct c; reflexivity).
    unfold try_catch, in_browser, zoom, update_this, modify, ret.
    destruct (touchRecent _ size (browser a)) as [b' [e|[]]]; simpl;
      exists b', true; reflexivity.
Qed.

End Frames.

(* ===================================================================== *)
(** * Playback position                                                   *)
(* ===================================================================== *)

Section PlaybackPosition.
Context `{Engines}.

Lemma goToAndStop_frames (frame : Z) (c : LottieConverter) :
  engine_frames (goToAndStop frame c) = engine_frames c /\
  totalFrames (state (goToAndStop frame c)) = totalFrames (state c) /\
  currentFrame (state (goToAndStop frame c)) = currentFrame (state c).
Proof.
  unfold engine_frames. rewrite goToAndStop_state.
  destruct (animationInstance (state c)); simpl; auto.
Qed.

(** The slider listener copies the slider's value into the position. *)
Lemma frameSlider_onInput_frame (a : App) (target : Slider) :
  frameSlider (elements (this a)) = Some target ->
  exists a' : App,
    frameSlider_onInput a = (a', inr tt) /\
    currentFrame (state (this a')) = slider_value target /\
    totalFrames (state (this a')) = totalFrames (state (this a)) /\
    engine_frames (this a') = engine_frames (this a).
Proof.
  intros Htarget. unfold frameSlider_onInput, bind, get_this.
  rewrite Htarget. unfold update_state, update_this, modify. simpl.
  match goal with
  | |- context [touchRecentIfNeeded ?x] =>
      destruct (touchRecentIfNeeded_run x) as (b' & flag & ->)
  end.
  eexists. split; [reflexivity|]. unfold engine_frames. simpl.
  destruct (animationInstance (state (this a))) as [inst|] eqn:Hi; simpl;
    [|rewrite Hi; auto].
  rewrite applyZoom_state.
  match goal with
  | |- context [goToAndStop ?f ?c] =>
      destruct (goToAndStop_frames f c) as (E1 & E2 & E3)
  end.
  unfold engine_frames in E1. rewrite E1, E2, E3. simpl. rewrite Hi. auto.
Qed.

Lemma setFrame_run (a : App) (frameCount frame : Z) :
  animated frameCount (this a) ->
  exists a' : App,
    setFrame frame a = (a', inr tt) /\
    currentFrame (state (this a')) = Z.max 0 (Z.min frame (frameCount - 1)) /\
    animated frameCount (this a').
Proof.
  intros [Hinst Htotal]. unfold setFrame, bind, get_this.
  unfold engine_frames in Hinst.
  destruct (animationInstance (state (this a))) as [inst|] eqn:Hi;
    [|discriminate Hinst].
  simpl in Hinst.
  unfold update_state, update_this, modify. simpl.
  rewrite applyZoom_slider, goToAndStop_slider. simpl.
  set (clamped := Z.max 0 (Z.min frame (totalFrames (state (this a))))).
  set (c1 := applyZoom (goToAndStop clamped
               (set_state (set_currentFrame clamped (state (this a))) (this a)))).
  assert (Hc1 : engine_frames c1 = Some frameCount /\
                totalFrames (state c1) = frameCount - 1 /\
                currentFrame (state c1) = Z.max 0 (Z.min frame (frameCount - 1))).
  { unfold c1, engine_frames. rewrite applyZoom_state.
    match goal with
    | |- context [goToAndStop ?f ?c] =>
        destruct (goToAndStop_frames f c) as (E1 & E2 & E3)
    end.
    unfold engine_frames in E1. rewrite E1, E2, E3.
    simpl. rewrite Hi. unfold clamped. rewrite Htotal. auto. }
  destruct Hc1 as (Hf & Ht & Hc).
  destruct (frameSlider (elements (this a))) as [sl|] eqn:Hsl.
  - match goal with
    | |- context [frameSlider_onInput ?x] =>
        destruct (frameSlider_onInput_frame x
                    {| slider_value := clamped; slider_max := slider_max sl |})
          as (a' & -> & Hcur & Htot & Hfr)
    end.
    { simpl. unfold set_slider.
      assert (Hs : frameSlider (elements c1) = Some sl).
      { unfold c1. now rewrite applyZoom_slider, goToAndStop_slider. }
      rewrite Hs. reflexivity. }
    exists a'. split; [reflexivity|]. simpl in Hcur, Htot, Hfr.
    unfold set_slider in Htot, Hfr.
    destruct (frameSlider (elements c1)); simpl in Htot, Hfr;
      (split; [rewrite Hcur; unfold clamped; now rewrite Htotal|
               split; [now rewrite Hfr | now rewrite Htot]]).
  - eexists. split; [reflexivity|]. simpl. repeat split; assumption.
Qed.

End PlaybackPosition.

Section LoadCompletion.
Context `{Engines}.

Lemma applyFrameOutline_session (c : LottieConverter) :
  session_of (applyFrameOutline c) = session_of c /\
  widgets_of (applyFrameOutline c) = widgets_of c.
Proof.
  unfold applyFrameOutline. destruct (current_svg c) as [e|]; [|auto].
  destruct (frameOutlineOn c) eqn:Hon; simpl.
  - destruct (_ || _); [auto|].
    match goal with
    | |- context [updateFrameOutlineAppearance ?x] =>
        destruct (updateFrameOutlineAppearance_session x) as [-> ->]
    end.
    apply map_svg_session.
  - apply map_svg_session.
Qed.

Lemma applyOpacityOverride_session (c : LottieConverter) :
  session_of (applyOpacityOverride c) = session_of c /\
  widgets_of (applyOpacityOverride c) = widgets_of c.
Proof. apply map_svg_session. Qed.

Lemma waitForSvgAndReveal_session (c : LottieConverter) :
  session_of (waitForSvgAndReveal c) = session_of c /\
  widgets_of (waitForSvgAndReveal c) = widgets_of c.
Proof.
  unfold waitForSvgAndReveal. destruct (current_svg c); [|auto].
  unfold reveal.
  set (c1 := applyOpacityOverride _).
  assert (Hc1 : session_of c1 = session_of c /\ widgets_of c1 = widgets_of c).
  { unfold c1.
    destruct (applyOpacityOverride_session
                (updateFrameOutlineAppearance (applyFrameOutline (applyZoom c))))
      as [-> ->].
    destruct (updateFrameOutlineAppearance_session (applyFrameOutline (applyZoom c)))
      as [-> ->].
    destruct (applyFrameOutline_session (applyZoom c)) as [-> ->].
    apply applyZoom_session. }
  destruct Hc1 as [<- <-].
  destruct (lottieContainer (elements c1)); auto.
Qed.

(** The position and the two frame counts. *)
Lemma session_frames (c c' : LottieConverter) :
  session_of c' = session_of c ->
  engine_frames c' = engine_frames c /\
  totalFrames (state c') = totalFrames (state c) /\
  currentFrame (state c') = currentFrame (state c).
Proof.
  intros Hs. apply session_state in Hs. unfold engine_frames. now rewrite Hs.
Qed.

Lemma onDOMLoaded_run (a : App) (inst : AnimationItem) :
  animationInstance (state (this a)) = Some inst ->
  exists a' : App,
    onDOMLoaded a = (a', inr tt) /\
    animated (AnimationItem.totalFrames inst) (this a') /\
    currentFrame (state (this a')) = 0.
Proof.
  intros Hi. unfold onDOMLoaded, bind, get_this. rewrite Hi.
  unfold update_state, update_this, modify. simpl.
  set (c0 := set_slider _ _).
  assert (Hc0 : engine_frames c0 = Some (AnimationItem.totalFrames inst) /\
                totalFrames (state c0) = AnimationItem.totalFrames inst - 1 /\
                currentFrame (state c0) = 0).
  { unfold c0, set_slider, engine_frames.
    destruct (frameSlider _); simpl; rewrite Hi; auto. }
  assert (Hsl : forall sl, frameSlider (elements c0) = Some sl -> slider_value sl = 0).
  { unfold c0, set_slider. simpl.
    destruct (frameSlider (elements (this a))) eqn:Hs; simpl.
    - now intros sl [= <-].
    - rewrite Hs. discriminate. }
  destruct Hc0 as (Hf & Ht & Hc).
  (* updateSliderMax *)
  assert (Hmax : exists a1 : App,
             updateSliderMax (totalFrames (state c0))
               {| browser := browser a; this := c0 |} = (a1, inr tt) /\
             engine_frames (this a1) = Some (AnimationItem.totalFrames inst) /\
             totalFrames (state (this a1)) = AnimationItem.totalFrames inst - 1 /\
             currentFrame (state (this a1)) = 0).
  { unfold updateSliderMax, bind, get_this. simpl.
    destruct (frameSlider (elements c0)) as [sl|] eqn:Hs.
    - unfold update_this, modify. simpl.
      match goal with
      | |- context [frameSlider_onInput ?x] =>
          destruct (frameSlider_onInput_frame x
                      {| slider_value := slider_value sl;
                         slider_max := totalFrames (state c0) |})
            as (a1 & -> & Hcur & Htot & Hfr)
      end.
      { simpl. unfold set_slider. rewrite Hs. reflexivity. }
      exists a1. split; [reflexivity|]. simpl in Hcur, Htot, Hfr.
      unfold set_slider in Htot, Hfr. rewrite Hs in Htot, Hfr.
      unfold engine_frames in *. simpl in Htot, Hfr.
      rewrite Hfr, Htot, Hcur. rewrite (Hsl sl eq_refl). auto.
    - eexists. split; [reflexivity|]. simpl. auto. }
  destruct Hmax as (a1 & -> & Hf1 & Ht1 & Hc1).
  eexists. split; [reflexivity|]. simpl.
  set (c2 := waitForSvgAndReveal (applyZoom (this a1))).
  assert (Hc2 : engine_frames c2 = engine_frames (this a1) /\
                totalFrames (state c2) = totalFrames (state (this a1)) /\
                currentFrame (state c2) = currentFrame (state (this a1))).
  { apply session_frames. unfold c2.
    destruct (waitForSvgAndReveal_session (applyZoom (this a1))) as [-> _].
    apply applyZoom_session. }
  destruct Hc2 as (Hf2 & Ht2 & Hcur2).
  rewrite applyZoom_state.
  destruct (goToAndStop_frames 0 c2) as (Hf3 & Ht3 & Hc3).
  unfold animated, engine_frames in *.
  destruct (animationInstance (state (goToAndStop 0 c2))) as [i|]; simpl in *;
    repeat split; congruence.
Qed.

(** A load runs to completion: [loadLottieAnimation] builds the instance,
    the engine inserts its drawing and fires [DOMLoaded]. *)
Lemma load_completes (a : App) (box : Container) (data : Json) :
  lottieContainer (elements (this a)) = Some box ->
  has_animationData (state (this a)) = Some data ->
  exists a' : App,
    (loadLottieAnimation ;; engine_DOMLoaded)%js a = (a', inr tt) /\
    animated (lottie_totalFrames data) (this a') /\
    currentFrame (state (this a')) = 0.
Proof.
  intros Hbox Hdata.
  unfold bind at 1. unfold loadLottieAnimation, bind, get_this.
  rewrite Hbox, Hdata. unfold update_this, update_state, modify. simpl.
  unfold engine_DOMLoaded, bind, update_this, modify. simpl.
  match goal with
  | |- context [onDOMLoaded ?x] =>
      destruct (onDOMLoaded_run x
                  {| AnimationItem.totalFrames := lottie_totalFrames data;
                     AnimationItem.currentFrame := 0;
                     AnimationItem.loop := isLooping (state (this a));
                     AnimationItem.isPaused := true |})
        as (a' & -> & Hanim & Hcur)
  end.
  - simpl. unfold engine_inserts_svg, replace_content. rewrite Hbox. simpl.
    unfold has_animationData in *. simpl.
    destruct (animationData (state (this a))) as [d|]; [|discriminate].
    destruct (truthy d); [|discriminate]. reflexivity.
  - exists a'. auto.
Qed.

(** C3.  After a load of an animation of [frameCount >= 1] frames has
    completed, the position is [0] and lies in [0, frameCount - 1].  In every
    state with an animated asset of [frameCount >= 1] frames, [setFrame n]
    for any integer [n] returns without an error, sets the position to [n]
    clamped into [0, frameCount - 1], keeps the asset loaded, and so keeps
    the position in [0, frameCount - 1]. *)
Theorem setFrame_clamps_into_range :
  (forall (a : App) (box : Container) (data : Json),
      lottieContainer (elements (this a)) = Some box ->
      has_animationData (state (this a)) = Some data ->
      1 <= lottie_totalFrames data ->
      let frameCount := lottie_totalFrames data in
      let loaded := exec (loadLottieAnimation ;; engine_DOMLoaded)%js a in
      outcome (loadLottieAnimation ;; engine_DOMLoaded)%js a = inr tt /\
      animated frameCount (this loaded) /\
      0 <= currentFrame (state (this loaded)) <= frameCount - 1) /\
  (forall (a : App) (frameCount n : Z),
      animated frameCount (this a) ->
      1 <= frameCount ->
      let after := exec (setFrame n) a in
      outcome (setFrame n) a = inr tt /\
      currentFrame (state (this after)) = JS.clampZ 0 (frameCount - 1) n /\
      animated frameCount (this after) /\
      0 <= currentFrame (state (this after)) <= frameCount - 1).
Proof.
  split.
  - intros a box data Hbox Hdata Hframes frameCount loaded.
    destruct (load_completes a box data Hbox Hdata) as (a' & Hrun & Hanim & Hcur).
    unfold loaded, exec, outcome. rewrite Hrun. simpl.
    split; [reflexivity|]. split; [exact Hanim|].
    rewrite Hcur. unfold frameCount. lia.
  - intros a frameCount n Hanim Hframes after.
    destruct (setFrame_run a frameCount n Hanim) as (a' & Hrun & Hcur & Hanim').
    unfold after, exec, outcome. rewrite Hrun. simpl.
    unfold JS.clampZ. rewrite Hcur.
    split; [reflexivity|]. split; [lia|]. split; [exact Hanim'|]. lia.
Qed.

End LoadCompletion.

(** The sample animation of 100 frames: the position after the load, and
    after [setFrame] beyond the last frame, before the first, and inside. *)
Lemma setFrame_clamps_into_range_witness :
  (0 <= currentFrame (state (this loaded_app)) <= 99) /\
  currentFrame (state (this (exec (setFrame 250) loaded_app))) = 99 /\
  currentFrame (state (this (exec (setFrame (-3)) loaded_app))) = 0 /\
  (0 <= currentFrame (state (this (exec (setFrame 42) loaded_app))) <= 99).
Proof.
  destruct (@setFrame_clamps_into_range sample_JSON sample_Engines) as [Hload Hset].
  split; [|split; [|split]].
  - apply (Hload {| browser := empty_browser; this := loaded_converter |}
             {| svg := None; visible := true;
                container_rect := {| rect_width := 1920; rect_height := 1080 |} |}
             sample_animation); [reflexivity | reflexivity | vm_compute; discriminate].
  - apply (Hset loaded_app 100 250); [vm_compute; split; reflexivity | lia].
  - apply (Hset loaded_app 100 (-3)); [vm_compute; split; reflexivity | lia].
  - apply (Hset loaded_app 100 42); [vm_compute; split; reflexivity | lia].
Defined.

(* ===================================================================== *)
(** * Rounding                                                            *)
(* ===================================================================== *)

Lemma Math_round_bounds (x : Q) :
  (inject_Z (JS.Math_round x) <= x + (1 # 2) /\
   x + (1 # 2) < inject_Z (JS.Math_round x) + 1)%Q.
Proof.
  unfold JS.Math_round. split.
  - apply Qfloor_le.
  - pose proof (Qlt_floor (x + (1 # 2))) as Hlt.
    rewrite inject_Z_plus in Hlt. exact Hlt.
Qed.

(** [Math.round(x) = n] as soon as [n - 1/2 <= x < n + 1/2]. *)
Lemma Math_round_unique (x : Q) (n : Z) :
  (inject_Z n <= x + (1 # 2))%Q -> (x + (1 # 2) < inject_Z n + 1)%Q ->
  JS.Math_round x = n.
Proof.
  intros Hlo Hhi. destruct (Math_round_bounds x) as [Hlo' Hhi'].
  assert (H1 : (inject_Z n < inject_Z (JS.Math_round x + 1))%Q).
  { rewrite inject_Z_plus. eapply Qle_lt_trans; [exact Hlo | exact Hhi']. }
  assert (H2 : (inject_Z (JS.Math_round x) < inject_Z (n + 1))%Q).
  { rewrite inject_Z_plus. eapply Qle_lt_trans; [exact Hlo' | exact Hhi]. }
  rewrite <- Zlt_Qlt in H1, H2. lia.
Qed.

Lemma Math_round_Qeq (x y : Q) : (x == y)%Q -> JS.Math_round x = JS.Math_round y.
Proof. intros Heq. unfold JS.Math_round. now rewrite Heq. Qed.

Lemma Math_round_inject_Z (n : Z) : JS.Math_round (inject_Z n) = n.
Proof. apply Math_round_unique; lra. Qed.

Lemma clampQ_bounds (lo hi x : Q) :
  (lo <= hi)%Q -> (lo <= JS.clampQ lo hi x /\ JS.clampQ lo hi x <= hi)%Q.
Proof.
  intros Hle. unfold JS.clampQ. split.
  - apply Q.le_max_l.
  - apply Q.max_lub; [exact Hle | apply Q.le_min_l].
Qed.

(* ===================================================================== *)
(** * Wheel zoom: the percentage                                          *)
(* ===================================================================== *)









(* ===================================================================== *)
(** * Wheel zoom and fixed zoom on the controller                         *)
(* ===================================================================== *)

Section WheelZoom.
Context `{Engines}.
Local Open Scope Q_scope.

Lemma current_svg_map_svg (f : SvgElement -> SvgElement) (c : LottieConverter) :
  current_svg (map_svg f c) = option_map f (current_svg c).
Proof.
  unfold current_svg, map_svg.
  destruct (lottieContainer (elements c)) as [box|] eqn:Hbox.
  - destruct (svg box) eqn:Hsvg; simpl; [reflexivity | now rewrite Hbox].
  - now rewrite Hbox.
Qed.

(** The overlay update touches the overlay only. *)
Lemma updateFrameOutlineAppearance_svg (c : LottieConverter) :
  option_map (fun e => (style e, drawing_of e))
    (current_svg (updateFrameOutlineAppearance c))
  = option_map (fun e => (style e, drawing_of e)) (current_svg c).
Proof.
  unfold updateFrameOutlineAppearance. destruct (frameOutlineOn c); simpl; [|reflexivity].
  rewrite current_svg_map_svg. destruct (current_svg c) as [e|]; simpl; [|reflexivity].
  destruct (frameOverlay e); reflexivity.
Qed.

Lemma getCurrentScale_fixed (c : LottieConverter) :
  zoomMode (state c) = fixed ->
  getCurrentScale c
  = JS.clampQ (2 # 100) 32 (inject_Z (JS.int_or (zoomPercent (state c)) 100) / 100).
Proof. intros Hmode. unfold getCurrentScale. now rewrite Hmode. Qed.

Lemma getCurrentScale_nonzero (c : LottieConverter) :
  JS.is_zero (getCurrentScale c) = false.
Proof.
  unfold getCurrentScale. destruct (zoomMode (state c)).
  - unfold JS.num_or. destruct (computeFitScale c) as [x|]; [|reflexivity].
    destruct (JS.is_zero x) eqn:Hx; [reflexivity | exact Hx].
  - destruct (clampQ_bounds (2 # 100) 32
                (inject_Z (JS.int_or (zoomPercent (state c)) 100) / 100)) as [Hlo _];
      [lra|].
    unfold JS.is_zero. destruct (Qeq_bool _ 0) eqn:Heq; [|reflexivity].
    apply Qeq_bool_eq in Heq. lra.
Qed.



End WheelZoom.



Section ZoomTheorems.
Context `{Engines}.
Local Open Scope Q_scope.







End ZoomTheorems.



(** The sample animation is drawn once loaded, and stays drawn when zoomed. *)
Example loaded_app_svg : current_svg (this loaded_app) = Some loaded_svg.
Proof. vm_compute. reflexivity. Qed.






(* ===================================================================== *)
(** * Export                                                              *)
(* ===================================================================== *)

(** C8.  The raster scale is an entry of the step table 0.25, 0.5, 1, 2,
    4, 8.  For the index [i] the resolution slider holds (its value, or ["2"]
    when the slider is missing or empty, read by [parseInt]): index [0] gives
    1x, not 0.25x; any other index gives the table entry at [i] clamped into
    the bounds [0 .. 5] of the table, so a negative index gives 0.25x and an
    index of five or more gives 8x. *)
Theorem raster_scale_from_slider (sliderValue : option string) (i : Z) :
  JS.parseInt (JS.str_or sliderValue "2") = Some i ->
  In (rasterScale sliderValue) scaleSteps /\
  (i = 0 -> rasterScale sliderValue = 1%Q) /\
  (i <> 0 ->
   rasterScale sliderValue = nth (Z.to_nat (JS.clampZ 0 5 i)) scaleSteps 1%Q) /\
  (i < 0 -> rasterScale sliderValue = (1 # 4)%Q) /\
  (5 <= i -> rasterScale sliderValue = 8%Q).
Proof.
  intros Hparse. unfold rasterScale. rewrite Hparse.
  change (Z.of_nat (length scaleSteps) - 1) with 5.
  destruct (Z.eqb_spec i 0) as [-> | Hnz].
  - simpl. repeat split; try tauto; lia.
  - set (k := Z.to_nat (Z.max 0 (Z.min 5 i))).
    assert (Hk : (k <= 5)%nat) by (unfold k; lia).
    split; [|split; [|split; [|split]]].
    + destruct k as [|[|[|[|[|[|k]]]]]]; simpl; try tauto. lia.
    + intros ->. now contradiction Hnz.
    + intros _. reflexivity.
    + intros Hneg. replace k with 0%nat by (unfold k; lia). reflexivity.
    + intros Hbig. replace k with 5%nat by (unfold k; lia). reflexivity.
Qed.

(** The slider at 3, at 0, below the table and above it. *)
Lemma raster_scale_from_slider_witness :
  rasterScale (Some "3"%string) = 2%Q /\
  rasterScale (Some "0"%string) = 1%Q /\
  rasterScale (Some "-7"%string) = (1 # 4)%Q /\
  rasterScale (Some "12"%string) = 8%Q.
Proof.
  split; [|split; [|split]].
  - apply (raster_scale_from_slider (Some "3"%string) 3); [reflexivity | discriminate].
  - apply (raster_scale_from_slider (Some "0"%string) 0); reflexivity.
  - apply (raster_scale_from_slider (Some "-7"%string) (-7)); [reflexivity | lia].
  - apply (raster_scale_from_slider (Some "12"%string) 12); [reflexivity | lia].
Defined.

Section ExportTheorems.
Context `{Engines}.
Local Open Scope Q_scope.

Lemma positioned_drawing (c : LottieConverter) (e : SvgElement) (scale : Q) :
  drawing_of (positioned c e scale) = drawing_of e.
Proof. reflexivity. Qed.

(** Rewriting the drawing in a way that keeps its declared size, view box
    and content changes nothing an export reads. *)
Lemma map_svg_export_view (f : SvgElement -> SvgElement) (c : LottieConverter) :
  (forall e, drawing_of (f e) = drawing_of e) ->
  export_view (map_svg f c) = export_view c.
Proof.
  intros Hf. unfold export_view.
  destruct (map_svg_session f c) as [Hs Hw].
  rewrite Hw, current_svg_map_svg.
  assert (Hd : option_map drawing_of (option_map f (current_svg c))
               = option_map drawing_of (current_svg c)).
  { destruct (current_svg c); simpl; [now rewrite Hf | reflexivity]. }
  rewrite Hd. apply session_state in Hs. unfold intrinsic_of. rewrite Hs.
  do 2 f_equal. unfold map_svg.
  destruct (lottieContainer (elements c)) as [box|] eqn:Hbox; [|now rewrite Hbox].
  destruct (svg box); simpl; [reflexivity | now rewrite Hbox].
Qed.

Lemma updateFrameOutlineAppearance_export_view (c : LottieConverter) :
  export_view (updateFrameOutlineAppearance c) = export_view c.
Proof.
  unfold updateFrameOutlineAppearance. destruct (frameOutlineOn c); simpl; [|reflexivity].
  apply map_svg_export_view. intros e. destruct (frameOverlay e); reflexivity.
Qed.

Lemma applyZoom_export_view (c : LottieConverter) :
  export_view (applyZoom c) = export_view c.
Proof.
  unfold applyZoom. destruct (current_svg c); [|reflexivity].
  rewrite updateFrameOutlineAppearance_export_view.
  destruct (zoomMode (state c)); apply map_svg_export_view; intros e;
    apply positioned_drawing.
Qed.






(** A whole number of pixels is kept as it is. *)
Lemma raster_pixels_exact (natural k : Z) (scale : Q) :
  (1 <= natural)%Z -> (1 <= k)%Z ->
  inject_Z natural * scale == inject_Z k ->
  raster_pixels natural scale = k.
Proof.
  intros Hn Hk Heq. unfold raster_pixels.
  replace (Z.max 1 natural) with natural by lia.
  rewrite (Math_round_Qeq _ (inject_Z k) Heq), Math_round_inject_Z. lia.
Qed.

End ExportTheorems.

Section ExportDimensions.
Context `{Engines}.
Local Open Scope Q_scope.


End ExportDimensions.




(* ===================================================================== *)
(** * Failed loads                                                        *)
(* ===================================================================== *)

Section FailedLoads.
Context `{Engines}.

(** A file with another extension is refused before anything is written:
    the controller is untouched and the refusal is shown. *)
Lemma handleFile_unsupported_extension (a : App) (file : File.t) :
  endsWith (toLowerCase (File.name file)) ".json" = false ->
  endsWith (toLowerCase (File.name file)) ".svg" = false ->
  handleFile file a =
  ({| browser := add_alert "Please select a .json (Lottie) or .svg file" (browser a);
      this := this a |}, inr tt).
Proof.
  intros Hjson Hsvg. unfold handleFile. rewrite Hjson, Hsvg. reflexivity.
Qed.

(** A [.json] file whose text does not parse: the failure is shown, and
    the file name, extension and size written before the text was read stay
    written. *)
Lemma handleFile_invalid_json (a : App) (file : File.t) :
  endsWith (toLowerCase (File.name file)) ".json" = true ->
  JSON_parse (File.text file) = None ->
  handleFile file a =
  ({| browser :=
        add_alert "Invalid JSON file. Please select a valid Lottie animation file."
          (browser a);
      this :=
        set_currentFileSize (Some (File.size file))
          (set_currentFileName (Some (File.name file))
             (set_state
                (set_fileSizeBytes (Some (File.size file))
                   (set_originalFileExt (Some ".json"%string)
                      (set_originalFilename
                         (Some (strip_suffix_i ".json" (File.name file)))
                         (state (this a)))))
                (this a))) |}, inr tt).
Proof.
  intros Hjson Hparse. unfold handleFile. rewrite Hjson. simpl.
  unfold bind, update_state, update_this, modify, try_catch, JSON_parse_or_throw.
  simpl. rewrite Hparse. reflexivity.
Qed.

(** A cached JSON string that does not parse: the failure is shown, and
    the base name and extension written before the parse stay written. *)
Lemma loadFromJSONString_invalid_json (a : App) (filename : string) (size : Z)
    (json : string) :
  JSON_parse json = None ->
  loadFromJSONString filename size json a =
  ({| browser := add_alert "Failed to load saved file." (browser a);
      this :=
        set_state
          (set_originalFileExt
             (Some (if endsWith (toLowerCase filename) ".svg"
                    then ".svg" else ".json")%string)
             (set_originalFilename (Some (strip_json_or_svg filename))
                (state (this a))))
          (this a) |}, inr tt).
Proof.
  intros Hparse. unfold loadFromJSONString.
  unfold bind, update_state, update_this, modify, try_catch, JSON_parse_or_throw.
  simpl. rewrite Hparse. reflexivity.
Qed.

End FailedLoads.

(** C1 is broken by the code for a parse failure.  With [a.json] (size 10,
    100 frames) loaded, [handleFile] on [b.json] (size 20) whose text is [{]
    reports the failure and keeps the animation, its frame counts, position
    and dimensions, but the tracked file is now [b.json] of size 20:
    [isCurrentFile] answers for the file that failed to load, and an export
    of the [a.json] drawing is named after [b].  [loadFromJSONString] on the
    same input overwrites the base name and leaves the tracked file name. *)
Theorem failed_load_overwrites_file_tracking :
  let after := exec (handleFile broken_file) loaded_app in
  let cached := exec (loadFromJSONString "b.json" 20 "{") loaded_app in
  JSON_parse (File.text broken_file) = None /\
  alerts (browser after)
    = ["Invalid JSON file. Please select a valid Lottie animation file."%string] /\
  (animationData (state (this after)) = Some sample_animation /\
   engine_frames (this after) = Some 100 /\
   totalFrames (state (this after)) = 99 /\
   intrinsic_of (this after) = intrinsic_of (this loaded_app)) /\
  (currentFileName (this loaded_app) = Some "a.json"%string /\
   isCurrentFile "a.json" 10 (this loaded_app) = true /\
   originalFilename (state (this loaded_app)) = Some "a"%string) /\
  (currentFileName (this after) = Some "b.json"%string /\
   currentFileSize (this after) = Some 20 /\
   originalFilename (state (this after)) = Some "b"%string /\
   fileSizeBytes (state (this after)) = Some 20 /\
   isCurrentFile "a.json" 10 (this after) = false /\
   isCurrentFile "b.json" 20 (this after) = true) /\
  offered_filename (outcome downloadCurrentFrame after)
    = Some "b-0-frame.png"%string /\
  (originalFilename (state (this cached)) = Some "b"%string /\
   currentFileName (this cached) = Some "a.json"%string /\
   animationData (state (this cached)) = Some sample_animation).
Proof.
  vm_compute. repeat split; reflexivity.
Qed.

(* ===================================================================== *)
(** * More on the preference store                                        *)
(* ===================================================================== *)

Lemma key_name_inj (k k' : Preferences.PreferenceKey) :
  Preferences.key_name k = Preferences.key_name k' -> k = k'.
Proof. destruct k, k'; simpl; intros Heq; try reflexivity; discriminate Heq. Qed.

Lemma preference_slot_inj (k k' : Preferences.PreferenceKey) :
  preference_slot k = preference_slot k' -> k = k'.
Proof.
  unfold preference_slot. intros Heq.
  apply key_name_inj. now apply (inj (String.app Preferences.PREFIX)) in Heq.
Qed.

Lemma setPreference_run (key : Preferences.PreferenceKey)
    (value : Preferences.PreferenceValue) (b : Browser) :
  Preferences.setPreference key value b =
  (match localStorage b with
   | Some m =>
       set_localStorage (<[preference_slot key := Preferences.String_of value]> m) b
   | None => b
   end, inr tt).
Proof.
  unfold Preferences.setPreference, preference_slot. run_browser.
  destruct (localStorage b); reflexivity.
Qed.




(** X2.  The collapsed flag of a card is written under a key no read looks at:
    after [setCardCollapsed], for any card, [getPreference] at every key and
    [getCardCollapsed] for every card answer as before; and
    [getCardCollapsed] answers the same for every card. *)
Theorem card_collapsed_is_never_read_back (cardId cardId' : string)
    (collapsed : bool) (b : Browser) :
  let b' := exec (Preferences.setCardCollapsed cardId collapsed) b in
  outcome (Preferences.setCardCollapsed cardId collapsed) b = inr tt /\
  (forall (key : Preferences.PreferenceKey)
          (defaultValue : option Preferences.PreferenceValue),
      outcome (Preferences.getPreference key defaultValue) b'
      = outcome (Preferences.getPreference key defaultValue) b) /\
  outcome (Preferences.getCardCollapsed cardId') b'
  = outcome (Preferences.getCardCollapsed cardId') b /\
  outcome (Preferences.getCardCollapsed cardId) b
  = outcome (Preferences.getCardCollapsed cardId') b.
Proof.
  intros b'.
  assert (Hrun : Preferences.setCardCollapsed cardId collapsed b =
                 (match localStorage b with
                  | Some m =>
                      set_localStorage
                        (<[("card-" ++ cardId ++ "-collapsed")%string :=
                             Preferences.String_of (Preferences.PBool collapsed)]> m) b
                  | None => b
                  end, inr tt)).
  { unfold Preferences.setCardCollapsed. run_browser.
    destruct (localStorage b); reflexivity. }
  assert (Hread : forall key defaultValue,
             outcome (Preferences.getPreference key defaultValue) b'
             = outcome (Preferences.getPreference key defaultValue) b).
  { intros key defaultValue. unfold b', exec, outcome.
    rewrite Hrun, !getPreference_run. simpl.
    destruct (localStorage b) as [m|] eqn:Hm; [|reflexivity].
    unfold stored_preference. simpl. rewrite Hm.
    rewrite lookup_insert_ne; [reflexivity|].
    intros Heq. cbv in Heq. discriminate Heq. }
  split; [unfold outcome; now rewrite Hrun|].
  split; [exact Hread|]. split; [apply Hread | reflexivity].
Qed.

(** The loop of [resetAllPreferences] returns the keys at the indices it
    visits that start with one of the two prefixes, in their order. *)
Lemma collect_keysToRemove_run (b : Browser) (m : gmap string string) (n i : nat) :
  localStorage b = Some m ->
  Preferences.collect_keysToRemove n i b
  = (b, inr (List.filter reset_removes (take n (drop i (stored_keys m))))).
Proof.
  intros Hm. revert i. induction n as [|n IH]; intros i; simpl.
  - reflexivity.
  - unfold bind, localStorage_key. rewrite Hm. rewrite IH.
    destruct (stored_keys m !! i) as [k|] eqn:Hk.
    + rewrite (drop_S _ _ _ Hk). simpl.
      destruct k as [|ch k]; [reflexivity|].
      fold (reset_removes (String ch k)).
      destruct (reset_removes (String ch k)); reflexivity.
    + apply lookup_ge_None in Hk.
      rewrite (drop_ge _ i) by exact Hk. rewrite (drop_ge _ (S i)) by lia.
      now rewrite !take_nil.
Qed.

Lemma forEach_removeItem_run (b : Browser) (m : gmap string string)
    (keys : list string) :
  localStorage b = Some m ->
  forEach localStorage_removeItem keys b
  = (match keys with
     | [] => b
     | _ => set_localStorage (fold_left (fun acc k => delete k acc) keys m) b
     end, inr tt).
Proof.
  revert b m. induction keys as [|k keys IH]; intros b m Hm; simpl; [reflexivity|].
  unfold bind, localStorage_removeItem at 1. rewrite Hm.
  rewrite (IH _ (delete k m)) by reflexivity.
  destruct keys; reflexivity.
Qed.

Lemma lookup_fold_delete (keys : list string) (m : gmap string string) (k : string) :
  fold_left (fun acc k' => delete k' acc) keys m !! k
  = if decide (k ∈ keys) then None else m !! k.
Proof.
  revert m. induction keys as [|k' keys IH]; intros m; simpl.
  - destruct (decide (k ∈ [])) as [Hin|]; [|reflexivity].
    now apply elem_of_nil in Hin.
  - rewrite IH. destruct (decide (k = k')) as [->|Hne].
    + rewrite lookup_delete_eq.
      destruct (decide (k' ∈ keys)), (decide (k' ∈ k' :: keys)) as [|Hn];
        try reflexivity.
      * exfalso. apply Hn. left.
      * exfalso. apply Hn. left.
    + rewrite lookup_delete_ne by congruence.
      destruct (decide (k ∈ keys)) as [Hin|Hnin], (decide (k ∈ k' :: keys)) as [Hin'|Hnin'];
        try reflexivity.
      * exfalso. apply Hnin'. now right.
      * exfalso. apply elem_of_cons in Hin' as [?|?]; auto.
Qed.

(** The store [resetAllPreferences] leaves. *)
Lemma resetAllPreferences_run (b : Browser) :
  outcome Preferences.resetAllPreferences b = inr tt /\
  match localStorage b with
  | None => exec Preferences.resetAllPreferences b = b
  | Some m =>
      exists m' : gmap string string,
        localStorage (exec Preferences.resetAllPreferences b) = Some m' /\
        forall k : string, m' !! k = if reset_removes k then None else m !! k
  end.
Proof.
  unfold Preferences.resetAllPreferences, outcome, exec, try_catch, bind,
    localStorage_length.
  destruct (localStorage b) as [m|] eqn:Hm.
  2: { simpl. auto. }
  rewrite (collect_keysToRemove_run b m _ 0 Hm).
  rewrite drop_0, take_ge by reflexivity.
  rewrite (forEach_removeItem_run b m _ Hm). simpl. split; [reflexivity|].
  set (keys := List.filter reset_removes (stored_keys m)).
  exists (fold_left (fun acc k => delete k acc) keys m). split.
  - destruct keys eqn:Hkeys; simpl; [exact Hm | reflexivity].
  - intros k. rewrite lookup_fold_delete.
    destruct (decide (k ∈ keys)) as [Hin|Hnin].
    + unfold keys in Hin. apply list_elem_of_In, filter_In in Hin as [_ ->].
      reflexivity.
    + destruct (reset_removes k) eqn:Hk; [|reflexivity].
      destruct (m !! k) as [v|] eqn:Hv; [|reflexivity].
      exfalso. apply Hnin. unfold keys. apply list_elem_of_In, filter_In.
      split; [|exact Hk]. apply list_elem_of_In. unfold stored_keys.
      apply list_elem_of_fmap. exists (k, v). split; [reflexivity|].
      now apply elem_of_map_to_list.
Qed.

Lemma getAllPreferences_from_run (keys : list Preferences.PreferenceKey) (b : Browser) :
  Preferences.getAllPreferences_from keys b
  = (b, inr (List.map
               (fun k => (k, match stored_preference k b with
                             | Some s => read_as k s
                             | None => Preferences.DEFAULT_PREFERENCES k
                             end))
               (List.filter (fun k => negb (Preferences.is_card_collapsed k)) keys))).
Proof.
  induction keys as [|k keys IH]; simpl; [reflexivity|].
  destruct (Preferences.is_card_collapsed k); simpl; [exact IH|].
  unfold bind. rewrite getPreference_run, IH. reflexivity.
Qed.

(** X3.  After [resetAllPreferences], which never throws, every preference
    reads as its default (the caller's, if one is passed), and
    [getAllPreferences] lists the eight declared defaults.  When the store is
    accessible, exactly the keys that start with [lottie-converter-] or
    [card-] are gone, the stored recent-files list among them, and every other
    key holds what it held. *)
Theorem resetAllPreferences_restores_defaults (b : Browser) :
  let b' := exec Preferences.resetAllPreferences b in
  outcome Preferences.resetAllPreferences b = inr tt /\
  (forall (key : Preferences.PreferenceKey)
          (defaultValue : option Preferences.PreferenceValue),
      outcome (Preferences.getPreference key defaultValue) b'
      = inr (Preferences.fallback key defaultValue)) /\
  outcome Preferences.getAllPreferences b' = inr declared_defaults /\
  match localStorage b, localStorage b' with
  | Some m, Some m' =>
      m' !! RECENT_KEY = None /\
      forall k : string, m' !! k = if reset_removes k then None else m !! k
  | None, None => True
  | _, _ => False
  end.
Proof.
  intros b'. destruct (resetAllPreferences_run b) as [Hout Hstore]. fold b' in Hstore.
  assert (Hnone : forall key, stored_preference key b' = None).
  { intros key. unfold stored_preference.
    destruct (localStorage b) as [m|] eqn:Hm.
    - destruct Hstore as (m' & -> & Hlook). fold (preference_slot key).
      rewrite Hlook. now destruct key.
    - rewrite Hstore, Hm. reflexivity. }
  split; [exact Hout|]. split; [|split].
  - intros key defaultValue. unfold outcome. rewrite getPreference_run. simpl.
    now rewrite Hnone.
  - unfold outcome, Preferences.getAllPreferences.
    rewrite getAllPreferences_from_run. simpl. unfold declared_defaults. simpl.
    now rewrite !Hnone.
  - destruct (localStorage b) as [m|] eqn:Hm.
    + destruct Hstore as (m' & -> & Hlook). split; [|exact Hlook].
      now rewrite Hlook.
    + now rewrite Hstore, Hm.
Qed.

(** X4.  The probe of [isLocalStorageAvailable] answers whether the store is
    accessible, and it writes: an accessible store ends without the key
    [__localStorage_test__], also when it held one, and with every other key
    as before. *)
Theorem isLocalStorageAvailable_probe (b : Browser) :
  let b' := exec Preferences.isLocalStorageAvailable b in
  match localStorage b with
  | None =>
      outcome Preferences.isLocalStorageAvailable b = inr false /\ b' = b
  | Some m =>
      outcome Preferences.isLocalStorageAvailable b = inr true /\
      localStorage b' = Some (delete "__localStorage_test__"%string m)
  end.
Proof.
  intros b'. unfold b', Preferences.isLocalStorageAvailable. run_browser.
  destruct (localStorage b) as [m|] eqn:Hm; simpl; [|auto].
  split; [reflexivity|]. now rewrite delete_insert_eq.
Qed.

(* ===================================================================== *)
(** * More on the recent-files list                                       *)
(* ===================================================================== *)

Section RecentFilesStorage.
Context `{JSON}.



Lemma filter_absent (name : string) (size : Z) (items : list RecentItem.t) :
  (name, size) ∉ map RecentItem.key items ->
  List.filter (fun it => negb (same_file name size it)) items = items.
Proof.
  induction items as [|it items IH]; simpl; intros Hnin; [reflexivity|].
  apply not_elem_of_cons in Hnin as [Hne Hnin].
  destruct (same_file name size it) eqn:Hsame; simpl.
  - apply same_file_key in Hsame. congruence.
  - now rewrite IH.
Qed.

Lemma filter_present_length (name : string) (size : Z) (items : list RecentItem.t) :
  NoDup (map RecentItem.key items) ->
  (name, size) ∈ map RecentItem.key items ->
  S (length (List.filter (fun it => negb (same_file name size it)) items))
  = length items.
Proof.
  induction items as [|it items IH]; simpl; intros Hnd Hin.
  - now apply elem_of_nil in Hin.
  - apply NoDup_cons in Hnd as [Hit Hnd].
    destruct (same_file name size it) eqn:Hsame; simpl.
    + apply same_file_key in Hsame. rewrite Hsame in Hit.
      now rewrite (filter_absent name size items Hit).
    + apply elem_of_cons in Hin as [Heq|Hin].
      * symmetry in Heq. apply same_file_key in Heq. congruence.
      * now rewrite IH.
Qed.

(** X6.  Saving into a list without duplicates of at most [MAX_ITEMS] entries.
    A file that is in the list takes the front and every other entry stays,
    in order: nothing is evicted.  A file that is not in the list goes in
    front of the whole list while there is room, and when the list is full the
    last entry, and only that one, is dropped. *)
Theorem saveRecentFile_evicts_only_when_full (name : string) (size : Z)
    (content : option string) (now : Z) (items : list RecentItem.t) :
  NoDup (map RecentItem.key items) ->
  (length items <= MAX_ITEMS)%nat ->
  let entry := {| RecentItem.name := name; RecentItem.size := size;
                  RecentItem.lastOpened := now;
                  RecentItem.content := inlineContent content |} in
  let saved := saveRecentFile_next name size content now items in
  ((name, size) ∈ map RecentItem.key items ->
   saved = entry :: List.filter (fun it => negb (same_file name size it)) items /\
   length saved = length items) /\
  ((name, size) ∉ map RecentItem.key items ->
   (length items < MAX_ITEMS)%nat -> saved = entry :: items) /\
  ((name, size) ∉ map RecentItem.key items ->
   length items = MAX_ITEMS -> saved = entry :: removelast items).
Proof.
  intros Hnd Hlen entry saved. unfold saved, saveRecentFile_next. fold entry.
  split; [|split].
  - intros Hin. pose proof (filter_present_length name size items Hnd Hin) as Hf.
    rewrite take_ge by (simpl; lia). split; [reflexivity | simpl; lia].
  - intros Hnin Hroom. rewrite (filter_absent name size items Hnin).
    now rewrite take_ge by (simpl; lia).
  - intros Hnin Hfull. rewrite (filter_absent name size items Hnin).
    unfold MAX_ITEMS in *. simpl. f_equal.
    rewrite removelast_firstn_len, Hfull. reflexivity.
Qed.

End RecentFilesStorage.


Example twenty_files_keys : NoDup (map RecentItem.key twenty_files).
Proof. unfold twenty_files. apply run_ops_ok. Qed.

Example twenty_files_length : length twenty_files = MAX_ITEMS.
Proof. vm_compute. reflexivity. Qed.

Example twenty_files_new : ("new.json"%string, 1) ∉ map RecentItem.key twenty_files.
Proof. apply (bool_decide_unpack _). vm_compute. exact I. Qed.

Example twenty_files_old : ("file3"%string, 3) ∈ map RecentItem.key twenty_files.
Proof. apply (bool_decide_unpack _). vm_compute. exact I. Qed.

(** Twenty files fill the list; the file saved first is the last entry and
    is the one a twenty-first file evicts, while saving one of the twenty
    again keeps all of them. *)
Lemma saveRecentFile_evicts_only_when_full_witness :
  saveRecentFile_next "new.json" 1 None 99 twenty_files
  = {| RecentItem.name := "new.json"; RecentItem.size := 1;
       RecentItem.lastOpened := 99; RecentItem.content := None |}
    :: removelast twenty_files /\
  length (saveRecentFile_next "file3" 3 None 99 twenty_files) = length twenty_files.
Proof.
  pose proof (saveRecentFile_evicts_only_when_full "new.json" 1 None 99
                twenty_files twenty_files_keys (Nat.eq_le_incl _ _ twenty_files_length))
    as Hnew.
  pose proof (saveRecentFile_evicts_only_when_full "file3" 3 None 99
                twenty_files twenty_files_keys (Nat.eq_le_incl _ _ twenty_files_length))
    as Hold.
  split.
  - exact (proj2 (proj2 Hnew) twenty_files_new twenty_files_length).
  - exact (proj2 (proj1 Hold twenty_files_old)).
Defined.

(* ===================================================================== *)
(** * Static documents                                                    *)
(* ===================================================================== *)

Section StaticLoads.
Context `{Engines}.
Local Open Scope Q_scope.

Lemma applyFrameOutline_export_view (c : LottieConverter) :
  export_view (applyFrameOutline c) = export_view c.
Proof.
  unfold applyFrameOutline. destruct (current_svg c) as [e|]; [|reflexivity].
  destruct (negb (frameOutlineOn c)).
  - now apply map_svg_export_view.
  - destruct (_ || _); [reflexivity|].
    rewrite updateFrameOutlineAppearance_export_view.
    now apply map_svg_export_view.
Qed.

Lemma reveal_export_view (c : LottieConverter) :
  export_view (reveal c) = export_view c.
Proof.
  unfold reveal.
  set (c1 := applyOpacityOverride _).
  assert (Hc1 : export_view c1 = export_view c).
  { unfold c1, applyOpacityOverride.
    rewrite map_svg_export_view by reflexivity.
    now rewrite updateFrameOutlineAppearance_export_view,
      applyFrameOutline_export_view, applyZoom_export_view. }
  rewrite <- Hc1. unfold export_view, current_svg, intrinsic_of, widgets_of.
  destruct (lottieContainer (elements c1)) as [box|] eqn:Hbox; simpl;
    now rewrite ?Hbox.
Qed.

Lemma waitForSvgAndReveal_export_view (c : LottieConverter) :
  export_view (waitForSvgAndReveal c) = export_view c.
Proof.
  unfold waitForSvgAndReveal. destruct (current_svg c); [|reflexivity].
  apply reveal_export_view.
Qed.

(** Once the drawing is there, the render surface is shown. *)
Lemma waitForSvgAndReveal_visible (c : LottieConverter) (e : SvgElement) :
  current_svg c = Some e ->
  option_map visible (lottieContainer (elements (waitForSvgAndReveal c))) = Some true.
Proof.
  intros He. unfold waitForSvgAndReveal. rewrite He. unfold reveal.
  set (c1 := applyOpacityOverride _).
  assert (Hc1 : export_view c1 = export_view c).
  { unfold c1, applyOpacityOverride.
    rewrite map_svg_export_view by reflexivity.
    now rewrite updateFrameOutlineAppearance_export_view,
      applyFrameOutline_export_view, applyZoom_export_view. }
  apply (f_equal (fun v => snd (fst v))) in Hc1. simpl in Hc1.
  unfold current_svg in He. clearbody c1.
  destruct (lottieContainer (elements c1)) as [box|]; [reflexivity|].
  destruct (lottieContainer (elements c)); [discriminate Hc1 | discriminate He].
Qed.

(** What [loadStaticSVG] leaves when the text holds an [<svg>] element. *)
Lemma loadStaticSVG_run (a : App) (box : Container) (e : SvgElement)
    (svgText name : string) :
  lottieContainer (elements (this a)) = Some box ->
  parse_svg svgText = Some e ->
  exists (c' : LottieConverter) (w h : Q),
    loadStaticSVG svgText name a
    = ({| browser := add_dispatched "lottie:fileLoaded" (browser a); this := c' |},
       inr tt) /\
    (w, h) = match attr_width e, attr_height e with
             | Some wAttr, Some hAttr =>
                 if JS.is_zero (viewBox_width e) || JS.is_zero (viewBox_height e)
                 then (toPx wAttr, toPx hAttr)
                 else (viewBox_width e, viewBox_height e)
             | _, _ => (viewBox_width e, viewBox_height e)
             end /\
    state c'
    = set_isPlaying false
        (set_fps None
           (set_currentFrame 0%Z
              (set_totalFrames 0%Z
                 (set_height (JS.num_or_opt (Some h) (height (state (this a))))
                    (set_width (JS.num_or_opt (Some w) (width (state (this a))))
                       (set_animationInstance None (state (this a)))))))) /\
    (currentFileName c', currentFileSize c', hasInteractedSinceLoad c',
     (panOffsetX c', panOffsetY c'), frameOutlineOn c')
    = (currentFileName (this a), currentFileSize (this a),
       hasInteractedSinceLoad (this a),
       (panOffsetX (this a), panOffsetY (this a)), frameOutlineOn (this a)) /\
    frameSlider (elements c')
    = option_map (fun _ => {| slider_value := 0; slider_max := 0 |})
        (frameSlider (elements (this a))) /\
    option_map visible (lottieContainer (elements c')) = Some true /\
    option_map drawing_of (current_svg c') = Some (drawing_of e).
Proof.
  intros Hbox Hparse. unfold loadStaticSVG, bind, get_this. rewrite Hbox.
  unfold update_state, update_this, modify, in_browser, zoom,
    document_dispatchEvent. simpl. rewrite Hparse.
  set (dims := match attr_width e, attr_height e with
               | Some wAttr, Some hAttr =>
                   if JS.is_zero (viewBox_width e) || JS.is_zero (viewBox_height e)
                   then (toPx wAttr, toPx hAttr)
                   else (viewBox_width e, viewBox_height e)
               | _, _ => (viewBox_width e, viewBox_height e)
               end).
  destruct dims as [w h] eqn:Hdims. simpl.
  eexists _, w, h. split; [reflexivity|]. split; [reflexivity|].
  set (c0 := replace_content (Some e) _).
  assert (Hc0 : state c0 = set_animationInstance None (state (this a)) /\
                session_of c0
                = session_of (set_state (set_animationInstance None (state (this a)))
                                (this a)) /\
                frameSlider (elements c0) = frameSlider (elements (this a)) /\
                current_svg c0 = Some e).
  { unfold c0, replace_content, current_svg. simpl. rewrite Hbox. simpl. auto. }
  destruct Hc0 as (Hstate0 & Hsession0 & Hslider0 & Hsvg0).
  set (c1 := set_slider _ _).
  assert (Hc1 : session_of c1
                = session_of
                    (set_state
                       (set_isPlaying false
                          (set_fps None
                             (set_currentFrame 0%Z
                                (set_totalFrames 0%Z
                                   (set_height (JS.num_or_opt (Some h) (height (state c0)))
                                      (set_width (JS.num_or_opt (Some w) (width (state c0)))
                                         (state c0))))))) c0) /\
                frameSlider (elements c1)
                = option_map (fun _ => {| slider_value := 0; slider_max := 0 |})
                    (frameSlider (elements c0)) /\
                current_svg c1 = Some e).
  { unfold c1, set_slider. simpl.
    destruct (frameSlider (elements c0)) eqn:Hs; simpl; rewrite ?Hs; auto. }
  destruct Hc1 as (Hsession1 & Hslider1 & Hsvg1).
  destruct (waitForSvgAndReveal_session (applyZoom c1)) as [Hs2 Hw2].
  destruct (applyZoom_session c1) as [Hs3 Hw3].
  rewrite Hs3 in Hs2. rewrite Hw3 in Hw2.
  pose proof (waitForSvgAndReveal_export_view (applyZoom c1)) as Hview.
  rewrite applyZoom_export_view in Hview.
  assert (Hsvg2 : exists e2, current_svg (applyZoom c1) = Some e2).
  { pose proof (applyZoom_export_view c1) as Hv.
    apply (f_equal snd) in Hv. simpl in Hv. rewrite Hsvg1 in Hv.
    destruct (current_svg (applyZoom c1)); [eauto | discriminate Hv]. }
  destruct Hsvg2 as [e2 Hsvg2].
  rewrite Hsession1 in Hs2. clear Hs3 Hw3.
  split; [|split; [|split; [|split]]].
  - rewrite (session_state _ _ Hs2). simpl. now rewrite Hstate0.
  - unfold session_of in Hs2, Hsession0.
    injection Hs2 as _ -> -> -> _ _ _ -> -> ->.
    injection Hsession0 as _ -> -> -> _ _ _ -> -> ->. reflexivity.
  - rewrite (widgets_slider _ _ Hw2), Hslider1, Hslider0. reflexivity.
  - exact (waitForSvgAndReveal_visible _ _ Hsvg2).
  - apply (f_equal snd) in Hview. simpl in Hview. rewrite Hview, Hsvg1. reflexivity.
Qed.
Lemma loadFromSVGString_run (a : App) (filename svgText : string) (size : Z) :
  loadFromSVGString filename size svgText a
  = loadStaticSVG svgText filename
      {| browser := browser a;
         this :=
           set_currentFileSize (Some size)
             (set_currentFileName (Some filename)
                (set_state
                   (set_fileSizeBytes (Some size)
                      (set_originalFileExt (Some ".svg"%string)
                         (set_originalFilename (Some (strip_json_or_svg filename))
                            (state (this a))))) (this a))) |}.
Proof. reflexivity. Qed.

Lemma isCurrentFile_tracked (filename : string) (size : Z) (c : LottieConverter) :
  currentFileName c = Some filename -> currentFileSize c = Some size ->
  isCurrentFile filename size c = true.
Proof.
  intros Hn Hs. unfold isCurrentFile.
  now rewrite Hn, Hs, String.eqb_refl, Z.eqb_refl.
Qed.

(** X7.  A static document with a view box of non-zero size, loaded from its
    text ([loadFromSVGString], as the recent-files panel does): the call
    returns normally, the intrinsic dimensions are those of the view box, no
    engine instance is left, both frame counts are [0], the frame rate is
    unset and nothing plays; [isSVGLoaded] and [isCurrentFile] for the file
    hold; the document is in the render surface, shown, with its declared
    size, view box and content as parsed; the slider stands at [0] of [0];
    [lottie:fileLoaded] is announced; the pan offset and the store are as
    before. *)
Theorem static_svg_load (a : App) (box : Container) (e : SvgElement)
    (filename svgText : string) (size : Z) (x y w h : Q) :
  lottieContainer (elements (this a)) = Some box ->
  parse_svg svgText = Some e ->
  attr_viewBox e = Some (x, y, w, h) ->
  JS.is_zero w = false ->
  JS.is_zero h = false ->
  let after := exec (loadFromSVGString filename size svgText) a in
  outcome (loadFromSVGString filename size svgText) a = inr tt /\
  intrinsic_of (this after) = (Some w, Some h) /\
  (animationInstance (state (this after)), totalFrames (state (this after)),
   currentFrame (state (this after)), fps (state (this after)),
   isPlaying (state (this after))) = (None, 0%Z, 0%Z, None, false) /\
  isSVGLoaded (this after) = true /\
  isCurrentFile filename size (this after) = true /\
  option_map visible (lottieContainer (elements (this after))) = Some true /\
  option_map drawing_of (current_svg (this after)) = Some (drawing_of e) /\
  frameSlider (elements (this after))
  = option_map (fun _ => {| slider_value := 0; slider_max := 0 |})
      (frameSlider (elements (this a))) /\
  dispatched (browser after) = "lottie:fileLoaded"%string :: dispatched (browser a) /\
  (panOffsetX (this after), panOffsetY (this after))
  = (panOffsetX (this a), panOffsetY (this a)) /\
  localStorage (browser after) = localStorage (browser a).
Proof.
  intros Hbox Hparse Hvb Hw Hh after.
  unfold after, exec, outcome. rewrite loadFromSVGString_run.
  match goal with
  | |- context [loadStaticSVG _ _ ?x] =>
      destruct (loadStaticSVG_run x box e svgText filename Hbox Hparse)
        as (c' & w' & h' & -> & Hdims & Hstate & Hrest & Hslider & Hvis & Hdraw)
  end.
  assert (Hwh : (w', h') = (w, h)).
  { rewrite Hdims. unfold viewBox_width, viewBox_height. rewrite Hvb, Hw, Hh.
    simpl. now destruct (attr_width e), (attr_height e). }
  injection Hwh as -> ->. simpl in *.
  injection Hrest as Hname Hsize _ Hpx Hpy _.
  unfold intrinsic_of, isSVGLoaded. rewrite Hstate, Hname. simpl.
  unfold JS.num_or_opt. rewrite Hw, Hh.
  repeat split; try reflexivity; try assumption.
  - now apply isCurrentFile_tracked.
  - now rewrite Hpx, Hpy.
Qed.

(** X8.  A static document without a view box takes its size from its [width]
    and [height] attributes when both are there (here for positive plain
    decimal numbers, with or without a unit), and keeps the dimensions
    recorded before when one of them is missing. *)
Theorem static_svg_size_without_view_box (a : App) (box : Container) (e : SvgElement)
    (filename svgText : string) (size : Z) :
  lottieContainer (elements (this a)) = Some box ->
  parse_svg svgText = Some e ->
  attr_viewBox e = None ->
  let after := exec (loadFromSVGString filename size svgText) a in
  (forall wAttr hAttr : Q,
      attr_width e = Some wAttr -> attr_height e = Some hAttr ->
      0 < wAttr -> 0 < hAttr ->
      intrinsic_of (this after) = (Some wAttr, Some hAttr)) /\
  (attr_width e = None \/ attr_height e = None ->
   intrinsic_of (this after) = intrinsic_of (this a)).
Proof.
  intros Hbox Hparse Hvb after.
  unfold after, exec. rewrite loadFromSVGString_run.
  match goal with
  | |- context [loadStaticSVG _ _ ?x] =>
      destruct (loadStaticSVG_run x box e svgText filename Hbox Hparse)
        as (c' & w' & h' & -> & Hdims & Hstate & _)
  end.
  unfold viewBox_width, viewBox_height in Hdims. rewrite Hvb in Hdims.
  simpl in *. unfold intrinsic_of. rewrite Hstate. simpl. split.
  - intros wAttr hAttr Hwa Hha Hwpos Hhpos. rewrite Hwa, Hha in Hdims.
    simpl in Hdims. injection Hdims as -> ->.
    assert (Habs : forall q : Q, 0 < q -> toPx q = q /\ JS.is_zero (toPx q) = false).
    { intros [n d] Hq. unfold toPx, Qabs, JS.is_zero.
      assert (Hn : (0 < n)%Z) by (unfold Qlt in Hq; simpl in Hq; lia).
      replace (Z.abs n) with n by lia. split; [reflexivity|].
      destruct (Qeq_bool (n # d) 0) eqn:Heq; [|reflexivity].
      apply Qeq_bool_eq in Heq. unfold Qeq in Heq. simpl in Heq. lia. }
    destruct (Habs wAttr Hwpos) as [Ew Ezw], (Habs hAttr Hhpos) as [Eh Ezh].
    unfold JS.num_or_opt. now rewrite Ezw, Ezh, Ew, Eh.
  - intros Hmissing.
    assert (Hzero : (w', h') = (0, 0)).
    { rewrite Hdims. destruct Hmissing as [-> | ->]; [reflexivity|].
      now destruct (attr_width e). }
    injection Hzero as -> ->. reflexivity.
Qed.

(** X9.  A text without an [<svg>] element, loaded as a static document: the
    call returns normally with no alert and no event; the engine instance is
    dropped and the render surface is left empty and hidden; the file is
    tracked as the current one, while the frame counts, the animation data,
    the dimensions and the frame rate are those of the asset loaded before.
    [isSVGLoaded] then holds exactly when the frame count before was [0]. *)
Theorem static_svg_without_root (a : App) (box : Container)
    (filename svgText : string) (size : Z) :
  lottieContainer (elements (this a)) = Some box ->
  parse_svg svgText = None ->
  let after := exec (loadFromSVGString filename size svgText) a in
  outcome (loadFromSVGString filename size svgText) a = inr tt /\
  browser after = browser a /\
  animationInstance (state (this after)) = None /\
  lottieContainer (elements (this after))
  = Some {| svg := None; visible := false; container_rect := container_rect box |} /\
  (totalFrames (state (this after)), currentFrame (state (this after)),
   animationData (state (this after)), intrinsic_of (this after),
   fps (state (this after)))
  = (totalFrames (state (this a)), currentFrame (state (this a)),
     animationData (state (this a)), intrinsic_of (this a), fps (state (this a))) /\
  isCurrentFile filename size (this after) = true /\
  isSVGLoaded (this after) = (totalFrames (state (this a)) =? 0)%Z.
Proof.
  intros Hbox Hparse after.
  unfold after, exec, outcome. rewrite loadFromSVGString_run.
  unfold loadStaticSVG, bind, get_this. simpl. rewrite Hbox.
  unfold update_state, update_this, modify. simpl. rewrite Hparse. simpl.
  unfold replace_content. simpl. rewrite Hbox. simpl.
  unfold isCurrentFile, isSVGLoaded. simpl.
  rewrite String.eqb_refl, Z.eqb_refl, !andb_true_r.
  destruct a as [b c]; simpl. repeat split; reflexivity.
Qed.

End StaticLoads.

(** The document with a view box of 300 x 150 on a fresh page. *)
Lemma static_svg_load_witness :
  let after := exec (@loadFromSVGString _ static_Engines "logo.svg" 12 "doc 300x150")
                 fresh_app in
  intrinsic_of (this after) = (Some 300%Q, Some 150%Q) /\
  isSVGLoaded (this after) = true /\
  isCurrentFile "logo.svg" 12 (this after) = true.
Proof.
  pose proof (@static_svg_load sample_JSON static_Engines fresh_app _ _
                "logo.svg" "doc 300x150" 12 0%Q 0%Q 300%Q 150%Q
                eq_refl eq_refl eq_refl eq_refl eq_refl) as Hload.
  exact (conj (proj1 (proj2 Hload))
           (conj (proj1 (proj2 (proj2 (proj2 Hload))))
              (proj1 (proj2 (proj2 (proj2 (proj2 Hload))))))).
Defined.

(** The document that declares 64 x 48 by attributes only. *)
Lemma static_svg_size_without_view_box_witness :
  intrinsic_of
    (this (exec (@loadFromSVGString _ static_Engines "icon.svg" 9 "doc 64x48 attrs")
             fresh_app))
  = (Some 64%Q, Some 48%Q).
Proof.
  refine (proj1 (@static_svg_size_without_view_box sample_JSON static_Engines fresh_app
                   _ _ "icon.svg" "doc 64x48 attrs" 9 eq_refl eq_refl eq_refl)
            64%Q 48%Q eq_refl eq_refl _ _); reflexivity.
Defined.

Example loaded_app_surface :
  lottieContainer (elements (this loaded_app))
  = Some {| svg := Some loaded_svg; visible := true;
            container_rect := {| rect_width := 1920; rect_height := 1080 |} |}.
Proof. vm_compute. reflexivity. Qed.

(** A text without an [<svg>] element, over the loaded sample animation:
    the surface is emptied and hidden while the frame count of the
    animation stays, so that the page holds neither an animation nor a
    static document. *)
Lemma static_svg_without_root_witness :
  let after := exec (loadFromSVGString "note.svg" 5 "plain text") loaded_app in
  lottieContainer (elements (this after))
  = Some {| svg := None; visible := false;
            container_rect := {| rect_width := 1920; rect_height := 1080 |} |} /\
  isCurrentFile "note.svg" 5 (this after) = true /\
  isSVGLoaded (this after) = (totalFrames (state (this loaded_app)) =? 0)%Z.
Proof.
  pose proof (@static_svg_without_root sample_JSON sample_Engines loaded_app _
                "note.svg" "plain text" 5 loaded_app_surface eq_refl) as Hload.
  exact (conj (proj1 (proj2 (proj2 (proj2 Hload))))
           (proj2 (proj2 (proj2 (proj2 (proj2 Hload)))))).
Defined.

(* ===================================================================== *)
(** * Playback                                                            *)
(* ===================================================================== *)

Section Playback.
Context `{Engines}.

(** The state the slider listener leaves: the position is the slider's
    value, and the engine, when there is one, is stopped on it. *)
Lemma frameSlider_onInput_state (a : App) (target : Slider) :
  frameSlider (elements (this a)) = Some target ->
  exists a' : App,
    frameSlider_onInput a = (a', inr tt) /\
    state (this a')
    = set_animationInstance
        (option_map (fun i => AnimationItem.set_isPaused true
                                (AnimationItem.set_currentFrame (slider_value target) i))
           (animationInstance (state (this a))))
        (set_currentFrame (slider_value target) (state (this a))) /\
    frameSlider (elements (this a')) = Some target.
Proof.
  intros Htarget. unfold frameSlider_onInput, bind, get_this.
  rewrite Htarget. unfold update_state, update_this, modify. simpl.
  match goal with
  | |- context [touchRecentIfNeeded ?x] =>
      destruct (touchRecentIfNeeded_run x) as (b' & flag & ->)
  end.
  eexists. split; [reflexivity|]. simpl.
  destruct (animationInstance (state (this a))) as [inst|] eqn:Hi; simpl.
  - rewrite applyZoom_state, goToAndStop_state, applyZoom_slider, goToAndStop_slider.
    simpl. rewrite Hi. auto.
  - split; [|exact Htarget].
    destruct (state (this a)); simpl in *. now rewrite Hi.
Qed.

Lemma setFrame_state (a : App) (inst : AnimationItem) (frame : Z) :
  animationInstance (state (this a)) = Some inst ->
  let clamped := Z.max 0 (Z.min frame (totalFrames (state (this a)))) in
  exists a' : App,
    setFrame frame a = (a', inr tt) /\
    state (this a')
    = set_animationInstance
        (Some (AnimationItem.set_isPaused true
                 (AnimationItem.set_currentFrame clamped inst)))
        (set_currentFrame clamped (state (this a))).
Proof.
  intros Hi clamped. unfold setFrame, bind, get_this. rewrite Hi.
  unfold update_state, update_this, modify. simpl.
  rewrite applyZoom_slider, goToAndStop_slider. simpl. fold clamped.
  set (c1 := applyZoom (goToAndStop clamped
               (set_state (set_currentFrame clamped (state (this a))) (this a)))).
  assert (Hc1 : state c1
                = set_animationInstance
                    (Some (AnimationItem.set_isPaused true
                             (AnimationItem.set_currentFrame clamped inst)))
                    (set_currentFrame clamped (state (this a)))).
  { unfold c1. rewrite applyZoom_state, goToAndStop_state. simpl. now rewrite Hi. }
  destruct (frameSlider (elements (this a))) as [sl|] eqn:Hsl.
  - match goal with
    | |- context [frameSlider_onInput ?x] =>
        destruct (frameSlider_onInput_state x
                    {| slider_value := clamped; slider_max := slider_max sl |})
          as (a' & -> & Hstate & _)
    end.
    { simpl. unfold set_slider.
      assert (Hs : frameSlider (elements c1) = Some sl).
      { unfold c1. now rewrite applyZoom_slider, goToAndStop_slider. }
      rewrite Hs. reflexivity. }
    exists a'. split; [reflexivity|]. rewrite Hstate. simpl.
    assert (Hs1 : state (set_slider
                           (fun sl0 => {| slider_value := clamped;
                                          slider_max := slider_max sl0 |}) c1)
                  = state c1).
    { unfold set_slider. now destruct (frameSlider (elements c1)). }
    rewrite Hs1, Hc1. reflexivity.
  - eexists. split; [reflexivity|]. exact Hc1.
Qed.

Lemma play_run (a : App) (inst : AnimationItem) :
  animationInstance (state (this a)) = Some inst ->
  let s := state (this a) in
  let restart := negb (isLooping s) && (totalFrames s <=? currentFrame s) in
  exists a' : App,
    play a = (a', inr tt) /\
    state (this a')
    = set_isPlaying true
        (set_animationInstance
           (Some (AnimationItem.set_isPaused false
                    (AnimationItem.set_loop (isLooping s)
                       (if restart
                        then AnimationItem.set_isPaused true
                               (AnimationItem.set_currentFrame 0 inst)
                        else inst)))) s) /\
    frameSlider (elements (this a')) = frameSlider (elements (this a)).
Proof.
  intros Hi s restart. unfold play, bind, get_this. rewrite Hi.
  fold s. fold restart. unfold when, update_state, update_this, modify, ret.
  destruct restart; simpl;
    match goal with
    | |- context [touchRecentIfNeeded ?x] =>
        destruct (touchRecentIfNeeded_run x) as (b' & flag & ->)
    end;
    (eexists; split; [reflexivity|]); simpl.
  - rewrite goToAndStop_state, goToAndStop_slider. subst s. rewrite Hi. simpl. auto.
  - subst s. rewrite Hi. auto.
Qed.

Lemma Math_round_within (q : Q) (n : Z) :
  (0 <= q <= inject_Z n)%Q -> 0 <= JS.Math_round q <= n.
Proof.
  intros [Hlo Hhi]. destruct (Math_round_bounds q) as [Hr Hr'].
  assert (H1 : (inject_Z (JS.Math_round q) < inject_Z (n + 1))%Q)
    by (rewrite inject_Z_plus; change (inject_Z 1) with 1%Q; lra).
  assert (H2 : (inject_Z (-1) < inject_Z (JS.Math_round q))%Q)
    by (change (inject_Z (-1)) with (-1)%Q; lra).
  rewrite <- Zlt_Qlt in H1, H2. lia.
Qed.

(** X10.  With an animation loaded, [play] returns normally, sets the play flag,
    starts the engine and hands it the loop flag; the engine is sent back to
    frame [0] exactly when looping is off and the position has reached the
    last frame, and is left on its frame otherwise.  [pause] after it clears
    the play flag and stops the engine where it is.  Neither changes the
    frame count of the state. *)
Theorem play_then_pause (a : App) (inst : AnimationItem) :
  animationInstance (state (this a)) = Some inst ->
  let s := state (this a) in
  let played := this (exec play a) in
  let paused := pause played in
  outcome play a = inr tt /\
  (isPlaying (state played), engine_paused played, engine_loop played)
  = (true, Some false, Some (isLooping s)) /\
  engine_frame played
  = Some (if isLooping s || (currentFrame s <? totalFrames s)
          then AnimationItem.currentFrame inst else 0) /\
  (isPlaying (state paused), engine_paused paused, engine_loop paused)
  = (false, Some true, Some (isLooping s)) /\
  engine_frame paused = engine_frame played /\
  (totalFrames (state played), totalFrames (state paused))
  = (totalFrames s, totalFrames s).
Proof.
  intros Hi s played paused.
  destruct (play_run a inst Hi) as (a' & Hrun & Hstate & _).
  unfold paused, played, exec, outcome, pause, engine_paused, engine_loop, engine_frame.
  rewrite Hrun. simpl. rewrite Hstate. fold s. simpl.
  rewrite (Z.leb_antisym (currentFrame s) (totalFrames s)).
  repeat split;
    destruct (isLooping s), (currentFrame s <? totalFrames s); reflexivity.
Qed.

(** X11.  Seeking while the animation plays: [setFrame] stops the engine on the
    clamped frame but leaves the play flag set, so the click on the play
    button that follows takes the pause branch and the engine stays
    stopped. *)
Theorem seek_during_playback_keeps_play_flag (a : App) (inst : AnimationItem)
    (frame : Z) :
  animationInstance (state (this a)) = Some inst ->
  isPlaying (state (this a)) = true ->
  let clamped := Z.max 0 (Z.min frame (totalFrames (state (this a)))) in
  let sought := exec (setFrame frame) a in
  let clicked := exec playBtn_onClick sought in
  (isPlaying (state (this sought)), engine_paused (this sought),
   engine_frame (this sought)) = (true, Some true, Some clamped) /\
  (isPlaying (state (this clicked)), engine_paused (this clicked),
   engine_frame (this clicked)) = (false, Some true, Some clamped).
Proof.
  intros Hi Hplaying clamped sought clicked.
  destruct (setFrame_state a inst frame Hi) as (a' & Hrun & Hstate).
  fold clamped in Hstate.
  unfold clicked, sought, exec. rewrite Hrun. simpl.
  unfold playBtn_onClick, bind, get_this, engine_paused, engine_frame.
  rewrite Hstate. simpl. rewrite Hplaying.
  unfold update_this, modify, pause. simpl. rewrite Hstate. simpl.
  split; reflexivity.
Qed.

(** One playback event keeps an animation of [frameCount] frames loaded and
    the position within [0, frameCount - 1]. *)
Lemma playback_event_in_range (ev : PlaybackEvent) (a : App) (frameCount : Z) :
  1 <= frameCount ->
  animated frameCount (this a) ->
  0 <= currentFrame (state (this a)) <= frameCount - 1 ->
  within_frames (frameCount - 1) ev ->
  exists a' : App,
    playback_event ev a = (a', inr tt) /\
    animated frameCount (this a') /\
    0 <= currentFrame (state (this a')) <= frameCount - 1.
Proof.
  intros Hcount Hanim Hpos Hev.
  pose proof Hanim as [Hframes Htotal]. unfold engine_frames in Hframes.
  destruct (animationInstance (state (this a))) as [inst|] eqn:Hi;
    [|discriminate Hframes].
  simpl in Hframes. injection Hframes as Hframes.
  assert (Hplay : exists a' : App,
             play a = (a', inr tt) /\
             animated frameCount (this a') /\
             0 <= currentFrame (state (this a')) <= frameCount - 1).
  { destruct (play_run a inst Hi) as (a' & Hrun & Hstate & _).
    exists a'. split; [exact Hrun|]. unfold animated, engine_frames.
    rewrite Hstate. simpl.
    destruct (negb _ && _); simpl; rewrite Hframes; auto. }
  assert (Hpause : animated frameCount (pause (this a)) /\
                   0 <= currentFrame (state (pause (this a))) <= frameCount - 1).
  { unfold animated, engine_frames, pause. rewrite Hi. simpl. rewrite Hframes. auto. }
  destruct ev as [frame | | | loop | | value | engineFrame | ]; simpl.
  - destruct (setFrame_run a frameCount frame Hanim) as (a' & Hrun & Hcur & Hanim').
    exists a'. split; [exact Hrun|]. split; [exact Hanim'|]. lia.
  - exact Hplay.
  - eexists. split; [reflexivity|]. exact Hpause.
  - eexists. split; [reflexivity|]. simpl.
    unfold animated, engine_frames, setLoop. simpl. rewrite Hi. simpl.
    rewrite Hframes. auto.
  - unfold playBtn_onClick, bind, get_this. rewrite Hi.
    destruct (isPlaying (state (this a))); [|exact Hplay].
    eexists. split; [reflexivity|]. exact Hpause.
  - unfold bind, update_this, modify. simpl.
    destruct (frameSlider (elements (this a))) as [sl|] eqn:Hsl.
    + match goal with
      | |- context [frameSlider_onInput ?x] =>
          destruct (frameSlider_onInput_state x
                      {| slider_value := value; slider_max := slider_max sl |})
            as (a' & -> & Hstate & _)
      end.
      { simpl. unfold set_slider. now rewrite Hsl. }
      exists a'. split; [reflexivity|]. unfold animated, engine_frames.
      rewrite Hstate. simpl. unfold set_slider. rewrite Hsl. simpl.
      rewrite Hi. simpl. rewrite Hframes. simpl in Hev. auto.
    + unfold frameSlider_onInput, bind, get_this, set_slider. simpl.
      rewrite Hsl. simpl. rewrite Hsl. eexists. split; [reflexivity|].
      simpl. split; [exact Hanim | exact Hpos].
  - eexists. split; [reflexivity|]. simpl. simpl in Hev.
    unfold animated, engine_frames, onEnterFrame. rewrite Hi.
    assert (Hs : forall f c, state (set_slider f c) = state c).
    { intros f c. unfold set_slider. now destruct (frameSlider (elements c)). }
    rewrite Hs. simpl. rewrite Hi. simpl. rewrite Hframes.
    split; [auto|]. now apply Math_round_within.
  - eexists. split; [reflexivity|]. simpl.
    unfold animated, engine_frames, onComplete.
    destruct (isLooping (state (this a))); simpl; rewrite Hi; simpl;
      rewrite Hframes; auto.
Qed.

(** X12.  Any sequence of playback calls, clicks, slider moves and engine events
    on a loaded animation of [frameCount >= 1] frames returns normally, keeps
    the animation loaded and keeps the position within [0, frameCount - 1],
    as long as the slider and the engine report frames within that range. *)
Theorem playback_position_in_range (evs : list PlaybackEvent) (a : App)
    (frameCount : Z) :
  1 <= frameCount ->
  animated frameCount (this a) ->
  0 <= currentFrame (state (this a)) <= frameCount - 1 ->
  Forall (within_frames (frameCount - 1)) evs ->
  let after := exec (playback_events evs) a in
  outcome (playback_events evs) a = inr tt /\
  animated frameCount (this after) /\
  0 <= currentFrame (state (this after)) <= frameCount - 1.
Proof.
  intros Hcount. revert a.
  induction evs as [|ev evs IH]; intros a Hanim Hpos Hevs after.
  - unfold after, exec, outcome. simpl. auto.
  - apply Forall_cons in Hevs as [Hev Hevs].
    destruct (playback_event_in_range ev a frameCount Hcount Hanim Hpos Hev)
      as (a' & Hrun & Hanim' & Hpos').
    specialize (IH a' Hanim' Hpos' Hevs).
    unfold after, exec, outcome, playback_events in *. simpl.
    assert (Hstep : (playback_event ev ;; forEach playback_event evs)%js a
                    = forEach playback_event evs a')
      by (unfold bind at 1; now rewrite Hrun).
    rewrite Hstep. exact IH.
Qed.

End Playback.

Example loaded_app_instance :
  animationInstance (state (this loaded_app))
  = Some {| AnimationItem.totalFrames := 100; AnimationItem.currentFrame := 0;
            AnimationItem.loop := true; AnimationItem.isPaused := true |}.
Proof. vm_compute. reflexivity. Qed.

Example playing_app_instance :
  animationInstance (state (this playing_app))
  = Some {| AnimationItem.totalFrames := 100; AnimationItem.currentFrame := 0;
            AnimationItem.loop := true; AnimationItem.isPaused := false |}.
Proof. vm_compute. reflexivity. Qed.

Example playing_app_flag : isPlaying (state (this playing_app)) = true.
Proof. vm_compute. reflexivity. Qed.

Example loaded_app_animated : animated 100 (this loaded_app).
Proof. vm_compute. split; reflexivity. Qed.

Example loaded_app_position : 0 <= currentFrame (state (this loaded_app)) <= 100 - 1.
Proof. vm_compute. split; discriminate. Qed.

Example sample_playback_within : Forall (within_frames (100 - 1)) sample_playback.
Proof.
  unfold sample_playback.
  repeat (apply Forall_cons_2;
          [simpl; try exact I; try lia;
           try (change (inject_Z (100 - 1)) with 99%Q; lra)|]).
  apply Forall_nil_2.
Qed.

(** The sample animation, played and paused. *)
Lemma play_then_pause_witness :
  let played := this (exec play loaded_app) in
  (isPlaying (state played), engine_paused played, engine_loop played)
  = (true, Some false, Some (isLooping (state (this loaded_app)))) /\
  (isPlaying (state (pause played)), engine_paused (pause played),
   engine_loop (pause played))
  = (false, Some true, Some (isLooping (state (this loaded_app)))).
Proof.
  pose proof (play_then_pause loaded_app _ loaded_app_instance) as Hplay.
  exact (conj (proj1 (proj2 Hplay)) (proj1 (proj2 (proj2 (proj2 Hplay))))).
Defined.

(** A seek beyond the end while the sample animation plays. *)
Lemma seek_during_playback_keeps_play_flag_witness :
  let clamped := Z.max 0 (Z.min 250 (totalFrames (state (this playing_app)))) in
  let sought := exec (setFrame 250) playing_app in
  (isPlaying (state (this sought)), engine_paused (this sought),
   engine_frame (this sought)) = (true, Some true, Some clamped).
Proof.
  exact (proj1 (seek_during_playback_keeps_play_flag playing_app _ 250
                  playing_app_instance playing_app_flag)).
Defined.

(** The run of events on the sample animation of 100 frames. *)
Lemma playback_position_in_range_witness :
  let after := exec (playback_events sample_playback) loaded_app in
  outcome (playback_events sample_playback) loaded_app = inr tt /\
  animated 100 (this after) /\
  0 <= currentFrame (state (this after)) <= 100 - 1.
Proof.
  exact (playback_position_in_range sample_playback
           loaded_app 100 ltac:(lia) loaded_app_animated loaded_app_position
           sample_playback_within).
Defined.

(* ===================================================================== *)
(** * Panning                                                             *)
(* ===================================================================== *)

Section Panning.
Context `{Engines}.
Local Open Scope Q_scope.

Lemma applyZoom_pan (c : LottieConverter) :
  (isPanning (applyZoom c), lastClientX (applyZoom c), lastClientY (applyZoom c),
   panOffsetX (applyZoom c), panOffsetY (applyZoom c), state (applyZoom c))
  = (isPanning c, lastClientX c, lastClientY c, panOffsetX c, panOffsetY c, state c).
Proof.
  destruct (applyZoom_session c) as [Hs _]. unfold session_of in Hs.
  injection Hs as -> _ _ _ -> -> -> -> -> _. reflexivity.
Qed.

Lemma last_cons_default {A : Type} (l : list A) (a d : A) :
  List.last (a :: l) d = List.last l a.
Proof.
  revert a d. induction l as [|b l IH]; intros a d; [reflexivity|].
  change (List.last (a :: b :: l) d) with (List.last (b :: l) d).
  now rewrite !IH.
Qed.

(** Pointer moves while panning add up to the displacement of the pointer
    since the last position recorded. *)
Lemma moves_while_panning (moves : list (Q * Q)) (c : LottieConverter) :
  isPanning c = true ->
  let moved := viewport_events (List.map (fun p => MouseMove (fst p) (snd p)) moves) c in
  let final := List.last moves (lastClientX c, lastClientY c) in
  isPanning moved = true /\
  (lastClientX moved, lastClientY moved) = final /\
  panOffsetX moved == panOffsetX c + (fst final - lastClientX c) /\
  panOffsetY moved == panOffsetY c + (snd final - lastClientY c) /\
  state moved = state c.
Proof.
  revert c. induction moves as [|[x y] moves IH]; intros c Hpan.
  - simpl. repeat split; try assumption; ring.
  - unfold viewport_events in *.
    cbn [List.map fold_left viewport_event fst snd].
    set (c1 := applyZoom
                 (set_panOffsetY (panOffsetY c + (y - lastClientY c))
                    (set_panOffsetX (panOffsetX c + (x - lastClientX c))
                       (set_lastClientY y (set_lastClientX x c))))).
    assert (Hmove : onMouseMove x y c = c1)
      by (unfold onMouseMove; now rewrite Hpan).
    rewrite Hmove.
    pose proof (applyZoom_pan
                  (set_panOffsetY (panOffsetY c + (y - lastClientY c))
                     (set_panOffsetX (panOffsetX c + (x - lastClientX c))
                        (set_lastClientY y (set_lastClientX x c))))) as Hc1.
    fold c1 in Hc1. simpl in Hc1.
    injection Hc1 as Hp Hx Hy Hpx Hpy Hst.
    specialize (IH c1). rewrite Hp in IH. specialize (IH Hpan).
    rewrite Hx, Hy, Hpx, Hpy, Hst in IH.
    destruct IH as (Hpan' & Hlast & Hox & Hoy & Hstate).
    rewrite last_cons_default.
    split; [exact Hpan'|]. split; [exact Hlast|].
    split; [rewrite Hox; ring|]. split; [rewrite Hoy; ring | exact Hstate].
Qed.

(** X13.  A drag moves the pan offset by the displacement of the pointer between
    the press and its last position, whatever the path in between, and
    changes nothing of the state; once the button is released, pointer moves
    leave the controller as it is.  A press with another button, or over the
    zoom control, starts no drag: the moves after it change nothing. *)
Theorem drag_pans_by_displacement (c : LottieConverter) (x0 y0 : Q)
    (moves : list (Q * Q)) :
  let dragged := viewport_events (drag_events x0 y0 moves) c in
  let final := List.last moves (x0, y0) in
  (panOffsetX dragged == panOffsetX c + (fst final - x0) /\
   panOffsetY dragged == panOffsetY c + (snd final - y0) /\
   state dragged = state c /\
   isPanning dragged = true) /\
  (forall later : list (Q * Q),
      viewport_events (List.map (fun p => MouseMove (fst p) (snd p)) later)
        (endPan dragged) = endPan dragged) /\
  (forall (button : Z) (overZoomUi : bool),
      isPanning c = false ->
      button <> 0%Z \/ overZoomUi = true ->
      viewport_events
        (MouseDown button x0 y0 overZoomUi
           :: List.map (fun p => MouseMove (fst p) (snd p)) moves) c = c).
Proof.
  intros dragged final.
  assert (Hidle : forall (later : list (Q * Q)) (c0 : LottieConverter),
             isPanning c0 = false ->
             viewport_events (List.map (fun p => MouseMove (fst p) (snd p)) later) c0
             = c0).
  { intros later c0 Hidle. unfold viewport_events.
    induction later as [|p later IH]; [reflexivity|].
    cbn [List.map fold_left viewport_event].
    assert (Hmove : onMouseMove (fst p) (snd p) c0 = c0)
      by (unfold onMouseMove; now rewrite Hidle).
    rewrite Hmove. exact IH. }
  split; [|split].
  - unfold dragged, drag_events, viewport_events. simpl.
    pose proof (moves_while_panning moves
                  (set_lastClientY y0 (set_lastClientX x0 (set_isPanning true c)))
                  eq_refl) as Hmoves.
    unfold viewport_events in Hmoves. simpl in Hmoves.
    destruct Hmoves as (Hpan & _ & Hx & Hy & Hstate).
    unfold onMouseDown. simpl. fold final in Hx, Hy. auto.
  - intros later. apply Hidle. unfold endPan.
    destruct (isPanning dragged) eqn:Hp; simpl; [reflexivity | exact Hp].
  - intros button overZoomUi Hp Hignored.
    assert (Hdown : onMouseDown button x0 y0 overZoomUi c = c).
    { unfold onMouseDown. destruct Hignored as [Hb | ->].
      - destruct (Z.eqb_spec button 0); [contradiction | reflexivity].
      - now rewrite orb_true_r. }
    unfold viewport_events. simpl. rewrite Hdown. now apply Hidle.
Qed.

Lemma shifts_of_widgets (c c' : LottieConverter) :
  widgets_of c' = widgets_of c -> xShift c' = xShift c /\ yShift c' = yShift c.
Proof.
  unfold widgets_of, xShift, yShift, getFitPaddingPx, getRemInPixels.
  intros Hw. injection Hw as _ _ _ _ _ _ ->. auto.
Qed.

Lemma positioned_at_pan_congr (c c' : LottieConverter) :
  session_of c' = session_of c ->
  widgets_of c' = widgets_of c ->
  option_map style (current_svg c') = option_map style (current_svg c) ->
  positioned_at_pan c -> positioned_at_pan c'.
Proof.
  intros Hs Hw Hstyle Hpos e' st He' Hst.
  destruct (shifts_of_widgets c c' Hw) as [-> ->].
  unfold session_of in Hs. injection Hs as _ _ _ _ _ _ _ -> -> _.
  rewrite He' in Hstyle. simpl in Hstyle.
  destruct (current_svg c) as [e|] eqn:He; [|discriminate Hstyle].
  injection Hstyle as Hstyle. apply (Hpos e st He). congruence.
Qed.

Lemma updateFrameOutlineAppearance_positioned (c : LottieConverter) :
  positioned_at_pan c -> positioned_at_pan (updateFrameOutlineAppearance c).
Proof.
  destruct (updateFrameOutlineAppearance_session c) as [Hs Hw].
  apply positioned_at_pan_congr; [exact Hs | exact Hw |].
  pose proof (updateFrameOutlineAppearance_svg c) as Hsvg.
  destruct (current_svg (updateFrameOutlineAppearance c)), (current_svg c);
    simpl in *; congruence.
Qed.

(** [applyZoom] puts the drawing where the pan offset says. *)
Lemma applyZoom_positioned (c : LottieConverter) :
  positioned_at_pan c -> positioned_at_pan (applyZoom c).
Proof.
  intros Hpos. unfold applyZoom. destruct (current_svg c) as [e|] eqn:He; [|exact Hpos].
  apply updateFrameOutlineAppearance_positioned.
  intros e' st He' Hst.
  destruct (zoomMode (state c));
    rewrite current_svg_map_svg, He in He'; simpl in He'; injection He' as <-;
    simpl in Hst; injection Hst as <-; simpl;
    match goal with
    | |- context [map_svg ?f c] =>
        destruct (map_svg_session f c) as [Hs Hw];
        destruct (shifts_of_widgets c (map_svg f c) Hw) as [-> ->];
        unfold session_of in Hs; injection Hs as _ _ _ _ _ _ _ -> -> _
    end; auto.
Qed.



End Panning.




(* ===================================================================== *)
(** * The frame outline                                                   *)
(* ===================================================================== *)

Section FrameOutline.
Context `{Engines}.
Local Open Scope Q_scope.

(** With the outline on, [updateFrameOutlineAppearance] rewrites the stroke
    of the overlay from the current scale and nothing else of the drawing. *)
Lemma updateFrameOutlineAppearance_on (c : LottieConverter) (e : SvgElement)
    (rect : FrameOverlay) :
  frameOutlineOn c = true ->
  current_svg c = Some e ->
  frameOverlay e = Some rect ->
  current_svg (updateFrameOutlineAppearance c)
  = Some (set_frameOverlay
            (Some {| overlay_width := overlay_width rect;
                     overlay_height := overlay_height rect;
                     stroke := Some (2 / getCurrentScale c,
                                     (10 / getCurrentScale c, 6 / getCurrentScale c)) |})
            e).
Proof.
  intros Hon He Hrect. unfold updateFrameOutlineAppearance. rewrite Hon. simpl.
  rewrite current_svg_map_svg, He. simpl. now rewrite Hrect.
Qed.

Lemma getCurrentScale_session (c c' : LottieConverter) :
  state c' = state c -> zoomMode (state c) = fixed ->
  getCurrentScale c' = getCurrentScale c.
Proof.
  intros Hs Hmode. rewrite !getCurrentScale_fixed by (rewrite ?Hs; exact Hmode).
  now rewrite Hs.
Qed.

(** In fixed mode, [applyZoom] leaves an outline whose stroke is made for
    the scale of the transform it writes. *)
Lemma applyZoom_fixed_outline (c : LottieConverter) (e : SvgElement)
    (rect : FrameOverlay) :
  frameOutlineOn c = true ->
  zoomMode (state c) = fixed ->
  current_svg c = Some e ->
  frameOverlay e = Some rect ->
  let s := getCurrentScale c in
  exists e' : SvgElement,
    current_svg (updateFrameOutlineAppearance (applyZoom c)) = Some e' /\
    option_map transform_scale (style e') = Some s /\
    frameOverlay e'
    = Some {| overlay_width := overlay_width rect;
              overlay_height := overlay_height rect;
              stroke := Some (2 / s, (10 / s, 6 / s)) |}.
Proof.
  intros Hon Hmode He Hrect s.
  unfold applyZoom. rewrite He, Hmode.
  set (c1 := map_svg _ c).
  assert (Hc1 : current_svg c1
                = Some (setFixedZoom c e (JS.int_or (zoomPercent (state c)) 100)))
    by (unfold c1; now rewrite current_svg_map_svg, He).
  assert (Hs1 : session_of c1 = session_of c) by apply map_svg_session.
  assert (Hon1 : frameOutlineOn c1 = true).
  { unfold session_of in Hs1. injection Hs1 as _ _ _ _ _ _ _ _ _ ->. exact Hon. }
  assert (Hscale1 : getCurrentScale c1 = s)
    by (apply getCurrentScale_session; [now apply session_state | exact Hmode]).
  pose proof (updateFrameOutlineAppearance_on c1 _ rect Hon1 Hc1 Hrect) as Hc2.
  rewrite Hscale1 in Hc2.
  set (c2 := updateFrameOutlineAppearance c1) in *.
  assert (Hs2 : session_of c2 = session_of c)
    by (unfold c2; destruct (updateFrameOutlineAppearance_session c1) as [-> _];
        exact Hs1).
  assert (Hon2 : frameOutlineOn c2 = true).
  { unfold session_of in Hs2. injection Hs2 as _ _ _ _ _ _ _ _ _ ->. exact Hon. }
  assert (Hscale2 : getCurrentScale c2 = s)
    by (apply getCurrentScale_session; [now apply session_state | exact Hmode]).
  pose proof (updateFrameOutlineAppearance_on c2 _ _ Hon2 Hc2 eq_refl) as Hc3.
  rewrite Hscale2 in Hc3. simpl in Hc3.
  eexists. split; [exact Hc3|]. simpl. split; [|reflexivity].
  unfold s. now rewrite (getCurrentScale_fixed c Hmode).
Qed.

(** X15.  With the outline shown, a wheel zoom and the selection of a percentage
    leave the overlay with its size and with a stroke that, multiplied by
    the scale of the transform, is 2 pixels wide with dashes of 10 and gaps of
    6 pixels: the outline looks the same at every zoom. *)
Theorem frame_outline_keeps_screen_width (c : LottieConverter) (e : SvgElement)
    (rect : FrameOverlay) (deltaY : Q) (percent : Z) :
  current_svg c = Some e ->
  frameOverlay e = Some rect ->
  frameOutlineOn c = true ->
  forall c' : LottieConverter,
    c' = onWheel deltaY false c \/ c' = setPercent percent c ->
    exists strokeWidth dash gap : Q,
      screen_outline c' = Some (strokeWidth, dash, gap) /\
      strokeWidth == 2 /\ dash == 10 /\ gap == 6 /\
      option_map (fun e' => option_map (fun r => (overlay_width r, overlay_height r))
                              (frameOverlay e')) (current_svg c')
      = Some (Some (overlay_width rect, overlay_height rect)).
Proof.
  intros He Hrect Hon c' Hc'.
  assert (Hfixed : exists c2 : LottieConverter,
             c' = updateFrameOutlineAppearance (applyZoom c2) /\
             frameOutlineOn c2 = true /\ zoomMode (state c2) = fixed /\
             current_svg c2 = Some e).
  { destruct Hc' as [-> | ->].
    - unfold onWheel. rewrite He. eexists. split; [reflexivity|]. auto.
    - unfold setPercent. eexists. split; [reflexivity|]. auto. }
  destruct Hfixed as (c2 & -> & Hon2 & Hmode2 & He2).
  destruct (applyZoom_fixed_outline c2 e rect Hon2 Hmode2 He2 Hrect)
    as (e' & Hsvg & Hstyle & Hoverlay).
  pose proof (getCurrentScale_nonzero c2) as Hnz.
  set (s := getCurrentScale c2) in *.
  assert (Hs : ~ s == 0).
  { intros Hz. unfold JS.is_zero in Hnz. apply Qeq_bool_iff in Hz. congruence. }
  unfold screen_outline. rewrite Hsvg, Hoverlay. simpl.
  destruct (style e') as [st|]; [|discriminate Hstyle].
  simpl in Hstyle. injection Hstyle as ->.
  eexists _, _, _. split; [reflexivity|].
  split; [field; exact Hs|]. split; [field; exact Hs|]. split; [field; exact Hs|].
  now rewrite Hoverlay.
Qed.

Lemma frameToggle_onChange_run (checked : bool) (a : App) :
  frameToggle_onChange checked a
  = ({| browser := exec (Preferences.setPreference Preferences.show_frame
                           (Preferences.PBool checked)) (browser a);
        this := applyFrameOutline (set_frameOutlineOn checked (this a)) |}, inr tt).
Proof.
  unfold frameToggle_onChange, bind, update_this, modify, in_browser, zoom, exec.
  simpl. rewrite setPreference_run. reflexivity.
Qed.

Lemma ignoreOpacity_onChange_run (checked : bool) (a : App) :
  ignoreOpacity_onChange checked a
  = ({| browser := exec (Preferences.setPreference Preferences.ignore_opacity
                           (Preferences.PBool checked)) (browser a);
        this := applyOpacityOverride
                  (set_state (set_ignoreOpacity checked (state (this a))) (this a)) |},
     inr tt).
Proof.
  unfold ignoreOpacity_onChange, bind, update_state, update_this, modify,
    in_browser, zoom, exec.
  simpl. rewrite setPreference_run. reflexivity.
Qed.





(** X17.  Switching the outline on over a drawing with non-zero intrinsic
    dimensions puts an overlay of exactly these dimensions in the drawing;
    switching it off again takes the overlay out.  Neither changes what an
    export reads. *)
Theorem frame_toggle_outlines_intrinsic_bounds (a : App) (e : SvgElement) (W Hh : Q) :
  current_svg (this a) = Some e ->
  intrinsic_of (this a) = (Some W, Some Hh) ->
  JS.is_zero W = false ->
  JS.is_zero Hh = false ->
  let shown := exec (frameToggle_onChange true) a in
  let hidden := exec (frameToggle_onChange false) shown in
  outline_size (this shown) = Some (W, Hh) /\
  outline_size (this hidden) = None /\
  option_map drawing_of (current_svg (this hidden)) = Some (drawing_of e) /\
  export_view (this shown) = export_view (this a) /\
  export_view (this hidden) = export_view (this a).
Proof.
  intros He Hdims HW HH shown hidden.
  unfold hidden, shown, exec. rewrite !frameToggle_onChange_run. simpl.
  unfold intrinsic_of in Hdims. injection Hdims as Hw Hh'.
  assert (Hview : forall flag c,
             export_view (applyFrameOutline (set_frameOutlineOn flag c)) = export_view c).
  { intros flag c. now rewrite applyFrameOutline_export_view. }
  set (c1 := applyFrameOutline (set_frameOutlineOn true (this a))).
  assert (Hc1 : exists e1, current_svg c1 = Some e1 /\
                  option_map (fun rect => (overlay_width rect, overlay_height rect))
                    (frameOverlay e1) = Some (W, Hh)).
  { unfold c1, applyFrameOutline.
    change (current_svg (set_frameOutlineOn true (this a))) with (current_svg (this a)).
    rewrite He. simpl. rewrite Hw, Hh'. unfold JS.num_or. rewrite HW, HH. simpl.
    set (rect0 := {| overlay_width := W; overlay_height := Hh;
                     stroke := match frameOverlay e with
                               | Some rect => stroke rect
                               | None => None
                               end |}).
    set (c0 := map_svg (set_frameOverlay (Some rect0))
                 (set_frameOutlineOn true (this a))).
    assert (Hc0 : current_svg c0 = Some (set_frameOverlay (Some rect0) e)).
    { unfold c0. rewrite current_svg_map_svg.
      change (current_svg (set_frameOutlineOn true (this a)))
        with (current_svg (this a)).
      now rewrite He. }
    assert (Hon0 : frameOutlineOn c0 = true).
    { destruct (map_svg_session (set_frameOverlay (Some rect0))
                  (set_frameOutlineOn true (this a))) as [Hs _].
      fold c0 in Hs. unfold session_of in Hs.
      now injection Hs as _ _ _ _ _ _ _ _ _ ->. }
    rewrite HW, HH. simpl.
    rewrite (updateFrameOutlineAppearance_on c0 _ rect0 Hon0 Hc0 eq_refl).
    eexists. split; reflexivity. }
  destruct Hc1 as (e1 & He1 & Hrect1).
  split; [|split; [|split; [|split]]].
  - unfold outline_size. now rewrite He1.
  - unfold outline_size, applyFrameOutline.
    change (current_svg (set_frameOutlineOn false c1)) with (current_svg c1).
    rewrite He1. simpl. rewrite current_svg_map_svg.
    change (current_svg (set_frameOutlineOn false c1)) with (current_svg c1).
    now rewrite He1.
  - pose proof (Hview false c1) as Hv2. pose proof (Hview true (this a)) as Hv1.
    fold c1 in Hv1. rewrite Hv1 in Hv2.
    apply (f_equal snd) in Hv2. simpl in Hv2. now rewrite Hv2, He.
  - apply Hview.
  - rewrite Hview. apply Hview.
Qed.

End FrameOutline.

Example outlined_converter_svg : current_svg outlined_converter = Some outlined_svg.
Proof. vm_compute. reflexivity. Qed.

Example outlined_svg_overlay : frameOverlay outlined_svg = Some outlined_rect.
Proof. vm_compute. reflexivity. Qed.

Example outlined_converter_on : frameOutlineOn outlined_converter = true.
Proof. vm_compute. reflexivity. Qed.

Example loaded_app_intrinsic :
  intrinsic_of (this loaded_app) = (Some 800%Q, Some 600%Q).
Proof. vm_compute. reflexivity. Qed.

(** The outlined sample animation, zoomed in by one notch of the wheel. *)
Lemma frame_outline_keeps_screen_width_witness :
  exists strokeWidth dash gap : Q,
    screen_outline (onWheel (-100) false outlined_converter)
    = Some (strokeWidth, dash, gap) /\
    (strokeWidth == 2)%Q /\ (dash == 10)%Q /\ (gap == 6)%Q /\
    option_map (fun e' => option_map (fun r => (overlay_width r, overlay_height r))
                            (frameOverlay e'))
      (current_svg (onWheel (-100) false outlined_converter))
    = Some (Some (overlay_width outlined_rect, overlay_height outlined_rect)).
Proof.
  exact (frame_outline_keeps_screen_width outlined_converter outlined_svg
           outlined_rect (-100) 100 outlined_converter_svg outlined_svg_overlay
           outlined_converter_on _ (or_introl eq_refl)).
Defined.

(** The outline of the sample animation measures 800 x 600. *)
Lemma frame_toggle_outlines_intrinsic_bounds_witness :
  outline_size (this (exec (frameToggle_onChange true) loaded_app))
  = Some (800%Q, 600%Q).
Proof.
  exact (proj1 (frame_toggle_outlines_intrinsic_bounds loaded_app loaded_svg
                  800 600 loaded_app_svg loaded_app_intrinsic eq_refl eq_refl)).
Defined.

(* ===================================================================== *)
(** * Fitting                                                             *)
(* ===================================================================== *)

Section Fitting.
Context `{Engines}.
Local Open Scope Q_scope.

(** The transform [applyZoom] writes in fit mode is the one of
    [fitToContainer]. *)
Lemma applyZoom_fit_transform (c : LottieConverter) (e : SvgElement) :
  current_svg c = Some e ->
  zoomMode (state c) = fit ->
  option_map style (current_svg (updateFrameOutlineAppearance (applyZoom c)))
  = Some (style (fitToContainer c e)).
Proof.
  intros He Hmode.
  pose proof (updateFrameOutlineAppearance_svg (applyZoom c)) as H1.
  unfold applyZoom in *. rewrite He, Hmode in *.
  pose proof (updateFrameOutlineAppearance_svg (map_svg (fitToContainer c) c)) as H2.
  rewrite current_svg_map_svg, He in H2. simpl in H2. rewrite H2 in H1.
  destruct (current_svg (updateFrameOutlineAppearance
                           (updateFrameOutlineAppearance (map_svg (fitToContainer c) c))))
    as [e'|]; simpl in H1; [|discriminate H1].
  injection H1 as Hstyle _. simpl. now rewrite Hstyle.
Qed.

(** X18.  The selection of [fit] scales a drawing of positive intrinsic size so
    that it fits the render surface less the padding (20rem left and right,
    5rem at the bottom, at least one pixel each way): the scaled width and
    height do not exceed the room, and one of them fills it.  It also puts
    the pan offset back to zero. *)
Theorem fit_selection_fits_the_padded_area (c : LottieConverter) (e : SvgElement)
    (box : Container) (W Hh : Q) :
  current_svg c = Some e ->
  lottieContainer (elements c) = Some box ->
  intrinsic_of c = (Some W, Some Hh) ->
  0 < W -> 0 < Hh ->
  let rem := getRemInPixels c in
  let availW := Qmax 1 (rect_width (container_rect box) - (20 * rem + 20 * rem)) in
  let availH := Qmax 1 (rect_height (container_rect box) - (0 + 5 * rem)) in
  let fitted := handleSelectChange "fit" c in
  exists scale : Q,
    transform_of fitted = Some scale /\
    0 < scale /\
    scale * W <= availW /\
    scale * Hh <= availH /\
    (scale * W == availW \/ scale * Hh == availH) /\
    (zoomMode (state fitted), panOffsetX fitted, panOffsetY fitted) = (fit, 0, 0).
Proof.
  intros He Hbox Hdims HW HH rem availW availH fitted.
  unfold intrinsic_of in Hdims. injection Hdims as Hw Hh'.
  assert (Hfit : fitted = updateFrameOutlineAppearance
                            (applyZoom
                               (set_panOffsetY 0
                                  (set_panOffsetX 0
                                     (set_state (set_zoomMode fit (state c)) c)))))
    by reflexivity.
  set (c2 := set_panOffsetY 0 _) in Hfit.
  pose proof (applyZoom_fit_transform c2 e He eq_refl) as Hstyle.
  rewrite <- Hfit in Hstyle.
  assert (HzW : JS.is_zero W = false).
  { unfold JS.is_zero. destruct (Qeq_bool W 0) eqn:Hz; [|reflexivity].
    apply Qeq_bool_eq in Hz. lra. }
  assert (HzH : JS.is_zero Hh = false).
  { unfold JS.is_zero. destruct (Qeq_bool Hh 0) eqn:Hz; [|reflexivity].
    apply Qeq_bool_eq in Hz. lra. }
  assert (Hscale : option_map transform_scale (style (fitToContainer c2 e))
                   = Some (Qmin (availW / W) (availH / Hh))).
  { unfold fitToContainer, positioned. simpl. rewrite Hw, Hh', Hbox.
    unfold JS.num_or. rewrite HzW, HzH. simpl. rewrite HzW, HzH. reflexivity. }
  exists (Qmin (availW / W) (availH / Hh)).
  assert (HaW : 1 <= availW) by apply Q.le_max_l.
  assert (HaH : 1 <= availH) by apply Q.le_max_l.
  assert (HqW : availW / W * W == availW) by (field; lra).
  assert (HqH : availH / Hh * Hh == availH) by (field; lra).
  assert (HpW : 0 < availW / W) by (apply Qlt_shift_div_l; lra).
  assert (HpH : 0 < availH / Hh) by (apply Qlt_shift_div_l; lra).
  split; [|split; [|split; [|split; [|split]]]].
  - unfold transform_of.
    destruct (current_svg fitted) as [e'|]; simpl in Hstyle; [|discriminate Hstyle].
    injection Hstyle as ->. exact Hscale.
  - destruct (Q.min_spec (availW / W) (availH / Hh)) as [[_ ->] | [_ ->]]; assumption.
  - rewrite <- HqW at 2. apply Qmult_le_compat_r; [apply Q.le_min_l | lra].
  - rewrite <- HqH at 2. apply Qmult_le_compat_r; [apply Q.le_min_r | lra].
  - destruct (Q.min_spec (availW / W) (availH / Hh)) as [[_ ->] | [_ ->]]; auto.
  - rewrite Hfit.
    destruct (updateFrameOutlineAppearance_session (applyZoom c2)) as [Hs1 _].
    destruct (applyZoom_session c2) as [Hs2 _]. rewrite Hs2 in Hs1.
    unfold session_of in Hs1. injection Hs1 as -> _ _ _ _ _ _ -> -> _. reflexivity.
Qed.

End Fitting.

(** The sample animation of 800 x 600 in a surface of 1920 x 1080 with a
    root font size of 16 pixels: the room is 1280 x 1000, and the width
    fills it at the scale 1.6. *)
Lemma fit_selection_fits_the_padded_area_witness :
  exists scale : Q,
    transform_of (handleSelectChange "fit" (this loaded_app)) = Some scale /\
    (0 < scale)%Q /\
    (scale * 800 <= Qmax 1 (1920 - (20 * 16 + 20 * 16)))%Q.
Proof.
  destruct (fit_selection_fits_the_padded_area (this loaded_app) loaded_svg _ 800 600
              loaded_app_svg loaded_app_surface loaded_app_intrinsic
              ltac:(reflexivity) ltac:(reflexivity))
    as (scale & Htransform & Hpos & Hwidth & _).
  exists scale. split; [exact Htransform|]. split; [exact Hpos | exact Hwidth].
Defined.

(* ===================================================================== *)
(** * The interaction flag and the operations of the page                 *)
(* ===================================================================== *)

Section Interaction.
Context `{Engines}.

Lemma session_flag (c c' : LottieConverter) :
  session_of c' = session_of c ->
  hasInteractedSinceLoad c' = hasInteractedSinceLoad c.
Proof. unfold session_of. now intros [= _ _ _ -> _ _ _ _ _ _]. Qed.

Lemma applyZoom_flag (c : LottieConverter) :
  hasInteractedSinceLoad (applyZoom c) = hasInteractedSinceLoad c.
Proof. apply session_flag, applyZoom_session. Qed.

Lemma map_svg_flag (f : SvgElement -> SvgElement) (c : LottieConverter) :
  hasInteractedSinceLoad (map_svg f c) = hasInteractedSinceLoad c.
Proof. apply session_flag, map_svg_session. Qed.

Lemma goToAndStop_flag (frame : Z) (c : LottieConverter) :
  hasInteractedSinceLoad (goToAndStop frame c) = hasInteractedSinceLoad c.
Proof.
  unfold goToAndStop. destruct (animationInstance (state c)); [|reflexivity].
  now rewrite map_svg_flag.
Qed.

Lemma set_slider_flag (f : Slider -> Slider) (c : LottieConverter) :
  hasInteractedSinceLoad (set_slider f c) = hasInteractedSinceLoad c.
Proof. unfold set_slider. now destruct (frameSlider (elements c)). Qed.

Lemma waitForSvgAndReveal_flag (c : LottieConverter) :
  hasInteractedSinceLoad (waitForSvgAndReveal c) = hasInteractedSinceLoad c.
Proof. apply session_flag, waitForSvgAndReveal_session. Qed.

Lemma replace_content_flag (e : option SvgElement) (c : LottieConverter) :
  hasInteractedSinceLoad (replace_content e c) = hasInteractedSinceLoad c.
Proof. unfold replace_content. now destruct (lottieContainer (elements c)). Qed.

Lemma engine_inserts_svg_flag (c : LottieConverter) :
  hasInteractedSinceLoad (engine_inserts_svg c) = hasInteractedSinceLoad c.
Proof.
  unfold engine_inserts_svg.
  now destruct (lottieContainer (elements c)), (has_animationData (state c)).
Qed.

Lemma applyFrameOutline_flag (c : LottieConverter) :
  hasInteractedSinceLoad (applyFrameOutline c) = hasInteractedSinceLoad c.
Proof. apply session_flag, applyFrameOutline_session. Qed.

Lemma applyOpacityOverride_flag (c : LottieConverter) :
  hasInteractedSinceLoad (applyOpacityOverride c) = hasInteractedSinceLoad c.
Proof. apply session_flag, applyOpacityOverride_session. Qed.

Lemma updateFrameOutlineAppearance_flag (c : LottieConverter) :
  hasInteractedSinceLoad (updateFrameOutlineAppearance c) = hasInteractedSinceLoad c.
Proof. apply session_flag, updateFrameOutlineAppearance_session. Qed.

Lemma pause_flag (c : LottieConverter) :
  hasInteractedSinceLoad (pause c) = hasInteractedSinceLoad c.
Proof. unfold pause. now destruct (animationInstance (state c)). Qed.

Lemma onEnterFrame_flag (engineFrame : Q) (c : LottieConverter) :
  hasInteractedSinceLoad (onEnterFrame engineFrame c) = hasInteractedSinceLoad c.
Proof.
  unfold onEnterFrame. destruct (animationInstance (state c)); [|reflexivity].
  now rewrite set_slider_flag.
Qed.

Lemma onComplete_flag (c : LottieConverter) :
  hasInteractedSinceLoad (onComplete c) = hasInteractedSinceLoad c.
Proof. unfold onComplete. now destruct (isLooping (state c)). Qed.

Lemma clearAnimation_flag (loopSwitch : option (option string)) (c : LottieConverter) :
  hasInteractedSinceLoad (clearAnimation loopSwitch c) = hasInteractedSinceLoad c.
Proof.
  unfold clearAnimation. simpl. rewrite set_slider_flag. simpl.
  now destruct (lottieContainer (elements c)).
Qed.

Lemma viewport_event_flag (ev : ViewportEvent) (c : LottieConverter) :
  hasInteractedSinceLoad (viewport_event ev c) = hasInteractedSinceLoad c.
Proof.
  destruct ev as [deltaY over | value | button x y over | x y | | over]; simpl.
  - unfold onWheel. destruct over; [reflexivity|].
    destruct (current_svg c); [|reflexivity].
    now rewrite updateFrameOutlineAppearance_flag, applyZoom_flag.
  - unfold handleSelectChange, setPercent, setModeFit.
    repeat match goal with
           | |- context [if ?b then _ else _] => destruct b
           | |- context [match JS.parseInt ?v with _ => _ end] =>
               destruct (JS.parseInt v)
           end;
      try reflexivity;
      now rewrite updateFrameOutlineAppearance_flag, applyZoom_flag.
  - unfold onMouseDown. destruct (_ || _); reflexivity.
  - unfold onMouseMove. destruct (negb _); [reflexivity|].
    now rewrite applyZoom_flag.
  - unfold endPan. destruct (negb _); reflexivity.
  - unfold onDblClick. destruct over; [reflexivity|].
    now rewrite applyZoom_flag.
Qed.

Ltac flags :=
  repeat first
    [ progress rewrite ?applyZoom_flag, ?map_svg_flag, ?goToAndStop_flag,
        ?set_slider_flag, ?waitForSvgAndReveal_flag, ?replace_content_flag,
        ?engine_inserts_svg_flag, ?applyFrameOutline_flag,
        ?applyOpacityOverride_flag, ?updateFrameOutlineAppearance_flag,
        ?pause_flag, ?onEnterFrame_flag, ?onComplete_flag, ?clearAnimation_flag,
        ?viewport_event_flag
    | progress simpl ].

(** Once the flag is set, [touchRecentIfNeeded] does nothing; it never
    throws. *)
Lemma touchRecentIfNeeded_step (a : App) :
  exists a' : App,
    touchRecentIfNeeded a = (a', inr tt) /\
    (hasInteractedSinceLoad (this a) = true -> a' = a).
Proof.
  destruct (touchRecentIfNeeded_run a) as (b' & flag & Hrun).
  eexists. split; [exact Hrun|]. intros Hflag.
  unfold touchRecentIfNeeded, bind, get_this, ret in Hrun. rewrite Hflag in Hrun.
  injection Hrun as Ha. now rewrite <- Ha.
Qed.

Lemma touched_stays_trans (a a1 a2 : App) :
  touched_stays a a1 -> touched_stays a1 a2 -> touched_stays a a2.
Proof.
  intros H1 H2 Hflag. destruct (H1 Hflag) as [Hflag1 Hslot1].
  destruct (H2 Hflag1) as [Hflag2 Hslot2]. split; [exact Hflag2 | congruence].
Qed.

Ltac touch_step :=
  match goal with
  | |- context [touchRecentIfNeeded ?x] =>
      let a' := fresh "a'" in
      let Hsame := fresh "Hsame" in
      destruct (touchRecentIfNeeded_step x) as (a' & -> & Hsame);
      eexists; split; [reflexivity|];
      intros Hflag; rewrite Hsame by (simpl; flags; exact Hflag);
      simpl; flags; auto
  end.

Lemma frameSlider_onInput_step (a : App) :
  exists a' : App, frameSlider_onInput a = (a', inr tt) /\ touched_stays a a'.
Proof.
  unfold frameSlider_onInput, bind, get_this.
  destruct (frameSlider (elements (this a))) as [target|].
  - unfold update_state, update_this, modify. simpl.
    destruct (animationInstance (state (this a))); touch_step.
  - eexists. split; [reflexivity|]. intros Hflag. auto.
Qed.

Lemma updateSliderMax_step (maxValue : Z) (a : App) :
  exists a' : App, updateSliderMax maxValue a = (a', inr tt) /\ touched_stays a a'.
Proof.
  unfold updateSliderMax, bind, get_this.
  destruct (frameSlider (elements (this a))) as [sl|].
  - unfold update_this, modify. simpl.
    match goal with
    | |- context [frameSlider_onInput ?x] =>
        destruct (frameSlider_onInput_step x) as (a' & -> & Hstays)
    end.
    exists a'. split; [reflexivity|]. intros Hflag. apply Hstays. simpl. flags.
    exact Hflag.
  - eexists. split; [reflexivity|]. intros Hflag. auto.
Qed.

Lemma setFrame_step (frame : Z) (a : App) :
  exists a' : App, setFrame frame a = (a', inr tt) /\ touched_stays a a'.
Proof.
  unfold setFrame, bind, get_this.
  destruct (animationInstance (state (this a))) as [inst|].
  - unfold update_state, update_this, modify. simpl.
    destruct (frameSlider _) as [sl|].
    + match goal with
      | |- context [frameSlider_onInput ?x] =>
          destruct (frameSlider_onInput_step x) as (a' & -> & Hstays)
      end.
      exists a'. split; [reflexivity|]. intros Hflag. apply Hstays. simpl. flags.
      exact Hflag.
    + eexists. split; [reflexivity|]. intros Hflag. simpl. flags. auto.
  - eexists. split; [reflexivity|]. intros Hflag. auto.
Qed.

Lemma play_step (a : App) :
  exists a' : App, play a = (a', inr tt) /\ touched_stays a a'.
Proof.
  unfold play, bind, get_this.
  destruct (animationInstance (state (this a))) as [inst|].
  - unfold when, update_state, update_this, modify, ret.
    destruct (negb _ && _); simpl; touch_step.
  - eexists. split; [reflexivity|]. intros Hflag. auto.
Qed.

Lemma playback_event_step (ev : PlaybackEvent) (a : App) :
  exists a' : App, playback_event ev a = (a', inr tt) /\ touched_stays a a'.
Proof.
  destruct ev as [frame | | | loop | | value | engineFrame | ]; simpl;
    try (eexists; split; [reflexivity|]; intros Hflag; simpl; flags; now auto).
  - apply setFrame_step.
  - apply play_step.
  - unfold playBtn_onClick, bind, get_this.
    destruct (animationInstance (state (this a))).
    + destruct (isPlaying (state (this a))); [|apply play_step].
      eexists. split; [reflexivity|]. intros Hflag. simpl. flags. auto.
    + eexists. split; [reflexivity|]. intros Hflag. auto.
  - unfold bind, update_this, modify. simpl.
    match goal with
    | |- context [frameSlider_onInput ?x] =>
        destruct (frameSlider_onInput_step x) as (a' & -> & Hstays)
    end.
    exists a'. split; [reflexivity|]. intros Hflag. apply Hstays. simpl. flags.
    exact Hflag.
Qed.

Lemma onDOMLoaded_step (a : App) :
  exists a' : App, onDOMLoaded a = (a', inr tt) /\ touched_stays a a'.
Proof.
  unfold onDOMLoaded, bind, get_this.
  destruct (animationInstance (state (this a))) as [inst|].
  - unfold update_state, update_this, modify, in_browser, zoom,
      document_dispatchEvent. simpl.
    match goal with
    | |- context [updateSliderMax ?m ?x] =>
        destruct (updateSliderMax_step m x) as (a1 & -> & Hstays)
    end.
    eexists. split; [reflexivity|]. intros Hflag.
    destruct Hstays as [Hflag1 Hslot1]; [simpl; flags; exact Hflag|].
    simpl. flags. split; [exact Hflag1 | exact Hslot1].
  - eexists. split; [reflexivity|]. intros Hflag. auto.
Qed.

Lemma loadLottieAnimation_step (a : App) :
  exists c' : LottieConverter,
    loadLottieAnimation a = ({| browser := browser a; this := c' |}, inr tt) /\
    hasInteractedSinceLoad c' = hasInteractedSinceLoad (this a).
Proof.
  unfold loadLottieAnimation, bind, get_this.
  destruct (lottieContainer (elements (this a))) as [box|];
    [destruct (has_animationData (state (this a))) as [data|]|];
    try (exists (this a); destruct a; split; reflexivity).
  unfold update_state, update_this, modify. simpl.
  eexists. split; [reflexivity|]. simpl. now flags.
Qed.

Lemma loadStaticSVG_step (svgString filenameForDetails : string) (a : App) :
  exists (c' : LottieConverter) (events : list string),
    loadStaticSVG svgString filenameForDetails a
    = ({| browser :=
            {| localStorage := localStorage (browser a); clock := clock (browser a);
               dispatched := events; alerts := alerts (browser a) |};
          this := c' |}, inr tt) /\
    hasInteractedSinceLoad c' = hasInteractedSinceLoad (this a).
Proof.
  unfold loadStaticSVG, bind, get_this.
  destruct (lottieContainer (elements (this a))) as [box|].
  - unfold update_state, update_this, modify, in_browser, zoom,
      document_dispatchEvent. simpl.
    destruct (parse_svg svgString) as [e|].
    + set (dims := match attr_width e, attr_height e with
                   | Some wAttr, Some hAttr =>
                       if JS.is_zero (viewBox_width e) || JS.is_zero (viewBox_height e)
                       then (toPx wAttr, toPx hAttr)
                       else (viewBox_width e, viewBox_height e)
                   | _, _ => (viewBox_width e, viewBox_height e)
                   end).
      destruct dims as [w h]. simpl.
      eexists _, _. split; [reflexivity|]. simpl. now flags.
    + exists (replace_content None
                (set_state (set_animationInstance None (state (this a))) (this a))),
             (dispatched (browser a)).
      split; [destruct a as [[] c]; reflexivity | now flags].
  - exists (this a), (dispatched (browser a)).
    split; [destruct a as [[] c]; reflexivity | reflexivity].
Qed.

(** A guarded save never throws and leaves the controller alone. *)
Lemma guarded_save (name : string) (size : Z) (content : option string) (a : App) :
  try_catch (in_browser (saveRecentFile name size content)) (fun _ => ret tt) a
  = ({| browser :=
          match localStorage (browser a) with
          | Some m =>
              add_dispatched "recent:refresh"
                (set_localStorage
                   (<[RECENT_KEY :=
                        JSON_stringify
                          (saveRecentFile_next name size content (clock (browser a))
                             (recent_files_of (browser a)))]> m) (browser a))
          | None => browser a
          end;
        this := this a |}, inr tt).
Proof.
  unfold try_catch, in_browser, zoom. rewrite saveRecentFile_run.
  unfold recent_files_of.
  destruct (localStorage (browser a)); simpl; [reflexivity|].
  destruct a; reflexivity.
Qed.

Lemma handleFile_step (file : File.t) (a : App) :
  exists a' : App,
    handleFile file a = (a', inr tt) /\
    hasInteractedSinceLoad (this a') = hasInteractedSinceLoad (this a).
Proof.
  unfold handleFile.
  destruct (negb _ && negb _); [eexists; split; reflexivity|].
  unfold bind at 1 2. unfold update_state, update_this, modify. simpl.
  destruct (endsWith (toLowerCase (File.name file)) ".json").
  - unfold try_catch at 1. unfold bind at 1. unfold JSON_parse_or_throw.
    destruct (JSON_parse (File.text file)) as [data|];
      [|eexists; split; reflexivity].
    unfold ret at 1. unfold bind at 1. unfold update_state, update_this, modify.
    simpl. unfold bind at 1.
    match goal with
    | |- context [loadLottieAnimation ?x] =>
        destruct (loadLottieAnimation_step x) as (c' & -> & Hflag)
    end.
    rewrite guarded_save. simpl. eexists. split; [reflexivity|]. exact Hflag.
  - unfold bind at 1.
    match goal with
    | |- context [loadStaticSVG ?s ?n ?x] =>
        destruct (loadStaticSVG_step s n x) as (c' & events & -> & Hflag)
    end.
    rewrite guarded_save. simpl. eexists. split; [reflexivity|]. exact Hflag.
Qed.

Lemma loadFromJSONString_step (filename : string) (size : Z) (json : string) (a : App) :
  exists a' : App,
    loadFromJSONString filename size json a = (a', inr tt) /\ touched_stays a a'.
Proof.
  unfold loadFromJSONString, try_catch.
  unfold bind at 1. unfold update_state, update_this, modify. simpl.
  unfold bind at 1. unfold JSON_parse_or_throw.
  destruct (JSON_parse json) as [data|].
  - unfold ret at 1. unfold bind at 1 2. unfold update_state, update_this, modify.
    simpl.
    match goal with
    | |- context [loadLottieAnimation ?x] =>
        destruct (loadLottieAnimation_step x) as (c' & -> & Hflag)
    end.
    eexists. split; [reflexivity|]. intros Hset. simpl in *. split; congruence.
  - eexists. split; [reflexivity|]. intros Hset. auto.
Qed.

Lemma loadFromSVGString_step (filename : string) (size : Z) (svgText : string)
    (a : App) :
  exists a' : App,
    loadFromSVGString filename size svgText a = (a', inr tt) /\ touched_stays a a'.
Proof.
  rewrite loadFromSVGString_run.
  match goal with
  | |- context [loadStaticSVG ?s ?n ?x] =>
      destruct (loadStaticSVG_step s n x) as (c' & events & -> & Hflag)
  end.
  eexists. split; [reflexivity|]. intros Hset. simpl in *.
  split; [congruence | reflexivity].
Qed.

Lemma downloadCurrentFrame_step (a : App) :
  exists (a' : App) (file : option Download),
    downloadCurrentFrame a = (a', inr file) /\ touched_stays a a'.
Proof.
  unfold downloadCurrentFrame, bind, get_this.
  destruct (lottieContainer (elements (this a))) as [box|].
  - unfold try_catch.
    destruct (touchRecentIfNeeded_step a) as (a1 & -> & Hsame).
    unfold in_browser, zoom, alert, modify, ret.
    destruct (current_svg (this a1)) as [e|]; simpl;
      (eexists _, _; split; [reflexivity|]);
      intros Hflag; rewrite (Hsame Hflag); simpl; auto.
  - eexists _, _. split; [reflexivity|]. intros Hflag. auto.
Qed.

Lemma recent_slot_setPreference (key : Preferences.PreferenceKey)
    (value : Preferences.PreferenceValue) (b : Browser) :
  key <> Preferences.recent_files ->
  recent_slot (exec (Preferences.setPreference key value) b) = recent_slot b.
Proof.
  intros Hkey. unfold exec, recent_slot. rewrite setPreference_run. simpl.
  destruct (localStorage b) as [m|] eqn:Hm; simpl; [|now rewrite Hm].
  apply lookup_insert_ne. intros Heq. apply Hkey.
  now apply (preference_slot_inj key Preferences.recent_files).
Qed.

(** One operation returns normally; it leaves a set flag set and, unless it
    is an upload, the stored recent-files list as it is. *)
Lemma operation_step (op : Operation) (a : App) :
  exists a' : App,
    run_operation op a = (a', inr tt) /\
    (hasInteractedSinceLoad (this a) = true ->
     hasInteractedSinceLoad (this a') = true) /\
    (is_upload op = false -> touched_stays a a').
Proof.
  assert (Hcase : forall (m : M App unit),
             (exists a' : App, m a = (a', inr tt) /\ touched_stays a a') ->
             exists a' : App,
               m a = (a', inr tt) /\
               (hasInteractedSinceLoad (this a) = true ->
                hasInteractedSinceLoad (this a') = true) /\
               (false = false -> touched_stays a a')).
  { intros m (a' & Hrun & Hstays). exists a'. split; [exact Hrun|].
    split; [intros Hflag; apply (Hstays Hflag) | intros _; exact Hstays]. }
  destruct op as [file | filename size json | filename size svgText | | ev | ev
                 | | loopSwitch | checked | checked]; simpl.
  - destruct (handleFile_step file a) as (a' & Hrun & Hflag).
    exists a'. split; [exact Hrun|]. split; [congruence | discriminate].
  - apply Hcase, loadFromJSONString_step.
  - apply Hcase, loadFromSVGString_step.
  - apply Hcase. unfold engine_DOMLoaded, bind, update_this, modify. simpl.
    match goal with
    | |- context [onDOMLoaded ?x] =>
        destruct (onDOMLoaded_step x) as (a' & -> & Hstays)
    end.
    exists a'. split; [reflexivity|]. intros Hflag. apply Hstays. now flags.
  - apply Hcase, playback_event_step.
  - apply Hcase. eexists. split; [reflexivity|]. intros Hflag. flags.
    split; [exact Hflag | reflexivity].
  - apply Hcase. unfold bind.
    destruct (downloadCurrentFrame_step a) as (a' & file & -> & Hstays).
    exists a'. split; [reflexivity | exact Hstays].
  - apply Hcase. eexists. split; [reflexivity|]. intros Hflag.
    cbn [this browser]. rewrite clearAnimation_flag.
    split; [exact Hflag | reflexivity].
  - apply Hcase. rewrite frameToggle_onChange_run.
    eexists. split; [reflexivity|]. intros Hflag. flags.
    split; [exact Hflag | now apply recent_slot_setPreference].
  - apply Hcase. rewrite ignoreOpacity_onChange_run.
    eexists. split; [reflexivity|]. intros Hflag. flags.
    split; [exact Hflag | now apply recent_slot_setPreference].
Qed.

(** X19.  No sequence of operations throws: the exceptions of the store and of
    the JSON engine are caught inside the operation that meets them. *)
Theorem operations_return_normally (ops : list Operation) (a : App) :
  outcome (run_operations ops) a = inr tt.
Proof.
  unfold outcome, run_operations. revert a.
  induction ops as [|op ops IH]; intros a; [reflexivity|].
  destruct (operation_step op a) as (a' & Hrun & _).
  simpl. unfold bind. rewrite Hrun. apply IH.
Qed.

(** X20.  The flag [hasInteractedSinceLoad], once set, is set for good: no
    sequence of operations, loads and [clearAnimation] included, puts it
    back.  From then on [touchRecentIfNeeded] does nothing, and the stored
    recent-files list changes by uploads only. *)
Theorem interaction_flag_is_never_reset (ops : list Operation) (a : App) :
  hasInteractedSinceLoad (this a) = true ->
  let after := exec (run_operations ops) a in
  hasInteractedSinceLoad (this after) = true /\
  touchRecentIfNeeded after = (after, inr tt) /\
  (forallb (fun op => negb (is_upload op)) ops = true ->
   recent_slot (browser after) = recent_slot (browser a)).
Proof.
  intros Hflag after.
  assert (Hrun : hasInteractedSinceLoad (this after) = true /\
                 (forallb (fun op => negb (is_upload op)) ops = true ->
                  recent_slot (browser after) = recent_slot (browser a))).
  { unfold after, exec, run_operations. clear after. revert a Hflag.
    induction ops as [|op ops IH]; intros a Hflag; [simpl; auto|].
    destruct (operation_step op a) as (a' & Hrun & Hkeep & Hstays).
    simpl. unfold bind. rewrite Hrun.
    destruct (IH a' (Hkeep Hflag)) as [Hflag' Hslot']. split; [exact Hflag'|].
    intros Hops. apply andb_prop in Hops as [Hop Hops].
    rewrite (Hslot' Hops). apply Hstays; [|exact Hflag].
    now destruct (is_upload op). }
  destruct Hrun as [Hflag' Hslot]. split; [exact Hflag'|]. split; [|exact Hslot].
  destruct (touchRecentIfNeeded_step after) as (a' & Hrun & Hsame).
  now rewrite Hrun, (Hsame Hflag').
Qed.

Lemma touch_target_state (c c' : LottieConverter) :
  (originalFilename (state c'), originalFileExt (state c'), fileSizeBytes (state c'))
  = (originalFilename (state c), originalFileExt (state c), fileSizeBytes (state c)) ->
  touch_target c' = touch_target c.
Proof. unfold touch_target. now intros [= -> -> ->]. Qed.

(** The first call of [touchRecentIfNeeded] for a named file of known size
    touches its entry, errors swallowed, and sets the flag. *)
Lemma touchRecentIfNeeded_first (a : App) (name : string) (size : Z) :
  hasInteractedSinceLoad (this a) = false ->
  touch_target (this a) = Some (name, size) ->
  touchRecentIfNeeded a
  = ({| browser := guarded_touch name size (browser a);
        this := set_hasInteractedSinceLoad true (this a) |}, inr tt).
Proof.
  intros Hflag Htarget. unfold touchRecentIfNeeded, bind, get_this. rewrite Hflag.
  unfold touch_target in Htarget.
  destruct (originalFilename (state (this a))) as [[|ch base]|]; try discriminate Htarget.
  destruct (fileSizeBytes (state (this a))) as [sz|]; [|discriminate Htarget].
  injection Htarget as <- <-.
  unfold guarded_touch, exec, try_catch, in_browser, zoom, update_this, modify, ret.
  destruct (touchRecent _ sz (browser a)) as [b' [err|[]]]; reflexivity.
Qed.

(** The slider listener touches the entry of the file, when the flag is not
    set yet. *)
Lemma frameSlider_onInput_first (a : App) (target : Slider) (name : string) (size : Z) :
  frameSlider (elements (this a)) = Some target ->
  hasInteractedSinceLoad (this a) = false ->
  touch_target (this a) = Some (name, size) ->
  exists c' : LottieConverter,
    frameSlider_onInput a
    = ({| browser := guarded_touch name size (browser a); this := c' |}, inr tt) /\
    hasInteractedSinceLoad c' = true.
Proof.
  intros Htarget Hflag Htouch. unfold frameSlider_onInput, bind, get_this.
  rewrite Htarget. unfold update_state, update_this, modify. simpl.
  match goal with
  | |- context [touchRecentIfNeeded ?x] =>
      rewrite (touchRecentIfNeeded_first x name size)
  end.
  - eexists. split; reflexivity.
  - simpl. destruct (animationInstance (state (this a))); flags; exact Hflag.
  - simpl. rewrite <- Htouch. apply touch_target_state.
    destruct (animationInstance (state (this a))); simpl;
      rewrite ?applyZoom_state, ?goToAndStop_state; reflexivity.
Qed.

Lemma frameSlider_onInput_touch (a : App) (target : Slider) (name : string) (size : Z) :
  frameSlider (elements (this a)) = Some target ->
  touch_target (this a) = Some (name, size) ->
  exists c' : LottieConverter,
    frameSlider_onInput a
    = ({| browser := if hasInteractedSinceLoad (this a) then browser a
                     else guarded_touch name size (browser a);
          this := c' |}, inr tt) /\
    hasInteractedSinceLoad c' = true.
Proof.
  intros Htarget Htouch. destruct (hasInteractedSinceLoad (this a)) eqn:Hflag.
  - unfold frameSlider_onInput, bind, get_this.
    rewrite Htarget. unfold update_state, update_this, modify. simpl.
    match goal with
    | |- context [touchRecentIfNeeded ?x] =>
        destruct (touchRecentIfNeeded_step x) as (a' & -> & Hsame)
    end.
    rewrite Hsame
      by (simpl; destruct (animationInstance (state (this a))); flags; exact Hflag).
    eexists. split; [reflexivity|].
    simpl; destruct (animationInstance (state (this a))); flags; exact Hflag.
  - now apply (frameSlider_onInput_first a target).
Qed.

Lemma set_slider_state (f : Slider -> Slider) (c : LottieConverter) :
  state (set_slider f c) = state c.
Proof. unfold set_slider. now destruct (frameSlider (elements c)). Qed.

Lemma updateSliderMax_touch (maxValue : Z) (a : App) (target : Slider)
    (name : string) (size : Z) :
  frameSlider (elements (this a)) = Some target ->
  touch_target (this a) = Some (name, size) ->
  exists c' : LottieConverter,
    updateSliderMax maxValue a
    = ({| browser := if hasInteractedSinceLoad (this a) then browser a
                     else guarded_touch name size (browser a);
          this := c' |}, inr tt) /\
    hasInteractedSinceLoad c' = true.
Proof.
  intros Htarget Htouch. unfold updateSliderMax, bind, get_this. rewrite Htarget.
  unfold update_this, modify. simpl.
  match goal with
  | |- context [frameSlider_onInput ?x] =>
      destruct (frameSlider_onInput_touch x
                  {| slider_value := slider_value target; slider_max := maxValue |}
                  name size) as (c' & -> & Hflag)
  end.
  - simpl. unfold set_slider. now rewrite Htarget.
  - simpl. rewrite <- Htouch. apply touch_target_state.
    now rewrite set_slider_state.
  - exists c'. simpl. rewrite set_slider_flag. split; [reflexivity | exact Hflag].
Qed.

Lemma onDOMLoaded_touch (a : App) (inst : AnimationItem) (sl : Slider)
    (name : string) (size : Z) :
  animationInstance (state (this a)) = Some inst ->
  frameSlider (elements (this a)) = Some sl ->
  touch_target (this a) = Some (name, size) ->
  exists c' : LottieConverter,
    onDOMLoaded a
    = ({| browser :=
            add_dispatched "lottie:fileLoaded"
              (if hasInteractedSinceLoad (this a) then browser a
               else guarded_touch name size (browser a));
          this := c' |}, inr tt) /\
    hasInteractedSinceLoad c' = true.
Proof.
  intros Hinst Hsl Htouch. unfold onDOMLoaded, bind, get_this. rewrite Hinst.
  unfold update_state, update_this, modify, in_browser, zoom,
    document_dispatchEvent. simpl.
  match goal with
  | |- context [updateSliderMax ?m ?x] =>
      destruct (updateSliderMax_touch m x
                  {| slider_value := 0; slider_max := slider_max sl |} name size)
        as (c1 & -> & Hflag)
  end.
  - simpl. unfold set_slider. simpl. now rewrite Hsl.
  - simpl. rewrite <- Htouch. apply touch_target_state.
    now rewrite set_slider_state.
  - simpl. rewrite set_slider_flag. simpl.
    eexists. split; [reflexivity|]. flags. exact Hflag.
Qed.

(** X21.  The completion of a load goes through the slider listener, which calls
    [touchRecentIfNeeded]: with a frame slider on the page, the load of a
    named animation of known size itself sets the interaction flag and, when
    the flag was not set, touches the entry of the file (errors swallowed)
    before [lottie:fileLoaded] is announced. *)
Theorem load_completion_counts_as_interaction (a : App) (box : Container)
    (data : Json) (sl : Slider) (name : string) (size : Z) :
  lottieContainer (elements (this a)) = Some box ->
  has_animationData (state (this a)) = Some data ->
  frameSlider (elements (this a)) = Some sl ->
  touch_target (this a) = Some (name, size) ->
  let loaded := exec (loadLottieAnimation ;; engine_DOMLoaded)%js a in
  hasInteractedSinceLoad (this loaded) = true /\
  browser loaded
  = add_dispatched "lottie:fileLoaded"
      (if hasInteractedSinceLoad (this a) then browser a
       else guarded_touch name size (browser a)).
Proof.
  intros Hbox Hdata Hsl Htouch loaded. unfold loaded, exec.
  unfold bind at 1. unfold loadLottieAnimation, bind, get_this.
  rewrite Hbox, Hdata. unfold update_this, update_state, modify. simpl.
  unfold engine_DOMLoaded, bind, update_this, modify. simpl.
  match goal with
  | |- context [onDOMLoaded ?x] =>
      destruct (onDOMLoaded_touch x
                  {| AnimationItem.totalFrames := lottie_totalFrames data;
                     AnimationItem.currentFrame := 0;
                     AnimationItem.loop := isLooping (state (this a));
                     AnimationItem.isPaused := true |} sl name size)
        as (c' & -> & Hflag)
  end.
  - simpl. unfold engine_inserts_svg, replace_content. rewrite Hbox. simpl.
    unfold has_animationData in *. simpl.
    destruct (animationData (state (this a))) as [d|]; [|discriminate].
    destruct (truthy d); [|discriminate]. reflexivity.
  - simpl. unfold engine_inserts_svg, replace_content. rewrite Hbox. simpl.
    unfold has_animationData in *. simpl.
    destruct (animationData (state (this a))) as [d|]; [|discriminate].
    destruct (truthy d); [|discriminate]. simpl. exact Hsl.
  - simpl. rewrite <- Htouch. apply touch_target_state.
    unfold engine_inserts_svg, replace_content. rewrite Hbox. simpl.
    unfold has_animationData in *. simpl.
    destruct (animationData (state (this a))) as [d|]; [|discriminate].
    destruct (truthy d); [|discriminate]. reflexivity.
  - simpl. split; [exact Hflag|]. flags. reflexivity.
Qed.

End Interaction.

Example loaded_app_flag : hasInteractedSinceLoad (this loaded_app) = true.
Proof. vm_compute. reflexivity. Qed.

(** The loaded sample animation through a run that clears it and opens two
    other files: the flag stays set and the stored list is not written. *)
Lemma interaction_flag_is_never_reset_witness :
  let after := exec (run_operations sample_operations) loaded_app in
  hasInteractedSinceLoad (this after) = true /\
  touchRecentIfNeeded after = (after, inr tt) /\
  (forallb (fun op => negb (is_upload op)) sample_operations = true ->
   recent_slot (browser after) = recent_slot (browser loaded_app)).
Proof.
  exact (interaction_flag_is_never_reset sample_operations loaded_app loaded_app_flag).
Defined.

(** The load of the sample animation, named [a.json] with 10 bytes, on a
    page with a frame slider. *)
Lemma load_completion_counts_as_interaction_witness :
  let loaded := exec (loadLottieAnimation ;; engine_DOMLoaded)%js loading_app in
  hasInteractedSinceLoad (this loaded) = true /\
  browser loaded
  = add_dispatched "lottie:fileLoaded"
      (if hasInteractedSinceLoad (this loading_app) then browser loading_app
       else guarded_touch "a.json" 10 (browser loading_app)).
Proof.
  exact (load_completion_counts_as_interaction loading_app _ sample_animation _
           "a.json" 10 eq_refl eq_refl eq_refl eq_refl).
Defined.

(* ===================================================================== *)
(** * File names                                                          *)
(* ===================================================================== *)








Section Uploads.
Context `{Engines}.

Lemma session_tracked (c c' : LottieConverter) :
  session_of c' = session_of c -> tracked_file c' = tracked_file c.
Proof. unfold session_of, tracked_file. now intros [= -> -> -> _ _ _ _ _ _ _]. Qed.




End Uploads.


(* ===================================================================== *)
(** * Clearing and downloads without a drawing                            *)
(* ===================================================================== *)

Section Clearing.
Context `{Engines}.

Lemma downloadCurrentFrame_empty (a : App) :
  current_svg (this a) = None ->
  downloadCurrentFrame a
  = (match lottieContainer (elements (this a)) with
     | Some _ =>
         {| browser :=
              add_alert "No SVG found. Please ensure the animation is loaded."
                (browser (exec touchRecentIfNeeded a));
            this := this (exec touchRecentIfNeeded a) |}
     | None => a
     end, inr None).
Proof.
  intros Hsvg. unfold downloadCurrentFrame, bind, get_this.
  destruct (lottieContainer (elements (this a))) as [box|] eqn:Hbox; [|reflexivity].
  unfold try_catch, exec.
  destruct (touchRecentIfNeeded_run a) as (b' & flag & ->). simpl.
  change (current_svg (set_hasInteractedSinceLoad flag (this a)))
    with (current_svg (this a)).
  now rewrite Hsvg.
Qed.

(** X23.  A download asked for while the render surface holds no drawing offers
    no file and never throws.  On a page with a render surface it shows the
    alert, after [touchRecentIfNeeded] has run: the attempt counts as an
    interaction, and for a tracked file whose flag is not set it touches the
    entry.  On a page without a render surface nothing happens. *)
Theorem download_without_drawing (a : App) :
  current_svg (this a) = None ->
  let touched := exec touchRecentIfNeeded a in
  let after := exec downloadCurrentFrame a in
  outcome downloadCurrentFrame a = inr None /\
  after
  = match lottieContainer (elements (this a)) with
    | Some _ =>
        {| browser :=
             add_alert "No SVG found. Please ensure the animation is loaded."
               (browser touched);
           this := this touched |}
    | None => a
    end /\
  (lottieContainer (elements (this a)) <> None ->
   hasInteractedSinceLoad (this a) = false ->
   forall (name : string) (size : Z),
     touch_target (this a) = Some (name, size) ->
     hasInteractedSinceLoad (this after) = true /\
     localStorage (browser after)
     = localStorage (guarded_touch name size (browser a))).
Proof.
  intros Hsvg touched after. unfold after, touched, outcome, exec.
  rewrite (downloadCurrentFrame_empty a Hsvg). simpl.
  split; [reflexivity|]. split; [reflexivity|].
  intros Hbox Hflag name size Htarget.
  destruct (lottieContainer (elements (this a))); [|contradiction].
  unfold exec. rewrite (touchRecentIfNeeded_first a name size Hflag Htarget).
  split; reflexivity.
Qed.

(** X24.  [clearAnimation] empties the render surface, drops the engine instance
    and the animation data, zeroes both frame counts, forgets the base name
    and the tracked file, stops the playback, takes the loop flag from the
    switch and puts the slider at 0 of 100.  After it no file is current and
    no static document counts as loaded.  It keeps the extension and the
    size of the state, the intrinsic dimensions, the frame rate, the zoom,
    the pan offset and the two switches.  A download asked for next offers no
    file, and writes nothing to the store. *)
Theorem clearAnimation_forgets_the_file (loopSwitch : option (option string))
    (a : App) :
  let cleared := clearAnimation loopSwitch (this a) in
  let asked := {| browser := browser a; this := cleared |} in
  (current_svg cleared, animationInstance (state cleared), animationData (state cleared),
   totalFrames (state cleared), currentFrame (state cleared))
  = (None, None, None, 0, 0) /\
  (originalFilename (state cleared), currentFileName cleared, currentFileSize cleared)
  = (None, None, None) /\
  (isPlaying (state cleared), isLooping (state cleared))
  = (false, loop_from_switch loopSwitch) /\
  frameSlider (elements cleared)
  = option_map (fun _ => {| slider_value := 0; slider_max := 100 |})
      (frameSlider (elements (this a))) /\
  isSVGLoaded cleared = false /\
  (forall (filename : string) (size : Z), isCurrentFile filename size cleared = false) /\
  (originalFileExt (state cleared), fileSizeBytes (state cleared), intrinsic_of cleared,
   fps (state cleared))
  = (originalFileExt (state (this a)), fileSizeBytes (state (this a)),
     intrinsic_of (this a), fps (state (this a))) /\
  (zoomMode (state cleared), zoomPercent (state cleared), panOffsetX cleared,
   panOffsetY cleared, frameOutlineOn cleared, ignoreOpacity (state cleared),
   hasInteractedSinceLoad cleared)
  = (zoomMode (state (this a)), zoomPercent (state (this a)), panOffsetX (this a),
     panOffsetY (this a), frameOutlineOn (this a), ignoreOpacity (state (this a)),
     hasInteractedSinceLoad (this a)) /\
  outcome downloadCurrentFrame asked = inr None /\
  localStorage (browser (exec downloadCurrentFrame asked)) = localStorage (browser a).
Proof.
  intros cleared asked.
  assert (Hstate : state cleared
                   = set_isLooping (loop_from_switch loopSwitch)
                       (set_isPlaying false
                          (set_originalFilename None
                             (set_currentFrame 0
                                (set_totalFrames 0
                                   (set_animationData None
                                      (set_animationInstance None
                                         (state (this a))))))))).
  { unfold cleared, clearAnimation. simpl. rewrite set_slider_state. simpl.
    now destruct (lottieContainer (elements (this a))). }
  assert (Hrest : (currentFileName cleared, currentFileSize cleared,
                   panOffsetX cleared, panOffsetY cleared, frameOutlineOn cleared,
                   hasInteractedSinceLoad cleared)
                  = (None, None, panOffsetX (this a), panOffsetY (this a),
                     frameOutlineOn (this a), hasInteractedSinceLoad (this a))).
  { unfold cleared, clearAnimation, set_slider. simpl.
    destruct (lottieContainer (elements (this a))); simpl;
      destruct (frameSlider (elements (this a))); reflexivity. }
  assert (Hsvg : current_svg cleared = None).
  { unfold cleared, clearAnimation, set_slider, current_svg. simpl.
    destruct (lottieContainer (elements (this a))) as [box|] eqn:Hbox; simpl;
      destruct (frameSlider (elements (this a))); simpl; now rewrite ?Hbox. }
  assert (Hslider : frameSlider (elements cleared)
                    = option_map (fun _ => {| slider_value := 0; slider_max := 100 |})
                        (frameSlider (elements (this a)))).
  { unfold cleared, clearAnimation, set_slider. simpl.
    destruct (lottieContainer (elements (this a))) as [box|]; simpl;
      destruct (frameSlider (elements (this a))) eqn:Hs; simpl; now rewrite ?Hs. }
  clearbody cleared.
  injection Hrest as Hname Hsize Hpx Hpy Hon Hflag.
  unfold intrinsic_of, isSVGLoaded, isCurrentFile.
  rewrite Hstate, Hname, Hsize, Hpx, Hpy, Hon, Hflag, Hsvg, Hslider. simpl.
  repeat split; try reflexivity.
  - unfold outcome. now rewrite (downloadCurrentFrame_empty asked Hsvg).
  - unfold exec at 1. rewrite (downloadCurrentFrame_empty asked Hsvg). simpl.
    assert (Htouch : touchRecentIfNeeded asked = (asked, inr tt)).
    { unfold touchRecentIfNeeded, bind, get_this, ret. simpl.
      rewrite Hstate. simpl. now destruct (hasInteractedSinceLoad cleared). }
    unfold exec. rewrite Htouch.
    now destruct (lottieContainer (elements cleared)).
Qed.

End Clearing.

(* ===================================================================== *)
(** * Raster exports                                                      *)
(* ===================================================================== *)

Section RasterExports.
Context `{Engines}.
Local Open Scope Q_scope.

(** X25.  A raster export: every format other than [svg] gives a raster file,
    PNG for [png] and JPEG, named [.jpg], for anything else.  The quality
    handed to the encoder is the level of the compression slider over 100
    (80 when the slider is missing) clamped into [0, 1], so a level within
    0..100 is passed as it is; it is not a number when the level is not
    one. *)
Theorem raster_export_quality (c : LottieConverter) (e : SvgElement) :
  let format := JS.str_or (exportFormatSelect (elements c)) "svg" in
  let level := JS.parseInt (JS.str_or (compressionSlider (elements c)) "80") in
  String.eqb format "svg" = false ->
  exists (name mime : string) (w h : Z) (quality : option Q) (doc : SvgElement),
    exported_file c e = RasterFile name mime w h quality doc /\
    mime = (if String.eqb format "png" then "image/png" else "image/jpeg")%string /\
    (exists stem : string,
        name = (stem ++ (if String.eqb format "png" then ".png" else ".jpg"))%string) /\
    match level, quality with
    | Some l, Some q =>
        0 <= q <= 1 /\
        ((0 <= l <= 100)%Z -> q == inject_Z l / 100) /\
        ((l <= 0)%Z -> q == 0) /\ ((100 <= l)%Z -> q == 1)
    | None, None => True
    | _, _ => False
    end.
Proof.
  intros format level Hformat. unfold exported_file. fold format. rewrite Hformat.
  unfold downloadRasterFromSVG.
  destruct (image_natural_size _) as [naturalWidth naturalHeight].
  eexists _, _, _, _, _, _. split; [reflexivity|]. split; [reflexivity|].
  split.
  - destruct (String.eqb format "png"); eexists; reflexivity.
  - unfold jpegQuality. fold level. destruct level as [l|]; simpl; [|exact I].
    set (x := inject_Z l / 100).
    assert (Hx0 : (l <= 0)%Z -> x <= 0).
    { intros Hl. unfold x. apply Qle_shift_div_r; [reflexivity|].
      rewrite Qmult_0_l. change 0 with (inject_Z 0). now rewrite <- Zle_Qle. }
    assert (Hx1 : (0 <= l)%Z -> 0 <= x).
    { intros Hl. unfold x. apply Qle_shift_div_l; [reflexivity|].
      rewrite Qmult_0_l. change 0 with (inject_Z 0). now rewrite <- Zle_Qle. }
    assert (Hx2 : (l <= 100)%Z -> x <= 1).
    { intros Hl. unfold x. apply Qle_shift_div_r; [reflexivity|].
      rewrite Qmult_1_l. change 100 with (inject_Z 100). now rewrite <- Zle_Qle. }
    assert (Hx3 : (100 <= l)%Z -> 1 <= x).
    { intros Hl. unfold x. apply Qle_shift_div_l; [reflexivity|].
      rewrite Qmult_1_l. change 100 with (inject_Z 100). now rewrite <- Zle_Qle. }
    assert (Hclamp : forall y : Q,
               0 <= Qmax 0 (Qmin 1 y) <= 1 /\
               (0 <= y <= 1 -> Qmax 0 (Qmin 1 y) == y) /\
               (y <= 0 -> Qmax 0 (Qmin 1 y) == 0) /\
               (1 <= y -> Qmax 0 (Qmin 1 y) == 1)).
    { intros y.
      destruct (Q.max_spec 0 (Qmin 1 y)) as [[H1 ->] | [H1 ->]];
        destruct (Q.min_spec 1 y) as [[H2 H3] | [H2 H3]];
        rewrite ?H3 in *; repeat split; intros; try lra. }
    destruct (Hclamp x) as (Hr & Hid & Hlo & Hhi).
    destruct (Hclamp (Qmax 0 (Qmin 1 x))) as (Hr2 & Hid2 & _ & _).
    specialize (Hid2 Hr).
    split; [rewrite Hid2; exact Hr|]. split; [|split].
    + intros [Hl0 Hl1]. rewrite Hid2. apply Hid. split; auto.
    + intros Hl. rewrite Hid2. apply Hlo. auto.
    + intros Hl. rewrite Hid2. apply Hhi. auto.
Qed.

End RasterExports.

(** The loaded sample animation, exported as PNG with the compression
    slider at 80. *)
Lemma raster_export_quality_witness :
  exists (name mime : string) (w h : Z) (quality : option Q) (doc : SvgElement),
    exported_file (this loaded_app) loaded_svg = RasterFile name mime w h quality doc /\
    mime = "image/png"%string.
Proof.
  destruct (raster_export_quality (this loaded_app) loaded_svg eq_refl)
    as (name & mime & w & h & quality & doc & Hfile & Hmime & _).
  exists name, mime, w, h, quality, doc. split; [exact Hfile | exact Hmime].
Defined.

(** A download asked for on the fresh page. *)
Lemma download_without_drawing_witness :
  outcome downloadCurrentFrame fresh_app = inr None.
Proof. exact (proj1 (download_without_drawing fresh_app eq_refl)). Defined.

(* ===================================================================== *)
(** * The load of an animation                                            *)
(* ===================================================================== *)

Section AnimationLoads.
Context `{Engines}.
Local Open Scope Q_scope.

(** What the slider listener keeps of the controller. *)
Lemma frameSlider_onInput_keeps (a : App) (target : Slider) :
  frameSlider (elements (this a)) = Some target ->
  exists a' : App,
    frameSlider_onInput a = (a', inr tt) /\
    state (this a')
    = set_animationInstance
        (option_map (fun i => AnimationItem.set_isPaused true
                                (AnimationItem.set_currentFrame (slider_value target) i))
           (animationInstance (state (this a))))
        (set_currentFrame (slider_value target) (state (this a))) /\
    (currentFileName (this a'), currentFileSize (this a'),
     panOffsetX (this a'), panOffsetY (this a'))
    = (currentFileName (this a), currentFileSize (this a),
       panOffsetX (this a), panOffsetY (this a)) /\
    alerts (browser a') = alerts (browser a).
Proof.
  intros Htarget. unfold frameSlider_onInput, bind, get_this.
  rewrite Htarget. unfold update_state, update_this, modify. simpl.
  set (c1 := match animationInstance (state (this a)) with
             | Some _ => _
             | None => _
             end).
  assert (Hc1 : session_of c1
                = session_of (set_state
                                (set_animationInstance
                                   (option_map
                                      (fun i => AnimationItem.set_isPaused true
                                                  (AnimationItem.set_currentFrame
                                                     (slider_value target) i))
                                      (animationInstance (state (this a))))
                                   (set_currentFrame (slider_value target)
                                      (state (this a)))) (this a))).
  { unfold c1. destruct (animationInstance (state (this a))) as [inst|] eqn:Hi.
    - destruct (applyZoom_session
                  (goToAndStop (slider_value target)
                     (set_state (set_currentFrame (slider_value target)
                                   (state (this a))) (this a)))) as [-> _].
      unfold goToAndStop. simpl. rewrite Hi.
      destruct (map_svg_session (set_svgContent (EngineFrame (slider_value target)))
                  (set_state
                     (set_animationInstance
                        (Some (AnimationItem.set_isPaused true
                                 (AnimationItem.set_currentFrame (slider_value target)
                                    inst)))
                        (set_currentFrame (slider_value target) (state (this a))))
                     (set_state (set_currentFrame (slider_value target)
                                   (state (this a))) (this a)))) as [-> _].
      reflexivity.
    - unfold session_of. simpl.
      destruct (state (this a)); simpl in *. now rewrite Hi. }
  unfold touchRecentIfNeeded, bind, get_this. simpl.
  unfold session_of in Hc1. injection Hc1 as Hstate Hname Hsize _ _ _ _ Hpx Hpy _.
  destruct (hasInteractedSinceLoad c1).
  - eexists. split; [reflexivity|]. simpl. rewrite Hstate, Hname, Hsize, Hpx, Hpy. auto.
  - destruct (originalFilename (state c1)) as [[|ch base]|];
      try (eexists; split; [reflexivity|]; simpl;
           rewrite Hstate, Hname, Hsize, Hpx, Hpy; now auto).
    destruct (fileSizeBytes (state c1)) as [sz|];
      try (eexists; split; [reflexivity|]; simpl;
           rewrite Hstate, Hname, Hsize, Hpx, Hpy; now auto).
    unfold try_catch, in_browser, zoom, update_this, modify, ret. simpl.
    rewrite touchRecent_run.
    destruct (localStorage (browser a)); simpl;
      (eexists; split; [reflexivity|]); simpl;
      rewrite Hstate, Hname, Hsize, Hpx, Hpy; auto.
Qed.

(** The state the ["DOMLoaded"] listener leaves. *)
Lemma onDOMLoaded_state (a : App) (inst : AnimationItem) :
  animationInstance (state (this a)) = Some inst ->
  let s0 := state (this a) in
  let num := fun k : string => match animationData s0 with
                               | Some d => Number_prop d k
                               | None => None
                               end in
  exists a' : App,
    onDOMLoaded a = (a', inr tt) /\
    state (this a')
    = set_isPlaying false
        (set_animationInstance
           (Some (AnimationItem.set_loop (isLooping s0)
                    (AnimationItem.set_isPaused true
                       (AnimationItem.set_currentFrame 0 inst))))
           (set_currentFrame 0%Z
              (set_height (JS.num_or_opt (num "h"%string) (height s0))
                 (set_width (JS.num_or_opt (num "w"%string) (width s0))
                    (set_fps (JS.num_or_opt (num "fr"%string) (fps s0))
                       (set_totalFrames (AnimationItem.totalFrames inst - 1)%Z s0)))))) /\
    (currentFileName (this a'), currentFileSize (this a'),
     panOffsetX (this a'), panOffsetY (this a'))
    = (currentFileName (this a), currentFileSize (this a), 0, 0) /\
    alerts (browser a') = alerts (browser a) /\
    hd_error (dispatched (browser a')) = Some "lottie:fileLoaded"%string.
Proof.
  intros Hi s0 num. unfold onDOMLoaded, bind, get_this. rewrite Hi.
  unfold update_state, update_this, modify, in_browser, zoom,
    document_dispatchEvent. simpl. fold s0. fold num.
  set (s1 := set_currentFrame 0%Z
               (set_height (JS.num_or_opt (num "h"%string) (height s0))
                  (set_width (JS.num_or_opt (num "w"%string) (width s0))
                     (set_fps (JS.num_or_opt (num "fr"%string) (fps s0))
                        (set_totalFrames (AnimationItem.totalFrames inst - 1)%Z s0))))).
  set (c0 := set_slider _ _).
  assert (Hc0 : state c0 = s1 /\
                (currentFileName c0, currentFileSize c0, panOffsetX c0, panOffsetY c0)
                = (currentFileName (this a), currentFileSize (this a), 0, 0)).
  { unfold c0. rewrite set_slider_state. split; [reflexivity|].
    unfold set_slider. now destruct (frameSlider _). }
  destruct Hc0 as [Hstate0 Hrest0].
  assert (Hmax : exists (a1 : App) (inst1 : AnimationItem),
             updateSliderMax (totalFrames (state c0))
               {| browser := browser a; this := c0 |} = (a1, inr tt) /\
             animationInstance (state (this a1)) = Some inst1 /\
             AnimationItem.set_isPaused true (AnimationItem.set_currentFrame 0 inst1)
             = AnimationItem.set_isPaused true (AnimationItem.set_currentFrame 0 inst) /\
             set_animationInstance None (state (this a1))
             = set_animationInstance None s1 /\
             (currentFileName (this a1), currentFileSize (this a1),
              panOffsetX (this a1), panOffsetY (this a1))
             = (currentFileName (this a), currentFileSize (this a), 0, 0) /\
             alerts (browser a1) = alerts (browser a)).
  { unfold updateSliderMax, bind, get_this. simpl.
    destruct (frameSlider (elements c0)) as [sl|] eqn:Hs.
    - unfold update_this, modify. simpl.
      assert (Hvalue : slider_value sl = 0%Z).
      { unfold c0, set_slider in Hs. simpl in Hs.
        destruct (frameSlider (elements (this a))) eqn:Hs0; simpl in Hs;
          [now injection Hs as <- | congruence]. }
      match goal with
      | |- context [frameSlider_onInput ?x] =>
          destruct (frameSlider_onInput_keeps x
                      {| slider_value := slider_value sl;
                         slider_max := totalFrames (state c0) |})
            as (a1 & -> & Hstate1 & Hrest1 & Halerts1)
      end.
      { simpl. unfold set_slider. now rewrite Hs. }
      exists a1, (AnimationItem.set_isPaused true
                    (AnimationItem.set_currentFrame 0 inst)).
      split; [reflexivity|]. simpl in Hstate1, Hrest1, Halerts1.
      rewrite set_slider_state, Hstate0 in Hstate1.
      assert (Hkeep : forall f,
                 (currentFileName (set_slider f c0), currentFileSize (set_slider f c0),
                  panOffsetX (set_slider f c0), panOffsetY (set_slider f c0))
                 = (currentFileName c0, currentFileSize c0, panOffsetX c0,
                    panOffsetY c0)).
      { intros f. unfold set_slider. now destruct (frameSlider (elements c0)). }
      rewrite Hkeep, Hrest0 in Hrest1. rewrite Hvalue in Hstate1.
      assert (Hi1 : animationInstance s1 = Some inst) by exact Hi.
      rewrite Hi1 in Hstate1. simpl in Hstate1.
      rewrite Hstate1.
      split; [reflexivity|]. split; [reflexivity|]. split; [reflexivity|].
      split; [exact Hrest1 | exact Halerts1].
    - exists {| browser := browser a; this := c0 |}, inst.
      split; [reflexivity|]. simpl. rewrite Hstate0.
      split; [exact Hi|]. split; [reflexivity|]. split; [reflexivity|].
      split; [exact Hrest0 | reflexivity]. }
  destruct Hmax as (a1 & inst1 & -> & Hi1 & Hinst1 & Hstate1 & Hrest1 & Halerts1).
  eexists. split; [reflexivity|]. simpl.
  set (c2 := waitForSvgAndReveal (applyZoom (this a1))).
  assert (Hc2 : session_of c2 = session_of (this a1)).
  { unfold c2. destruct (waitForSvgAndReveal_session (applyZoom (this a1))) as [-> _].
    apply applyZoom_session. }
  set (c3 := applyZoom (goToAndStop 0 c2)).
  assert (Hc3 : state c3
                = set_animationInstance
                    (Some (AnimationItem.set_isPaused true
                             (AnimationItem.set_currentFrame 0 inst))) s1 /\
                (currentFileName c3, currentFileSize c3, panOffsetX c3, panOffsetY c3)
                = (currentFileName (this a), currentFileSize (this a), 0, 0)).
  { unfold c3. rewrite applyZoom_state, goToAndStop_state.
    rewrite (session_state _ _ Hc2), Hi1. simpl. rewrite Hinst1. split.
    - change (set_animationInstance
                (Some (AnimationItem.set_isPaused true
                         (AnimationItem.set_currentFrame 0 inst)))
                (set_animationInstance None (state (this a1)))
              = set_animationInstance
                  (Some (AnimationItem.set_isPaused true
                           (AnimationItem.set_currentFrame 0 inst)))
                  (set_animationInstance None s1)).
      now rewrite Hstate1.
    - destruct (applyZoom_session (goToAndStop 0 c2)) as [Hs _].
      assert (Hg : session_of (goToAndStop 0 c2)
                   = session_of (set_state (state (goToAndStop 0 c2)) c2)).
      { unfold goToAndStop. destruct (animationInstance (state c2)).
        - destruct (map_svg_session (set_svgContent (EngineFrame 0))
                      (set_state
                         (set_animationInstance
                            (Some (AnimationItem.set_isPaused true
                                     (AnimationItem.set_currentFrame 0 t)))
                            (state c2)) c2)) as [-> _].
          unfold session_of. simpl. now rewrite map_svg_state.
        - unfold session_of. simpl. now destruct c2. }
      rewrite Hg in Hs. unfold session_of in Hs, Hc2. simpl in Hs.
      injection Hs as _ -> -> _ _ _ _ -> -> _.
      injection Hc2 as _ -> -> _ _ _ _ -> -> _. exact Hrest1. }
  destruct Hc3 as [Hstate3 Hrest3]. rewrite Hstate3. simpl.
  split; [reflexivity|]. split; [exact Hrest3|]. split; [exact Halerts1 | reflexivity].
Qed.

(** The state after a load has run to completion. *)
Lemma load_completes_state (a : App) (box : Container) (data : Json) :
  lottieContainer (elements (this a)) = Some box ->
  has_animationData (state (this a)) = Some data ->
  let s0 := state (this a) in
  exists a' : App,
    (loadLottieAnimation ;; engine_DOMLoaded)%js a = (a', inr tt) /\
    state (this a')
    = set_isPlaying false
        (set_animationInstance
           (Some {| AnimationItem.totalFrames := lottie_totalFrames data;
                    AnimationItem.currentFrame := 0;
                    AnimationItem.loop := isLooping s0;
                    AnimationItem.isPaused := true |})
           (set_currentFrame 0%Z
              (set_height (JS.num_or_opt (Number_prop data "h") (height s0))
                 (set_width (JS.num_or_opt (Number_prop data "w") (width s0))
                    (set_fps (JS.num_or_opt (Number_prop data "fr") (fps s0))
                       (set_totalFrames (lottie_totalFrames data - 1)%Z s0)))))) /\
    (currentFileName (this a'), currentFileSize (this a'),
     panOffsetX (this a'), panOffsetY (this a'))
    = (currentFileName (this a), currentFileSize (this a), 0, 0) /\
    alerts (browser a') = alerts (browser a).
Proof.
  intros Hbox Hdata s0.
  assert (Hraw : animationData (state (this a)) = Some data).
  { unfold has_animationData in Hdata.
    destruct (animationData (state (this a))) as [d|]; [|discriminate Hdata].
    destruct (truthy d); [exact Hdata | discriminate Hdata]. }
  unfold bind at 1. unfold loadLottieAnimation, bind, get_this.
  rewrite Hbox, Hdata. unfold update_this, update_state, modify. simpl.
  unfold engine_DOMLoaded, bind, update_this, modify. simpl.
  match goal with
  | |- context [onDOMLoaded ?x] =>
      destruct (onDOMLoaded_state x
                  {| AnimationItem.totalFrames := lottie_totalFrames data;
                     AnimationItem.currentFrame := 0;
                     AnimationItem.loop := isLooping (state (this a));
                     AnimationItem.isPaused := true |})
        as (a' & -> & Hstate & Hrest & Halerts & _)
  end.
  - simpl. unfold engine_inserts_svg, replace_content. rewrite Hbox. simpl.
    unfold has_animationData in *. simpl. rewrite Hraw in *.
    destruct (truthy data); [reflexivity | discriminate Hdata].
  - exists a'. split; [reflexivity|].
    assert (Hpre : forall c : LottieConverter,
               lottieContainer (elements c) = Some box ->
               state (engine_inserts_svg (replace_content None c)) = state c /\
               (currentFileName (engine_inserts_svg (replace_content None c)),
                currentFileSize (engine_inserts_svg (replace_content None c)))
               = (currentFileName c, currentFileSize c)).
    { intros c Hc. unfold engine_inserts_svg, replace_content. rewrite Hc. simpl.
      now destruct (has_animationData (state c)). }
    simpl in Hstate, Hrest, Halerts.
    unfold engine_inserts_svg, replace_content in Hstate, Hrest.
    rewrite Hbox in Hstate, Hrest. simpl in Hstate, Hrest.
    unfold has_animationData in Hstate, Hrest. simpl in Hstate, Hrest.
    rewrite Hraw in Hstate, Hrest.
    unfold has_animationData in Hdata. rewrite Hraw in Hdata.
    destruct (truthy data); [|discriminate Hdata].
    simpl in Hstate, Hrest. unfold s0. rewrite ?Hraw in Hstate.
    split; [rewrite Hstate; reflexivity|]. split; [exact Hrest | exact Halerts].
Qed.

(** A cached text that parses is loaded like an upload, without a save. *)
Lemma loadFromJSONString_parsed (a : App) (data : Json) (filename json : string)
    (size : Z) :
  JSON_parse json = Some data ->
  loadFromJSONString filename size json a
  = loadLottieAnimation
      {| browser := browser a;
         this :=
           set_currentFileSize (Some size)
             (set_currentFileName (Some filename)
                (set_state
                   (set_fileSizeBytes (Some size)
                      (set_animationData (Some data)
                         (set_originalFileExt
                            (Some (if endsWith (toLowerCase filename) ".svg"
                                   then ".svg" else ".json")%string)
                            (set_originalFilename (Some (strip_json_or_svg filename))
                               (state (this a)))))) (this a))) |}.
Proof.
  intros Hparse. unfold loadFromJSONString, try_catch.
  unfold bind at 1. unfold update_state, update_this, modify. simpl.
  unfold bind at 1. unfold JSON_parse_or_throw. rewrite Hparse.
  unfold ret at 1. unfold bind at 1 2. unfold update_state, update_this, modify.
  simpl.
  match goal with
  | |- context [loadLottieAnimation ?x] =>
      destruct (loadLottieAnimation_step x) as (c' & Hrun & _)
  end.
  simpl in Hrun. now rewrite Hrun.
Qed.

(** X26.  An animation opened from the recent files, once the engine has
    finished: the calls return normally; the animation is loaded with the
    frame count of the engine, stopped on frame 0 with the loop flag of the
    state, and nothing plays; the file is the current one and no static
    document counts as loaded; the pan offset is zero.  Width, height and
    frame rate are [w], [h] and [fr] of the data where these are non-zero
    numbers, and otherwise those recorded for the asset loaded before. *)
Theorem recent_animation_load (a : App) (box : Container) (data : Json)
    (filename json : string) (size : Z) :
  lottieContainer (elements (this a)) = Some box ->
  JSON_parse json = Some data ->
  truthy data = true ->
  let run := (loadFromJSONString filename size json ;; engine_DOMLoaded)%js in
  let loaded := this (exec run a) in
  let s0 := state (this a) in
  outcome run a = inr tt /\
  animated (lottie_totalFrames data) loaded /\
  (currentFrame (state loaded), isPlaying (state loaded)) = (0%Z, false) /\
  (engine_paused loaded, engine_loop loaded, engine_frame loaded)
  = (Some true, Some (isLooping s0), Some 0%Z) /\
  intrinsic_of loaded
  = (JS.num_or_opt (Number_prop data "w") (width s0),
     JS.num_or_opt (Number_prop data "h") (height s0)) /\
  fps (state loaded) = JS.num_or_opt (Number_prop data "fr") (fps s0) /\
  (panOffsetX loaded, panOffsetY loaded) = (0, 0) /\
  tracked_file loaded
  = (Some (strip_json_or_svg filename),
     Some (if endsWith (toLowerCase filename) ".svg" then ".svg" else ".json")%string,
     Some size, Some filename, Some size) /\
  isCurrentFile filename size loaded = true /\
  isSVGLoaded loaded = false /\
  alerts (browser (exec run a)) = alerts (browser a).
Proof.
  intros Hbox Hparse Htruthy run loaded s0.
  assert (Hrun : exists a' : App,
             run a = (a', inr tt) /\
             state (this a')
             = set_isPlaying false
                 (set_animationInstance
                    (Some {| AnimationItem.totalFrames := lottie_totalFrames data;
                             AnimationItem.currentFrame := 0;
                             AnimationItem.loop := isLooping s0;
                             AnimationItem.isPaused := true |})
                    (set_currentFrame 0%Z
                       (set_height (JS.num_or_opt (Number_prop data "h") (height s0))
                          (set_width (JS.num_or_opt (Number_prop data "w") (width s0))
                             (set_fps (JS.num_or_opt (Number_prop data "fr") (fps s0))
                                (set_totalFrames (lottie_totalFrames data - 1)%Z
                                   (set_fileSizeBytes (Some size)
                                      (set_animationData (Some data)
                                         (set_originalFileExt
                                            (Some (if endsWith (toLowerCase filename) ".svg"
                                                   then ".svg" else ".json")%string)
                                            (set_originalFilename
                                               (Some (strip_json_or_svg filename))
                                               s0)))))))))) /\
             (currentFileName (this a'), currentFileSize (this a'),
              panOffsetX (this a'), panOffsetY (this a'))
             = (Some filename, Some size, 0, 0) /\
             alerts (browser a') = alerts (browser a)).
  { unfold run. unfold bind at 1.
    rewrite (loadFromJSONString_parsed a data filename json size Hparse).
    match goal with
    | |- context [loadLottieAnimation ?x] =>
        destruct (load_completes_state x box data) as (a' & Hrun & Hstate & Hrest & Hal)
    end.
    - exact Hbox.
    - unfold has_animationData. simpl. now rewrite Htruthy.
    - unfold bind at 1 in Hrun. exists a'. split; [exact Hrun|].
      split; [exact Hstate|]. split; [exact Hrest | exact Hal]. }
  destruct Hrun as (a' & Hrun & Hstate & Hrest & Halerts).
  unfold loaded, outcome, exec. rewrite Hrun. simpl.
  injection Hrest as Hname Hsize Hpx Hpy.
  unfold animated, engine_frames, engine_paused, engine_loop, engine_frame,
    intrinsic_of, tracked_file, isCurrentFile, isSVGLoaded.
  rewrite Hstate, Hname, Hsize, Hpx, Hpy, Halerts, String.eqb_refl, Z.eqb_refl.
  simpl. rewrite andb_false_r. repeat split; reflexivity.
Qed.

End AnimationLoads.

(** The text [{}] opened on the fresh page: the sample engine reads it as
    an animation of one frame without dimensions, so none are recorded. *)
Lemma recent_animation_load_witness :
  let run := (loadFromJSONString "y.json" 4 "{}" ;; engine_DOMLoaded)%js in
  animated 1 (this (exec run fresh_app)) /\
  intrinsic_of (this (exec run fresh_app)) = (None, None) /\
  isCurrentFile "y.json" 4 (this (exec run fresh_app)) = true.
Proof.
  pose proof (recent_animation_load fresh_app _ (SampleAnimation 0 0 0 1)
                "y.json" "{}" 4 eq_refl eq_refl eq_refl) as Hload.
  exact (conj (proj1 (proj2 Hload))
           (conj (proj1 (proj2 (proj2 (proj2 (proj2 Hload)))))
              (proj1 (proj2 (proj2 (proj2 (proj2 (proj2 (proj2 (proj2 (proj2 Hload))))))))))).
Defined.

(* ===================================================================== *)
(** * The recent-files list: unreadable stores and unknown files          *)
(* ===================================================================== *)

Section RecentFilesEdges.
Context `{JSON}.



End RecentFilesEdges.


(* ===================================================================== *)
(** * The zoom-in and zoom-out selections                                 *)
(* ===================================================================== *)

Section ZoomSteps.
Context `{Engines}.

(** X28.  The zoom-in selection stores the next of 50, 100, 200, 400 above the
    percentage in effect and the zoom-out selection the next of 200, 100, 50,
    25 below it; so zoom-in enlarges exactly from below 400 (from above it
    comes back down to 400) and zoom-out reduces exactly from above 25 (from
    below it comes up to 25).  Both leave the mode fixed and the pan offset
    as it is. *)
Theorem zoom_selections_step_along_the_ladder (c : LottieConverter) :
  let p := basePercent c in
  let zoomedIn := handleSelectChange "zoom-in" c in
  let zoomedOut := handleSelectChange "zoom-out" c in
  let nextIn := zoomPercent (state zoomedIn) in
  let nextOut := zoomPercent (state zoomedOut) in
  (nextIn = 50 \/ nextIn = 100 \/ nextIn = 200 \/ nextIn = 400) /\
  (nextOut = 25 \/ nextOut = 50 \/ nextOut = 100 \/ nextOut = 200) /\
  (p < nextIn <-> p < 400) /\
  (nextOut < p <-> 25 < p) /\
  (p < 400 -> forall q : Z, In q [50; 100; 200; 400] -> p < q -> nextIn <= q) /\
  (25 < p -> forall q : Z, In q [25; 50; 100; 200] -> q < p -> q <= nextOut) /\
  (zoomMode (state zoomedIn), zoomMode (state zoomedOut)) = (fixed, fixed) /\
  (panOffsetX zoomedIn, panOffsetY zoomedIn, panOffsetX zoomedOut, panOffsetY zoomedOut)
  = (panOffsetX c, panOffsetY c, panOffsetX c, panOffsetY c).
Proof.
  intros p zoomedIn zoomedOut nextIn nextOut.
  assert (Hset : forall percent : Z,
             state (setPercent percent c)
             = set_zoomPercent percent (set_zoomMode fixed (state c)) /\
             panOffsetX (setPercent percent c) = panOffsetX c /\
             panOffsetY (setPercent percent c) = panOffsetY c).
  { intros percent. unfold setPercent.
    set (c1 := set_state _ c).
    destruct (updateFrameOutlineAppearance_session (applyZoom c1)) as [Hs _].
    destruct (applyZoom_session c1) as [Hs' _]. rewrite Hs' in Hs.
    unfold session_of in Hs. now injection Hs as -> _ _ _ _ _ _ -> -> _. }
  unfold nextIn, nextOut, zoomedIn, zoomedOut, handleSelectChange. simpl.
  fold p.
  destruct (Hset (if 200 <=? p then 400 else if 100 <=? p then 200
                  else if 50 <=? p then 100 else 50)) as (-> & -> & ->).
  destruct (Hset (if p <=? 50 then 25 else if p <=? 100 then 50
                  else if p <=? 200 then 100 else 200)) as (-> & -> & ->).
  simpl.
  destruct (Z.leb_spec 200 p), (Z.leb_spec 100 p), (Z.leb_spec 50 p),
    (Z.leb_spec p 50), (Z.leb_spec p 100), (Z.leb_spec p 200); try lia;
    (repeat split; try lia; try reflexivity; auto;
     intros Hp q Hq Hpq; simpl in Hq; lia).
Qed.

End ZoomSteps.
